(** * Pharma analytics pipeline (src/main.py): a shallow embedding

    The program loads pharmacy, claim and revert records into pandas
    data frames, filters the claims and computes three reports (Goals 2,
    3 and 4) that it writes as JSON files.

    - A data frame is a list of column labels together with a list of
      rows; a row is an association list from label to cell, and a label
      that a row does not carry reads as the missing value.
    - A cell is text, a number or the missing value (pandas [NaN] or
      [None]).  A number is embedded as the rational it denotes ([Q]).
      What division, sum, mean and rounding return depends on the number
      type of the column (int64 wraps around, float64 rounds to
      binary64), so these operations are parameters, bundled in
      [Arithmetic]: a property proved here holds for every arithmetic.
      Comparisons and counts are exact.
    - Reading a label that a frame does not have raises [KeyError], and
      [reset_index(name=...)] on a frame raises [TypeError]; the
      operations that can raise return in the error type [E].
    - The frames that [main] owns are objects in a store, addressed by
      reference, so that an in-place update is seen by every holder of
      the reference.  The output directory is the list of files written
      so far.  Effectful code runs in the monad [M], which keeps the
      store and the files also when an exception ends the run.
    - [sort_values] is a stable insertion sort; pandas leaves the order
      of ties open, and no property below depends on it.
    - Reading the files is outside the model: [load_data_from_dirs]
      starts from the frames of the files that could be parsed.  Writing
      a result, and the passage of a result through [to_json] and
      [json.loads] at lines 98 and 114, are taken to keep its values. *)

From Stdlib Require Import List String Ascii ZArith QArith Qround Bool Lia.
From Stdlib Require Import Permutation Sorted.
From Stdlib Require Floats Uint63.
Import ListNotations.
Local Open Scope nat_scope.
Local Open Scope string_scope.
Local Open Scope list_scope.

(** ** Cells, rows and frames *)

Inductive cell : Type :=
| NaN
| Str (s : string)
| Num (q : Q).

Definition isna (c : cell) : bool :=
  match c with NaN => true | _ => false end.

(** Value equality of cells, as used by [isin], [groupby] and [merge]
    (missing values compare equal to each other there). *)
Definition cell_eqb (a b : cell) : bool :=
  match a, b with
  | NaN, NaN => true
  | Str s, Str t => String.eqb s t
  | Num p, Num q => Qeq_bool p q
  | _, _ => false
  end.

(** Order used to sort group keys: numbers before strings before
    missing values. *)
Definition cell_leb (a b : cell) : bool :=
  match a, b with
  | Num p, Num q => Qle_bool p q
  | Num _, _ => true
  | Str _, Num _ => false
  | Str s, Str t => String.leb s t
  | Str _, NaN => true
  | NaN, NaN => true
  | NaN, _ => false
  end.

Definition row : Type := list (string * cell).

Fixpoint field (r : row) (c : string) : cell :=
  match r with
  | [] => NaN
  | (k, v) :: r' => if String.eqb k c then v else field r' c
  end.

Fixpoint with_field (r : row) (c : string) (v : cell) : row :=
  match r with
  | [] => [(c, v)]
  | (k, w) :: r' =>
      if String.eqb k c then (k, v) :: r' else (k, w) :: with_field r' c v
  end.

Definition Series : Type := list cell.

Record DataFrame : Type := mkDataFrame {
  columns : list string;
  rows : list row
}.

Definition has_column (df : DataFrame) (c : string) : bool :=
  existsb (String.eqb c) (columns df).

(** [pd.DataFrame()] *)
Definition DataFrame_empty : DataFrame := mkDataFrame [] [].

(** [df.empty]: some axis has length zero. *)
Definition empty (df : DataFrame) : bool :=
  match columns df, rows df with
  | [], _ => true
  | _, [] => true
  | _, _ => false
  end.

(** ** Exceptions *)

Inductive exn : Type :=
| KeyError (k : string)
| TypeError.

Definition E (A : Type) : Type := (exn + A)%type.

Definition retE {A} (a : A) : E A := inr a.
Definition raiseE {A} (e : exn) : E A := inl e.
Definition bindE {A B} (m : E A) (k : A -> E B) : E B :=
  match m with
  | inl e => inl e
  | inr a => k a
  end.

Notation "'let*' x ':=' m 'in' k" := (bindE m (fun x => k))
  (at level 10, x name, m at level 100, k at level 200).

(** ** Generic list helpers *)

Section Sorting.
Context {A : Type} (leb : A -> A -> bool).

Fixpoint insert_sorted (x : A) (l : list A) : list A :=
  match l with
  | [] => [x]
  | y :: l' => if leb x y then x :: l else y :: insert_sorted x l'
  end.

(** Stable insertion sort: equal elements keep their relative order. *)
Definition sort_by (l : list A) : list A :=
  fold_right insert_sorted [] l.
End Sorting.

Section Dedup.
Context {A : Type} (eqb : A -> A -> bool).

(** First occurrences, in order of appearance. *)
Fixpoint unique (l : list A) : list A :=
  match l with
  | [] => []
  | x :: l' => x :: filter (fun y => negb (eqb x y)) (unique l')
  end.
End Dedup.

Fixpoint forallb2 {A} (f : A -> A -> bool) (l1 l2 : list A) : bool :=
  match l1, l2 with
  | [], [] => true
  | x :: l1', y :: l2' => f x y && forallb2 f l1' l2'
  | _, _ => false
  end.

(** Boolean indexing of a list by a mask of the same length. *)
Fixpoint select {A} (l : list A) (mask : list bool) : list A :=
  match l, mask with
  | x :: l', b :: mask' => if b then x :: select l' mask' else select l' mask'
  | _, _ => []
  end.

(** ** The pandas operations the program uses *)

(** [df[c]] *)
Definition getitem (df : DataFrame) (c : string) : E Series :=
  if has_column df c then retE (map (fun r => field r c) (rows df))
  else raiseE (KeyError c).

(** [df[c] = s] on a frame value (the result is the updated frame). *)
Definition setitem (df : DataFrame) (c : string) (s : Series) : DataFrame :=
  mkDataFrame
    (if has_column df c then columns df else columns df ++ [c])
    (map (fun rv => with_field (fst rv) c (snd rv)) (combine (rows df) s)).

(** [s.isin(values)] *)
Definition isin (s values : Series) : list bool :=
  map (fun v => existsb (cell_eqb v) values) s.

(** [df[mask]] *)
Definition getitem_mask (df : DataFrame) (mask : list bool) : DataFrame :=
  mkDataFrame (columns df) (select (rows df) mask).

(** [df.dropna(subset=cs)]: the first absent label raises [KeyError];
    otherwise rows with a missing value in one of [cs] are removed. *)
Definition dropna (df : DataFrame) (subset : list string) : E DataFrame :=
  match filter (fun c => negb (has_column df c)) subset with
  | c :: _ => raiseE (KeyError c)
  | [] =>
      retE (mkDataFrame (columns df)
              (filter (fun r => negb (existsb (fun c => isna (field r c)) subset))
                 (rows df)))
  end.

(** [s > 0]: a missing value compares false. *)
Definition gt_zero (s : Series) : list bool :=
  map (fun v => match v with
                | Num q => negb (Qle_bool q 0%Q)
                | _ => false
                end) s.

(** [s1 / s2] on numeric series, with the division [div] of their
    number types. *)
Definition cell_div (div : Q -> Q -> Q) (a b : cell) : cell :=
  match a, b with
  | Num p, Num q => Num (div p q)
  | _, _ => NaN
  end.

Definition series_div (div : Q -> Q -> Q) (s1 s2 : Series) : Series :=
  map (fun ab => cell_div div (fst ab) (snd ab)) (combine s1 s2).

(** [s.fillna(v)] *)
Definition fill (v c : cell) : cell := if isna c then v else c.

Definition fillna (v : cell) (s : Series) : Series := map (fill v) s.

(** [s.round(2)], with the rounding [round] of the number type of [s];
    a missing value stays missing. *)
Definition round_cell (round : Q -> Q) (c : cell) : cell :=
  match c with Num q => Num (round q) | _ => c end.

Definition round_2 (round : Q -> Q) (s : Series) : Series :=
  map (round_cell round) s.

(** Truncation towards zero. *)
Definition int_cell (c : cell) : cell :=
  match c with
  | Num q => Num (inject_Z (if Qle_bool 0%Q q then Qfloor q else Qceiling q))
  | _ => c
  end.

(** [s.astype(int)] on a numeric series without missing values. *)
Definition astype_int (s : Series) : Series := map int_cell s.

(** *** Grouping *)

Definition key : Type := list cell.

Definition key_of (by_ : list string) (r : row) : key :=
  map (field r) by_.

Definition key_eqb : key -> key -> bool := forallb2 cell_eqb.

Definition key_isna (k : key) : bool := existsb isna k.

Fixpoint key_leb (k1 k2 : key) : bool :=
  match k1, k2 with
  | [], _ => true
  | _ :: _, [] => false
  | a :: k1', b :: k2' => if cell_eqb a b then key_leb k1' k2' else cell_leb a b
  end.

(** The groups of [df.groupby(by_)]: rows with a missing key value are
    left out, the groups come in ascending key order, and the rows of a
    group keep the order they have in the frame. *)
Definition groups (by_ : list string) (rs : list row) : list (key * list row) :=
  let ks :=
    sort_by key_leb
      (unique key_eqb
         (filter (fun k => negb (key_isna k)) (map (key_of by_) rs))) in
  map (fun k => (k, filter (fun r => key_eqb (key_of by_ r) k) rs)) ks.

Definition missing_labels (df : DataFrame) (cs : list string) : list string :=
  filter (fun c => negb (has_column df c)) cs.

Definition groupby (df : DataFrame) (by_ : list string) : E (list (key * list row)) :=
  match missing_labels df by_ with
  | c :: _ => raiseE (KeyError c)
  | [] => retE (groups by_ (rows df))
  end.

(** The aggregations of [agg]; [Mean] and [Sum] carry the operation of
    the number type of the column they are applied to. *)
Inductive aggfunc : Type :=
| Mean (f : list Q -> Q)
| Sum (f : list Q -> Q)
| Count.

Definition count_notna (s : Series) : nat :=
  List.length (filter (fun c => negb (isna c)) s).

Definition numbers (s : Series) : list Q :=
  flat_map (fun c => match c with Num q => [q] | _ => [] end) s.

Definition count_cell (n : nat) : cell := Num (inject_Z (Z.of_nat n)).

(** One aggregate of a group: missing values are skipped, and the mean
    of a group without a number is missing. *)
Definition aggregate (f : aggfunc) (s : Series) : cell :=
  match f with
  | Count => count_cell (count_notna s)
  | Sum sum => Num (sum (numbers s))
  | Mean mean =>
      match numbers s with
      | [] => NaN
      | qs => Num (mean qs)
      end
  end.

(** [df.groupby(by_).agg(name=(column, func), ...).reset_index()] *)
Definition groupby_agg (df : DataFrame) (by_ : list string)
    (specs : list (string * (string * aggfunc))) : E DataFrame :=
  let* gs := groupby df by_ in
  match missing_labels df (map (fun sp => fst (snd sp)) specs) with
  | c :: _ => raiseE (KeyError c)
  | [] =>
      retE (mkDataFrame (by_ ++ map fst specs)
              (map (fun g =>
                      combine by_ (fst g) ++
                      map (fun sp =>
                             (fst sp,
                              aggregate (snd (snd sp))
                                (map (fun r => field r (fst (snd sp))) (snd g))))
                        specs)
                 gs))
  end.

(** [df.groupby(by_).size().reset_index(name=name)] *)
Definition groupby_size (df : DataFrame) (by_ : list string) (name : string)
  : E DataFrame :=
  let* gs := groupby df by_ in
  retE (mkDataFrame (by_ ++ [name])
          (map (fun g => combine by_ (fst g) ++ [(name, count_cell (List.length (snd g)))])
             gs)).

(** [df.groupby(by_).head(n)]: the rows that are among the first [n] of
    their group, in the order of the frame. *)
Fixpoint head_rows (by_ : list string) (n : nat) (seen : list key) (rs : list row)
  : list row :=
  match rs with
  | [] => []
  | r :: rs' =>
      let k := key_of by_ r in
      if key_isna k then head_rows by_ n seen rs'
      else if Nat.ltb (List.length (filter (key_eqb k) seen)) n
           then r :: head_rows by_ n (k :: seen) rs'
           else head_rows by_ n (k :: seen) rs'
  end.

Definition groupby_head (df : DataFrame) (by_ : list string) (n : nat) : E DataFrame :=
  match missing_labels df by_ with
  | c :: _ => raiseE (KeyError c)
  | [] => retE (mkDataFrame (columns df) (head_rows by_ n [] (rows df)))
  end.

(** [df.groupby(c)[column].apply(list).reset_index(name=...)]: one
    list per group, in ascending key order.  The result of [apply] on
    the groups of a column is a Series, also when there is no group. *)
Definition groupby_column_apply {A} (df : DataFrame) (c : string) (f : list row -> A)
  : E (list (cell * A)) :=
  let* gs := groupby df [c] in
  retE (map (fun g => (hd NaN (fst g), f (snd g))) gs).

(** [df.groupby(c).apply(f, include_groups=False).reset_index(name=...)]
    for an [f] that returns a list: with at least one group [apply]
    gives a Series of the lists, and [reset_index] names its column.
    Without any group [apply] gives a DataFrame, whose [reset_index]
    has no parameter [name]: the call raises [TypeError]. *)
Definition groupby_apply {A} (df : DataFrame) (c : string) (f : list row -> A)
  : E (list (cell * A)) :=
  let* gs := groupby df [c] in
  match gs with
  | [] => raiseE TypeError
  | _ => retE (map (fun g => (hd NaN (fst g), f (snd g))) gs)
  end.

(** *** Sorting by a numeric column *)

(** Ascending order on a numeric column: values that are not numbers
    come last. *)
Definition asc_leb (a b : cell) : bool :=
  match a, b with
  | Num p, Num q => Qle_bool p q
  | Num _, _ => true
  | _, Num _ => false
  | _, _ => true
  end.

Definition desc_leb (a b : cell) : bool :=
  match a, b with
  | Num p, Num q => Qle_bool q p
  | Num _, _ => true
  | _, Num _ => false
  | _, _ => true
  end.

(** [df.sort_values(c, ascending=asc)] *)
Definition sort_values (df : DataFrame) (c : string) (asc : bool) : E DataFrame :=
  if has_column df c then
    retE (mkDataFrame (columns df)
            (sort_by (fun r1 r2 =>
                        (if asc then asc_leb else desc_leb) (field r1 c) (field r2 c))
               (rows df)))
  else raiseE (KeyError c).

(** *** Joining *)

Inductive how : Type := Left | Inner.

Definition mem (c : string) (l : list string) : bool := existsb (String.eqb c) l.

Section Merge.
Variables (left right : DataFrame) (on : list string).

(** Labels present on both sides that are not join keys are renamed
    with the suffixes [_x] and [_y]. *)
Definition overlap : list string :=
  filter (fun c => mem c (columns right) && negb (mem c on)) (columns left).

Definition left_label (c : string) : string :=
  if mem c overlap then String.append c "_x" else c.

Definition right_label (c : string) : string :=
  if mem c overlap then String.append c "_y" else c.

Definition right_columns : list string :=
  filter (fun c => negb (mem c on)) (columns right).

Definition joined (l m : row) : row :=
  map (fun c => (left_label c, field l c)) (columns left) ++
  map (fun c => (right_label c, field m c)) right_columns.

Definition matches (l : row) : list row :=
  filter (fun m => key_eqb (key_of on m) (key_of on l)) (rows right).

(** [pd.merge(left, right, on=on, how=h)] *)
Definition merge (h : how) : E DataFrame :=
  match missing_labels left on ++ missing_labels right on with
  | c :: _ => raiseE (KeyError c)
  | [] =>
      retE (mkDataFrame
              (map left_label (columns left) ++ map right_label right_columns)
              (flat_map (fun l =>
                           match matches l, h with
                           | [], Left => [joined l []]
                           | [], Inner => []
                           | ms, _ => map (joined l) ms
                           end)
                 (rows left)))
  end.
End Merge.

(** [df[cs]] for a list of labels. *)
Definition getitem_columns (df : DataFrame) (cs : list string) : E DataFrame :=
  match missing_labels df cs with
  | c :: _ => raiseE (KeyError c)
  | [] =>
      retE (mkDataFrame cs (map (fun r => map (fun c => (c, field r c)) cs) (rows df)))
  end.

(** [pd.concat(dfs, ignore_index=True)]: the union of the labels in
    order of first appearance, and all rows in order. *)
Definition concat (dfs : list DataFrame) : DataFrame :=
  mkDataFrame (unique String.eqb (flat_map columns dfs)) (flat_map rows dfs).

(** ** The store of frame objects and the output directory *)

Definition ref : Type := nat.

(** What a written file holds. *)
Inductive payload : Type :=
| Records (df : DataFrame)
| Recommendations (l : list (cell * list row))
| Quantities (l : list (cell * list cell)).

Record World : Type := mkWorld {
  heap : list DataFrame;          (* the frame objects, by reference *)
  made_dir : bool;                (* os.makedirs(output_dir) has run *)
  written : list (string * payload) (* files written so far, oldest first *)
}.

Definition M (A : Type) : Type := World -> E A * World.

Definition ret {A} (a : A) : M A := fun w => (inr a, w).
Definition bind {A B} (m : M A) (k : A -> M B) : M B :=
  fun w =>
    match m w with
    | (inl e, w') => (inl e, w')
    | (inr a, w') => k a w'
    end.
Definition liftE {A} (m : E A) : M A := fun w => (m, w).

Notation "x <- m ;; k" := (bind m (fun x => k))
  (at level 61, m at next level, right associativity).
Notation "m ;;; k" := (bind m (fun _ => k))
  (at level 61, right associativity).

(** A new frame object. *)
Definition new (df : DataFrame) : M ref :=
  fun w => (inr (List.length (heap w)),
            mkWorld (heap w ++ [df]) (made_dir w) (written w)).

(** The current state of a frame object. *)
Definition deref (r : ref) : M DataFrame :=
  fun w => (inr (nth r (heap w) DataFrame_empty), w).

Fixpoint update {A} (l : list A) (i : nat) (a : A) : list A :=
  match l, i with
  | [], _ => []
  | _ :: l', O => a :: l'
  | x :: l', S i' => x :: update l' i' a
  end.

(** An in-place update of a frame object. *)
Definition assign (r : ref) (df : DataFrame) : M unit :=
  fun w => (inr tt, mkWorld (update (heap w) r df) (made_dir w) (written w)).

Definition makedirs : M unit :=
  fun w => (inr tt, mkWorld (heap w) true (written w)).

Definition write_file (name : string) (p : payload) : M unit :=
  fun w => (inr tt, mkWorld (heap w) (made_dir w) (written w ++ [(name, p)])).

Definition initial_world : World := mkWorld [] false [].

(** ** The arithmetic of the numeric columns

    What an arithmetic operation of pandas returns depends on the
    number type of the column, which a frame of this embedding does not
    record: an [int64] column wraps around, a [float64] column rounds to
    binary64.  The operations of the program whose result depends on it
    are the fields of [Arithmetic].  Each stands for the operation at
    its place in the source, on finite numbers; nothing is assumed of
    it, so what is proved holds for the arithmetic of every run. *)
Class Arithmetic : Type := {
  (* an entry of price / quantity, lines 50 and 83 *)
  truediv : Q -> Q -> Q;
  (* the mean of a group of unit_price, lines 53 and 86 *)
  mean : list Q -> Q;
  (* the sum of a group of price, line 54 *)
  sum_price : list Q -> Q;
  (* an entry of avg_price.round(2), lines 68 and 87 *)
  round_avg : Q -> Q;
  (* an entry of total_price.round(2), line 69 *)
  round_total : Q -> Q
}.

(** ** The program *)

(** [load_data_from_dirs], lines 7-38.  The argument is [all_dfs]: the
    frames of the files that were found and could be parsed, in order. *)
Definition load_data_from_dirs (all_dfs : list DataFrame) : DataFrame :=
  match all_dfs with
  | [] => DataFrame_empty
  | _ => concat all_dfs
  end.

Section Pipeline.

Context {arith : Arithmetic}.

(** The parser behind [pd.to_numeric] for text cells. *)
Variable float_of_string : string -> option Q.

Definition coerce (c : cell) : cell :=
  match c with
  | Num q => Num q
  | Str t => match float_of_string t with Some q => Num q | None => NaN end
  | NaN => NaN
  end.

(** [pd.to_numeric(s, errors='coerce')] *)
Definition to_numeric (s : Series) : Series := map coerce s.

(** *** Goal 2 *)

(** Lines 44-49: the claims kept for the price metrics, before the
    unit price is derived. *)
Definition goal_2_positive_claims (claims_df reverts_df : DataFrame) : E DataFrame :=
  let* ids := getitem claims_df "id" in
  let* claim_ids := getitem reverts_df "claim_id" in
  let valid_claims_df := getitem_mask claims_df (map negb (isin ids claim_ids)) in
  let* price := getitem valid_claims_df "price" in
  let valid_claims_df := setitem valid_claims_df "price" (to_numeric price) in
  let* quantity := getitem valid_claims_df "quantity" in
  let valid_claims_df := setitem valid_claims_df "quantity" (to_numeric quantity) in
  let* valid_claims_df := dropna valid_claims_df ["price"; "quantity"] in
  let* quantity := getitem valid_claims_df "quantity" in
  retE (getitem_mask valid_claims_df (gt_zero quantity)).

(** Lines 44-50. *)
Definition goal_2_valid_claims (claims_df reverts_df : DataFrame) : E DataFrame :=
  let* valid_claims_df := goal_2_positive_claims claims_df reverts_df in
  let* price := getitem valid_claims_df "price" in
  let* quantity := getitem valid_claims_df "quantity" in
  retE (setitem valid_claims_df "unit_price" (series_div truediv price quantity)).

(** Line 57. *)
Definition goal_2_fills_count (claims_df : DataFrame) : E DataFrame :=
  groupby_agg claims_df ["npi"; "ndc"] [("fills", ("id", Count))].

(** Lines 59-60. *)
Definition goal_2_reverts_count (claims_df reverts_df : DataFrame) : E DataFrame :=
  let* ids := getitem claims_df "id" in
  let* claim_ids := getitem reverts_df "claim_id" in
  let* reverted_claims_info :=
    getitem_columns (getitem_mask claims_df (isin ids claim_ids)) ["id"; "npi"; "ndc"] in
  groupby_agg reverted_claims_info ["npi"; "ndc"] [("reverted", ("id", Count))].

(** Lines 44-55: [metrics_df]. *)
Definition goal_2_price_metrics (claims_df reverts_df : DataFrame) : E DataFrame :=
  let* valid_claims_df := goal_2_valid_claims claims_df reverts_df in
  groupby_agg valid_claims_df ["npi"; "ndc"]
    [("avg_price", ("unit_price", Mean mean)); ("total_price", ("price", Sum sum_price))].

(** Lines 44-72 on the values of the two frames. *)
Definition goal_2_metrics (claims_df reverts_df : DataFrame) : E DataFrame :=
  let* metrics_df := goal_2_price_metrics claims_df reverts_df in
  let* fills_count := goal_2_fills_count claims_df in
  let* reverts_count := goal_2_reverts_count claims_df reverts_df in
  let* result_df := merge fills_count reverts_count ["npi"; "ndc"] Left in
  let* result_df := merge result_df metrics_df ["npi"; "ndc"] Left in
  let* reverted := getitem result_df "reverted" in
  let result_df := setitem result_df "reverted" (astype_int (fillna (Num 0) reverted)) in
  let* avg_price := getitem result_df "avg_price" in
  let* total_price := getitem result_df "total_price" in
  let result_df := setitem result_df "avg_price" (fillna (Num 0) avg_price) in
  let result_df := setitem result_df "total_price" (fillna (Num 0) total_price) in
  let* avg_price := getitem result_df "avg_price" in
  let result_df := setitem result_df "avg_price" (round_2 round_avg avg_price) in
  let* total_price := getitem result_df "total_price" in
  let result_df := setitem result_df "total_price" (round_2 round_total total_price) in
  retE result_df.

(** [calculate_goal_2_metrics], lines 40-72: the function reads the
    two frame objects it is given and works on a copy (line 44). *)
Definition calculate_goal_2_metrics (claims_df reverts_df : ref) : M DataFrame :=
  claims <- deref claims_df ;;
  reverts <- deref reverts_df ;;
  liftE (goal_2_metrics claims reverts).

(** *** Goal 3 *)

(** Lines 78-83. *)
Definition goal_3_valid_claims (claims_df reverts_df : DataFrame) : E DataFrame :=
  let* ids := getitem claims_df "id" in
  let* claim_ids := getitem reverts_df "claim_id" in
  let valid_claims_df := getitem_mask claims_df (map negb (isin ids claim_ids)) in
  let* price := getitem valid_claims_df "price" in
  let valid_claims_df := setitem valid_claims_df "price" (to_numeric price) in
  let* quantity := getitem valid_claims_df "quantity" in
  let valid_claims_df := setitem valid_claims_df "quantity" (to_numeric quantity) in
  let* valid_claims_df := dropna valid_claims_df ["price"; "quantity"] in
  let* quantity := getitem valid_claims_df "quantity" in
  let valid_claims_df := getitem_mask valid_claims_df (gt_zero quantity) in
  let* price := getitem valid_claims_df "price" in
  let* quantity := getitem valid_claims_df "quantity" in
  retE (setitem valid_claims_df "unit_price" (series_div truediv price quantity)).

(** Lines 85-88. *)
Definition goal_3_avg_chain_price (claims_df pharmacy_df reverts_df : DataFrame)
  : E DataFrame :=
  let* valid_claims_df := goal_3_valid_claims claims_df reverts_df in
  let* chain_prices_df := merge valid_claims_df pharmacy_df ["npi"] Inner in
  let* avg_chain_price_df :=
    groupby_agg chain_prices_df ["ndc"; "chain"]
      [("avg_price", ("unit_price", Mean mean))] in
  let* avg_price := getitem avg_chain_price_df "avg_price" in
  retE (setitem avg_chain_price_df "avg_price" (round_2 round_avg avg_price)).

(** Lines 92-93. *)
Definition format_chains (group : list row) : list row :=
  map (fun r => [("name", field r "chain"); ("avg_price", field r "avg_price")]) group.

(** Lines 78-98 on the values of the three frames. *)
Definition goal_3_recommendations (claims_df pharmacy_df reverts_df : DataFrame)
  : E (list (cell * list row)) :=
  let* avg_chain_price_df := goal_3_avg_chain_price claims_df pharmacy_df reverts_df in
  let* sorted := sort_values avg_chain_price_df "avg_price" true in
  let* top_2_chains := groupby_head sorted ["ndc"] 2 in
  groupby_apply top_2_chains "ndc" format_chains.

(** [calculate_goal_3_recommendations], lines 74-98. *)
Definition calculate_goal_3_recommendations (claims_df pharmacy_df reverts_df : ref)
  : M (list (cell * list row)) :=
  claims <- deref claims_df ;;
  pharmacy <- deref pharmacy_df ;;
  reverts <- deref reverts_df ;;
  liftE (goal_3_recommendations claims pharmacy reverts).

(** *** Goal 4 *)

(** Line 107. *)
Definition goal_4_quantity_counts (claims_df : DataFrame) : E DataFrame :=
  groupby_size claims_df ["ndc"; "quantity"] "count".

(** Lines 107-114 on the value of the frame. *)
Definition goal_4_ranking (claims_df : DataFrame) : E (list (cell * list cell)) :=
  let* quantity_counts := goal_4_quantity_counts claims_df in
  let* sorted := sort_values quantity_counts "count" false in
  let* top_5_quantities := groupby_head sorted ["ndc"] 5 in
  groupby_column_apply top_5_quantities "ndc" (map (fun r => field r "quantity")).

(** Lines 104-105 on the value of the frame: what the frame holds after
    the coercion of [quantity] and the removal of the rows without one. *)
Definition goal_4_coerced (claims_df : DataFrame) : E DataFrame :=
  let* quantity := getitem claims_df "quantity" in
  dropna (setitem claims_df "quantity" (to_numeric quantity)) ["quantity"].

(** Lines 104-114 on the value of the frame. *)
Definition goal_4_quantities (claims_df : DataFrame) : E (list (cell * list cell)) :=
  let* coerced := goal_4_coerced claims_df in
  goal_4_ranking coerced.

(** [calculate_goal_4_common_quantities], lines 100-114: lines 104 and
    105 update the frame object it is given in place. *)
Definition calculate_goal_4_common_quantities (claims_df : ref)
  : M (list (cell * list cell)) :=
  df <- deref claims_df ;;
  quantity <- liftE (getitem df "quantity") ;;
  assign claims_df (setitem df "quantity" (to_numeric quantity)) ;;;
  df <- deref claims_df ;;
  df <- liftE (dropna df ["quantity"]) ;;
  assign claims_df df ;;;
  df <- deref claims_df ;;
  liftE (goal_4_ranking df).

(** *** main, lines 116-173 *)

Definition main (pharmacy_files claims_files reverts_files : list DataFrame) : M unit :=
  pharmacy_df <- new (load_data_from_dirs pharmacy_files) ;;
  claims_df <- new (load_data_from_dirs claims_files) ;;
  reverts_df <- new (load_data_from_dirs reverts_files) ;;
  pharmacy <- deref pharmacy_df ;;
  if empty pharmacy || negb (has_column pharmacy "npi") then ret tt else
  claims <- deref claims_df ;;
  if empty claims || negb (has_column claims "npi") then ret tt else
  pharmacy <- liftE (dropna pharmacy ["npi"]) ;;
  assign pharmacy_df pharmacy ;;;
  claims <- deref claims_df ;;
  claims <- liftE (dropna claims ["npi"; "id"]) ;;
  assign claims_df claims ;;;
  claims <- deref claims_df ;;
  pharmacy <- deref pharmacy_df ;;
  claims_npi <- liftE (getitem claims "npi") ;;
  pharmacy_npi <- liftE (getitem pharmacy "npi") ;;
  claims_df <- new (getitem_mask claims (isin claims_npi pharmacy_npi)) ;;
  claims <- deref claims_df ;;
  if empty claims then ret tt else
  makedirs ;;;
  goal_2_output <- calculate_goal_2_metrics claims_df reverts_df ;;
  write_file "goal_2_metrics.json" (Records goal_2_output) ;;;
  goal_3_output <- calculate_goal_3_recommendations claims_df pharmacy_df reverts_df ;;
  write_file "goal_3_recommendations.json" (Recommendations goal_3_output) ;;;
  goal_4_output <- calculate_goal_4_common_quantities claims_df ;;
  write_file "goal_4_common_quantities.json" (Quantities goal_4_output) ;;;
  ret tt.

End Pipeline.

(** ** A parser for plain decimal numerals

    An optional sign, digits, and an optional fraction part; used to run
    the pipeline on concrete inputs. *)

Definition digit_of (a : ascii) : option Z :=
  let n := nat_of_ascii a in
  if Nat.leb 48 n && Nat.leb n 57 then Some (Z.of_nat (n - 48)) else None.

Fixpoint digits_value (s : string) (acc : Z) : option Z :=
  match s with
  | EmptyString => Some acc
  | String a s' =>
      match digit_of a with
      | Some d => digits_value s' (10 * acc + d)%Z
      | None => None
      end
  end.

Fixpoint split_at_point (s : string) : string * option string :=
  match s with
  | EmptyString => (EmptyString, None)
  | String a s' =>
      if Ascii.eqb a "."%char then (EmptyString, Some s')
      else let (i, f) := split_at_point s' in (String a i, f)
  end.

Definition unsigned_decimal (s : string) : option Q :=
  let (i, f) := split_at_point s in
  let f := match f with Some f => f | None => EmptyString end in
  match (String.length i + String.length f)%nat with
  | O => None
  | _ =>
      match digits_value (String.append i f) 0 with
      | Some n => Some (Qred (n # Z.to_pos (10 ^ Z.of_nat (String.length f))))
      | None => None
      end
  end.

Definition decimal_of_string (s : string) : option Q :=
  match s with
  | String "-" s' =>
      match unsigned_decimal s' with Some q => Some (Qred (- q)) | None => None end
  | _ => unsigned_decimal s
  end.

(** ** Decimal arithmetic

    The operations on exact rationals, with rounding half to even: the
    arithmetic of a run in which every number read and every result is
    an integer of small size, as in the examples below, where int64 and
    binary64 are exact. *)

Definition Qsum (l : list Q) : Q := fold_right Qplus 0%Q l.

Definition Qmean (l : list Q) : Q :=
  match l with
  | [] => 0%Q
  | _ => (Qsum l / inject_Z (Z.of_nat (List.length l)))%Q
  end.

Definition round_half_even (x : Q) : Z :=
  let f := Qfloor x in
  let d := (x - inject_Z f)%Q in
  match (d ?= 1 # 2)%Q with
  | Lt => f
  | Gt => (f + 1)%Z
  | Eq => if Z.even f then f else (f + 1)%Z
  end.

Definition round2 (x : Q) : Q := (round_half_even (x * 100)%Q # 100)%Q.

Definition decimal : Arithmetic :=
  {| truediv := Qdiv;
     mean := Qmean;
     sum_price := Qsum;
     round_avg := round2;
     round_total := round2 |}.

(** The sum of an int64 column wraps around. *)
Definition wrap_int64 (z : Z) : Z := ((z + 2 ^ 63) mod 2 ^ 64 - 2 ^ 63)%Z.

Definition int64_sum (l : list Q) : Q :=
  inject_Z (wrap_int64 (fold_right Z.add 0%Z (map Qfloor l))).

(** An arithmetic whose price column is of type int64. *)
Definition with_int64_prices (arith : Arithmetic) : Arithmetic :=
  {| truediv := @truediv arith;
     mean := @mean arith;
     sum_price := int64_sum;
     round_avg := @round_avg arith;
     round_total := @round_total arith |}.

(** The rounding of a float64 column: numpy multiplies by 100, rounds
    to the nearest integer (ties to even) and divides by 100, each step
    in binary64.  A rational is first taken to the nearest binary64
    (exact for numerator and denominator below 2^53). *)
Definition float_of_Z (z : Z) : PrimFloat.float :=
  match z with
  | Z0 => PrimFloat.of_uint63 (Uint63.of_Z 0)
  | Zpos _ => PrimFloat.of_uint63 (Uint63.of_Z z)
  | Zneg p => PrimFloat.opp (PrimFloat.of_uint63 (Uint63.of_Z (Zpos p)))
  end.

Definition binary64_of_Q (q : Q) : PrimFloat.float :=
  PrimFloat.div (float_of_Z (Qnum q)) (float_of_Z (Zpos (Qden q))).

Definition Q_of_binary64 (f : PrimFloat.float) : Q :=
  match FloatOps.Prim2SF f with
  | SpecFloat.S754_finite s m e =>
      Qred (inject_Z (if s then Zneg m else Zpos m) * Qpower 2 e)
  | _ => 0%Q
  end.

Definition rint (x : PrimFloat.float) : PrimFloat.float :=
  let big := float_of_Z (2 ^ 52) in
  if PrimFloat.ltb (PrimFloat.abs x) big then
    if PrimFloat.ltb x (float_of_Z 0)
    then PrimFloat.add (PrimFloat.sub x big) big
    else PrimFloat.sub (PrimFloat.add x big) big
  else x.

Definition round_binary64 (q : Q) : Q :=
  Q_of_binary64
    (PrimFloat.div (rint (PrimFloat.mul (binary64_of_Q q) (float_of_Z 100)))
       (float_of_Z 100)).

(** An arithmetic whose rounding is that of float64 columns. *)
Definition with_binary64_rounding (arith : Arithmetic) : Arithmetic :=
  {| truediv := @truediv arith;
     mean := @mean arith;
     sum_price := @sum_price arith;
     round_avg := round_binary64;
     round_total := round_binary64 |}.


(** ** Example inputs *)

Definition scen_pharmacy : DataFrame :=
  mkDataFrame ["npi"; "chain"]
    [ [("npi", Str "1"); ("chain", Str "A")];
      [("npi", Str "2"); ("chain", Str "B")] ].

Definition scen_claims : DataFrame :=
  mkDataFrame ["id"; "npi"; "ndc"; "price"; "quantity"]
    [ [("id", Str "c1"); ("npi", Str "1"); ("ndc", Str "D1"); ("price", Num 100); ("quantity", Num 10)];
      [("id", Str "c2"); ("npi", Str "2"); ("ndc", Str "D1"); ("price", Str "50"); ("quantity", Str "10")] ].

Definition scen_reverts : DataFrame :=
  mkDataFrame ["claim_id"] [ [("claim_id", Str "c1")] ].


(** Pharmacy records without a [chain] field. *)
Definition pharmacy_without_chain : DataFrame :=
  mkDataFrame ["npi"] [ [("npi", Str "1")]; [("npi", Str "2")] ].


(** Claims of which one has a quantity of zero and one a quantity that
    is not a number. *)
Definition claims_odd_quantities : DataFrame :=
  mkDataFrame ["id"; "npi"; "ndc"; "price"; "quantity"]
    [ [("id", Str "c1"); ("npi", Str "1"); ("ndc", Str "D1");
       ("price", Str "100"); ("quantity", Str "0")];
      [("id", Str "c2"); ("npi", Str "2"); ("ndc", Str "D1");
       ("price", Str "50"); ("quantity", Str "abc")];
      [("id", Str "c3"); ("npi", Str "2"); ("ndc", Str "D1");
       ("price", Str "30"); ("quantity", Str "10")] ].

Definition no_reverts : DataFrame := mkDataFrame ["claim_id"] [].

(** Reverts of both claims of the scenario. *)
Definition reverts_of_all : DataFrame :=
  mkDataFrame ["claim_id"] [ [("claim_id", Str "c1")]; [("claim_id", Str "c2")] ].

(** Three pharmacies of three chains, and one claim of drug D1 at each:
    at unit price 30 at chain A, 10 at chain B and 20 at chain C. *)
Definition pharmacy_three_chains : DataFrame :=
  mkDataFrame ["npi"; "chain"]
    [ [("npi", Str "1"); ("chain", Str "A")];
      [("npi", Str "2"); ("chain", Str "B")];
      [("npi", Str "3"); ("chain", Str "C")] ].

Definition claims_three_chains : DataFrame :=
  mkDataFrame ["id"; "npi"; "ndc"; "price"; "quantity"]
    [ [("id", Str "c1"); ("npi", Str "1"); ("ndc", Str "D1");
       ("price", Num 30); ("quantity", Num 1)];
      [("id", Str "c2"); ("npi", Str "2"); ("ndc", Str "D1");
       ("price", Num 10); ("quantity", Num 1)];
      [("id", Str "c3"); ("npi", Str "3"); ("ndc", Str "D1");
       ("price", Num 20); ("quantity", Num 1)] ].

(** Claims of drug D1 with quantity 1 six times, 2 five times, 3 four
    times, 4 three times, 5 twice and 6 once, and one claim of drug D2
    with quantity 7. *)
Definition claim_of (id ndc : string) (quantity : Z) : row :=
  [("id", Str id); ("npi", Str "1"); ("ndc", Str ndc);
   ("price", Num 1); ("quantity", Num (inject_Z quantity))].

Definition claims_six_quantities : DataFrame :=
  mkDataFrame ["id"; "npi"; "ndc"; "price"; "quantity"]
    (flat_map (fun qn : Z * nat => repeat (claim_of "c" "D1" (fst qn)) (snd qn))
       [(1%Z, 6); (2%Z, 5); (3%Z, 4); (4%Z, 3); (5%Z, 2); (6%Z, 1)] ++
     [claim_of "d" "D2" 7]).

(** One claim priced at 1.015 and one at 0.545, of different drugs. *)
Definition claims_half_cents : DataFrame :=
  mkDataFrame ["id"; "npi"; "ndc"; "price"; "quantity"]
    [ [("id", Str "c1"); ("npi", Str "1"); ("ndc", Str "D1");
       ("price", Str "1.015"); ("quantity", Num 1)];
      [("id", Str "c2"); ("npi", Str "1"); ("ndc", Str "D2");
       ("price", Str "0.545"); ("quantity", Num 1)] ].

(** Two claims of one prescriber and drug, each priced at the largest
    int64. *)
Definition claims_huge_prices : DataFrame :=
  mkDataFrame ["id"; "npi"; "ndc"; "price"; "quantity"]
    [ [("id", Str "c1"); ("npi", Str "1"); ("ndc", Str "D1");
       ("price", Num (inject_Z (2 ^ 63 - 1))); ("quantity", Num 1)];
      [("id", Str "c2"); ("npi", Str "1"); ("ndc", Str "D1");
       ("price", Num (inject_Z (2 ^ 63 - 1))); ("quantity", Num 1)] ].

(** The run of the scenario: claim [c1] is reverted. *)
Definition scen_run : E unit * World :=
  Eval vm_compute in
    main (arith := decimal) decimal_of_string
      [scen_pharmacy] [scen_claims] [scen_reverts] initial_world.

(** ** The specification's vocabulary

    Definitions that follow the words of the specification; the
    properties below compare them with the program. *)

Section Specification.

Context {arith : Arithmetic}.
Variable float_of_string : string -> option Q.

(** The claim's id appears among the revert [claim_id] values. *)
Definition is_reverted (reverts_df : DataFrame) (r : row) : bool :=
  existsb (cell_eqb (field r "id"))
    (map (fun v => field v "claim_id") (rows reverts_df)).

Definition coerce_field (c : string) (r : row) : row :=
  with_field r c (coerce float_of_string (field r c)).

Definition coerced_claim (r : row) : row :=
  coerce_field "quantity" (coerce_field "price" r).

Definition is_priced (r : row) : bool :=
  negb (isna (field r "price")) && negb (isna (field r "quantity")).

Definition positive_quantity (r : row) : bool :=
  match field r "quantity" with
  | Num q => negb (Qle_bool q 0%Q)
  | _ => false
  end.

Definition with_unit_price (r : row) : row :=
  with_field r "unit_price" (cell_div truediv (field r "price") (field r "quantity")).

(** The rows of the valid-claim set: claims that are not reverted,
    with price and quantity coerced, both present, and a quantity
    above zero. *)
Definition positive_claim_rows (claims_df reverts_df : DataFrame) : list row :=
  filter positive_quantity
    (filter is_priced
       (map coerced_claim
          (filter (fun r => negb (is_reverted reverts_df r)) (rows claims_df)))).

(** The labels the derivation reads, in the order it reads them. *)
Definition valid_claim_labels (claims_df reverts_df : DataFrame) : E unit :=
  if negb (has_column claims_df "id") then raiseE (KeyError "id")
  else if negb (has_column reverts_df "claim_id") then raiseE (KeyError "claim_id")
  else if negb (has_column claims_df "price") then raiseE (KeyError "price")
  else if negb (has_column claims_df "quantity") then raiseE (KeyError "quantity")
  else retE tt.

(** The valid-claim set with its derived unit price. *)
Definition valid_claim_set (claims_df reverts_df : DataFrame) : E DataFrame :=
  let* _ := valid_claim_labels claims_df reverts_df in
  retE (mkDataFrame
          (if has_column claims_df "unit_price" then columns claims_df
           else columns claims_df ++ ["unit_price"])
          (map with_unit_price (positive_claim_rows claims_df reverts_df))).


(** How many claims of a drug have a quantity that coerces to the
    given number; reverts play no part. *)
Definition frequency (claims_df : DataFrame) (ndc quantity : cell) : nat :=
  List.length
    (filter (fun r => cell_eqb (field r "ndc") ndc &&
                      cell_eqb (coerce float_of_string (field r "quantity")) quantity)
       (rows claims_df)).

End Specification.

(** How many rows of a frame carry the given drug and quantity. *)
Definition occurrences (df : DataFrame) (ndc quantity : cell) : nat :=
  List.length
    (filter (fun r => cell_eqb (field r "ndc") ndc &&
                      cell_eqb (field r "quantity") quantity)
       (rows df)).

(** The names of the files a run has written, oldest first. *)
Definition output_names (w : World) : list string := map fst (written w).

Definition goal_files : list string :=
  ["goal_2_metrics.json"; "goal_3_recommendations.json";
   "goal_4_common_quantities.json"].

(** Lines 138-142 on the values of the loaded frames: the claims of
    known pharmacies, which all three goals are given. *)
Definition known_claims (pharmacy_df claims_df : DataFrame) : E DataFrame :=
  let* pharmacy := dropna pharmacy_df ["npi"] in
  let* claims := dropna claims_df ["npi"; "id"] in
  let* claims_npi := getitem claims "npi" in
  let* pharmacy_npi := getitem pharmacy "npi" in
  retE (getitem_mask claims (isin claims_npi pharmacy_npi)).

(** The fatal conditions of lines 130-135 and the soft termination of
    line 147. *)
Definition fatal (pharmacy_df claims_df : DataFrame) : bool :=
  empty pharmacy_df || negb (has_column pharmacy_df "npi") ||
  empty claims_df || negb (has_column claims_df "npi").

Definition nothing_to_do (pharmacy_df claims_df : DataFrame) : bool :=
  match known_claims pharmacy_df claims_df with
  | inr claims => empty claims
  | inl _ => false
  end.

(** The number of rows with an id, as [('id', 'count')] counts them. *)
Definition count_ids (rs : list row) : nat :=
  count_notna (map (fun r => field r "id") rs).

(** One row of the frame of line 59. *)
Definition reverted_info (r : row) : row :=
  [("id", field r "id"); ("npi", field r "npi"); ("ndc", field r "ndc")].

(** A list of chain records in ascending order of [avg_price]: both
    prices are numbers and the first is at most the second. *)
Definition price_le (c1 c2 : row) : Prop :=
  exists p1 p2 : Q,
    field c1 "avg_price" = Num p1 /\ field c2 "avg_price" = Num p2 /\ (p1 <= p2)%Q.

(** The rows of a frame that carry the given drug. *)
Definition of_drug (ndc : cell) (rs : list row) : list row :=
  filter (fun r => cell_eqb (field r "ndc") ndc) rs.

Fixpoint ends_with (suffix s : string) : bool :=
  String.eqb s suffix ||
  match s with
  | String _ s' => ends_with suffix s'
  | EmptyString => false
  end.

(** A label that is not the result of a renaming by [merge]. *)
Definition plain_label (c : string) : bool :=
  negb (ends_with "_x" c) && negb (ends_with "_y" c).

(** No element twice, also up to the given equality test. *)
Definition distinct_by {A} (eqb : A -> A -> bool) (l : list A) : Prop :=
  NoDup l /\ forall x y, In x l -> In y l -> eqb x y = true -> x = y.

(** The record that [format_chains] makes of one row. *)
Definition chain_record (r : row) : row :=
  [("name", field r "chain"); ("avg_price", field r "avg_price")].

(** The first label that Goal 2 reads and does not find, in the order
    in which it reads them. *)
Definition goal_2_first_missing (claims_df reverts_df : DataFrame) : option string :=
  if negb (has_column claims_df "id") then Some "id"
  else if negb (has_column reverts_df "claim_id") then Some "claim_id"
  else if negb (has_column claims_df "price") then Some "price"
  else if negb (has_column claims_df "quantity") then Some "quantity"
  else if negb (has_column claims_df "npi") then Some "npi"
  else if negb (has_column claims_df "ndc") then Some "ndc"
  else None.

(** Lines 65-69 on one row of the joined frame. *)
Definition goal_2_finish_row {arith : Arithmetic} (r : row) : row :=
  let r1 := with_field r "reverted" (int_cell (fill (Num 0) (field r "reverted"))) in
  let r2 := with_field r1 "avg_price" (fill (Num 0) (field r1 "avg_price")) in
  let r3 := with_field r2 "total_price" (fill (Num 0) (field r2 "total_price")) in
  let r4 := with_field r3 "avg_price" (round_cell round_avg (field r3 "avg_price")) in
  with_field r4 "total_price" (round_cell round_total (field r4 "total_price")).

(** The claims that enter the price metrics of a prescriber and drug,
    their prices and their unit prices. *)
Definition valid_of (float_of_string : string -> option Q)
    (claims_df reverts_df : DataFrame) (npi ndc : cell) : list row :=
  filter (fun r => cell_eqb (field r "npi") npi && cell_eqb (field r "ndc") ndc)
    (positive_claim_rows float_of_string claims_df reverts_df).

Definition prices (rs : list row) : list Q :=
  numbers (map (fun r => field r "price") rs).

Definition unit_prices {arith : Arithmetic} (rs : list row) : list Q :=
  numbers (map (fun r => cell_div truediv (field r "price") (field r "quantity")) rs).

(** The claims that enter the average price of a drug at a chain: each
    valid claim of the drug, once for each row of the pharmacy frame
    that has the claim's [npi] and the chain. *)
Definition chain_claims (float_of_string : string -> option Q)
    (claims_df pharmacy_df reverts_df : DataFrame) (ndc chain : cell) : list row :=
  flat_map (fun c =>
              map (fun _ => c)
                (filter (fun p => cell_eqb (field p "npi") (field c "npi") &&
                                  cell_eqb (field p "chain") chain)
                   (rows pharmacy_df)))
    (filter (fun c => cell_eqb (field c "ndc") ndc)
       (positive_claim_rows float_of_string claims_df reverts_df)).

(** The claims of a prescriber and drug, and those of them that are
    reverted. *)
Definition fills_of (claims_df : DataFrame) (npi ndc : cell) : list row :=
  filter (fun r => cell_eqb (field r "npi") npi && cell_eqb (field r "ndc") ndc)
    (rows claims_df).

Definition reverted_of (claims_df reverts_df : DataFrame) (npi ndc : cell) : list row :=
  filter (is_reverted reverts_df) (fills_of claims_df npi ndc).

(** * Properties *)

(** ** Cells and keys *)

Lemma cell_eqb_refl (a : cell) : cell_eqb a a = true.
Proof.
  destruct a; simpl; auto using String.eqb_refl, Qeq_bool_refl.
Qed.

Lemma cell_eqb_sym (a b : cell) : cell_eqb a b = cell_eqb b a.
Proof.
  destruct a, b; simpl; auto using String.eqb_sym, Qeq_bool_comm.
Qed.

Lemma cell_eqb_trans (a b c : cell) :
  cell_eqb a b = true -> cell_eqb b c = true -> cell_eqb a c = true.
Proof.
  destruct a, b, c; simpl; try congruence.
  - rewrite !String.eqb_eq. congruence.
  - apply Qeq_bool_trans.
Qed.

Lemma cell_eqb_isna (a b : cell) : cell_eqb a b = true -> isna a = isna b.
Proof. destruct a, b; simpl; congruence. Qed.

Lemma key_eqb_refl (k : key) : key_eqb k k = true.
Proof.
  unfold key_eqb. induction k; simpl; auto. now rewrite cell_eqb_refl.
Qed.

Lemma key_eqb_sym (k1 k2 : key) : key_eqb k1 k2 = key_eqb k2 k1.
Proof.
  unfold key_eqb. revert k2; induction k1; destruct k2; simpl; auto.
  now rewrite cell_eqb_sym, IHk1.
Qed.

Lemma key_eqb_trans (k1 k2 k3 : key) :
  key_eqb k1 k2 = true -> key_eqb k2 k3 = true -> key_eqb k1 k3 = true.
Proof.
  unfold key_eqb. revert k2 k3; induction k1; destruct k2, k3; simpl; try congruence.
  rewrite !andb_true_iff. intros [? ?] [? ?]. eauto using cell_eqb_trans.
Qed.

Lemma key_eqb_isna (k1 k2 : key) : key_eqb k1 k2 = true -> key_isna k1 = key_isna k2.
Proof.
  unfold key_eqb. revert k2; induction k1; destruct k2; simpl; try congruence.
  rewrite andb_true_iff. intros [H1 H2].
  now rewrite (cell_eqb_isna _ _ H1), (IHk1 _ H2).
Qed.

(** Two keys equal to a third select the same rows. *)
Lemma key_eqb_congr (k1 k2 k : key) :
  key_eqb k1 k2 = true -> key_eqb k k1 = key_eqb k k2.
Proof.
  intros H. destruct (key_eqb k k1) eqn:H1, (key_eqb k k2) eqn:H2; auto.
  - rewrite (key_eqb_trans _ _ _ H1 H) in H2. discriminate.
  - rewrite key_eqb_sym in H.
    rewrite (key_eqb_trans _ _ _ H2 H) in H1. discriminate.
Qed.

Lemma key_of_length (by_ : list string) (r : row) :
  List.length (key_of by_ r) = List.length by_.
Proof. apply length_map. Qed.

(** ** Rows *)

Lemma field_with_field_same (r : row) (c : string) (v : cell) :
  field (with_field r c v) c = v.
Proof.
  induction r as [|[k w] r IH]; simpl.
  - now rewrite String.eqb_refl.
  - destruct (String.eqb k c) eqn:Hk; simpl; rewrite Hk; auto.
Qed.

Lemma field_with_field_other (r : row) (c c' : string) (v : cell) :
  String.eqb c c' = false -> field (with_field r c v) c' = field r c'.
Proof.
  intros Hc. induction r as [|[k w] r IH]; simpl.
  - now rewrite Hc.
  - destruct (String.eqb k c) eqn:Hk; simpl.
    + apply String.eqb_eq in Hk. subst k. now rewrite Hc.
    + destruct (String.eqb k c'); auto.
Qed.

(** ** Lists: masks, sorting, first occurrences *)

Lemma select_map {A} (p : A -> bool) (l : list A) :
  select l (map p l) = filter p l.
Proof.
  induction l; simpl; auto. destruct (p a); now rewrite IHl.
Qed.

Lemma combine_map_r {A B} (g : A -> B) (l : list A) :
  combine l (map g l) = map (fun x => (x, g x)) l.
Proof. induction l; simpl; congruence. Qed.

Lemma combine_map_map {A B C} (f : A -> B) (g : A -> C) (l : list A) :
  combine (map f l) (map g l) = map (fun x => (f x, g x)) l.
Proof. induction l; simpl; congruence. Qed.

Section SortingFacts.
Context {A : Type} (leb : A -> A -> bool).

Lemma insert_sorted_perm (x : A) (l : list A) :
  Permutation (x :: l) (insert_sorted leb x l).
Proof.
  induction l as [|y l IH]; simpl; auto.
  destruct (leb x y); auto.
  rewrite perm_swap. now constructor.
Qed.

Lemma sort_by_perm (l : list A) : Permutation l (sort_by leb l).
Proof.
  induction l as [|x l IH]; simpl; auto.
  rewrite <- insert_sorted_perm. now constructor.
Qed.

Lemma sort_by_in (l : list A) (x : A) : In x (sort_by leb l) <-> In x l.
Proof.
  split; apply Permutation_in; [symmetry|]; apply sort_by_perm.
Qed.

Lemma sort_by_length (l : list A) : List.length (sort_by leb l) = List.length l.
Proof. symmetry. apply Permutation_length, sort_by_perm. Qed.

Hypothesis leb_total : forall x y, leb x y = false -> leb y x = true.
Hypothesis leb_trans : forall x y z, leb x y = true -> leb y z = true -> leb x z = true.

Lemma insert_sorted_sorted (x : A) (l : list A) :
  StronglySorted (fun a b => leb a b = true) l ->
  StronglySorted (fun a b => leb a b = true) (insert_sorted leb x l).
Proof.
  induction 1 as [|y l Hs IH Hy]; simpl.
  - repeat constructor.
  - destruct (leb x y) eqn:Hxy.
    + constructor; [now constructor|].
      constructor; auto.
      eapply Forall_impl; [|exact Hy]. intros z Hz. eauto.
    + constructor; auto.
      apply (Permutation_Forall (insert_sorted_perm x l)).
      constructor; auto.
Qed.

Lemma sort_by_sorted (l : list A) :
  StronglySorted (fun a b => leb a b = true) (sort_by leb l).
Proof.
  induction l; simpl; [constructor|]. now apply insert_sorted_sorted.
Qed.
End SortingFacts.

Lemma StronglySorted_filter {A} (R : A -> A -> Prop) (p : A -> bool) (l : list A) :
  StronglySorted R l -> StronglySorted R (filter p l).
Proof.
  induction 1 as [|x l Hs IH Hx]; simpl; [constructor|].
  destruct (p x); auto. constructor; auto.
  apply Forall_forall. intros y Hy. apply filter_In in Hy.
  rewrite Forall_forall in Hx. now apply Hx.
Qed.

Lemma StronglySorted_firstn {A} (R : A -> A -> Prop) (n : nat) (l : list A) :
  StronglySorted R l -> StronglySorted R (firstn n l).
Proof.
  intros H. revert n. induction H as [|x l Hs IH Hx]; intros [|n]; simpl;
    try constructor; auto.
  apply Forall_forall. intros y Hy. rewrite Forall_forall in Hx.
  apply Hx. rewrite <- (firstn_skipn n l). apply in_or_app. now left.
Qed.

Lemma StronglySorted_map {A B} (R : A -> A -> Prop) (S : B -> B -> Prop)
    (f : A -> B) (l : list A) :
  (forall x y, R x y -> S (f x) (f y)) ->
  StronglySorted R l -> StronglySorted S (map f l).
Proof.
  intros HRS. induction 1 as [|x l Hs IH Hx]; simpl; constructor; auto.
  apply Forall_forall. intros y Hy. apply in_map_iff in Hy as [z [<- Hz]].
  rewrite Forall_forall in Hx. auto.
Qed.

Section UniqueFacts.
Context {A : Type} (eqb : A -> A -> bool).

Lemma unique_in (l : list A) (x : A) : In x (unique eqb l) -> In x l.
Proof.
  revert x. induction l as [|y l IH]; simpl; auto.
  intros x [->|Hx]; auto. apply filter_In in Hx as [Hx _]. auto.
Qed.

Hypothesis eqb_refl : forall x, eqb x x = true.
Hypothesis eqb_trans :
  forall x y z, eqb x y = true -> eqb y z = true -> eqb x z = true.

(** Every element has a representative among the first occurrences. *)
Lemma unique_covers (l : list A) (x : A) :
  In x l -> exists y, In y (unique eqb l) /\ eqb y x = true.
Proof.
  induction l as [|z l IH]; simpl; [tauto|].
  intros [->|Hx].
  - exists x. auto.
  - destruct (IH Hx) as [y [Hy Hyx]].
    destruct (eqb z y) eqn:Hzy.
    + exists z. eauto.
    + exists y. split; auto. right. apply filter_In. split; auto.
      now rewrite Hzy.
Qed.
End UniqueFacts.

(** ** Grouping *)

Lemma key_eqb_congr_l (k1 k2 k : key) :
  key_eqb k1 k2 = true -> key_eqb k1 k = key_eqb k2 k.
Proof.
  intros H. rewrite (key_eqb_sym k1 k), (key_eqb_sym k2 k).
  now apply key_eqb_congr.
Qed.

Lemma filter_key_congr (k1 k2 : key) (l : list key) :
  key_eqb k1 k2 = true -> filter (key_eqb k1) l = filter (key_eqb k2) l.
Proof.
  intros H. apply filter_ext. intros k. now apply key_eqb_congr_l.
Qed.

Lemma groups_in (by_ : list string) (rs : list row) (k : key) (g : list row) :
  In (k, g) (groups by_ rs) ->
  g = filter (fun r => key_eqb (key_of by_ r) k) rs /\
  key_isna k = false /\
  exists r, In r rs /\ k = key_of by_ r.
Proof.
  unfold groups. intros H. apply in_map_iff in H as [k' [Heq Hk]].
  inversion Heq; subst k' g; clear Heq.
  apply sort_by_in, unique_in, filter_In in Hk as [Hk Hna].
  apply in_map_iff in Hk as [r [<- Hr]].
  repeat split; eauto.
  now apply negb_true_iff in Hna.
Qed.

Lemma groups_nonempty (by_ : list string) (rs : list row) (k : key) (g : list row) :
  In (k, g) (groups by_ rs) -> g <> [].
Proof.
  intros H. apply groups_in in H as [-> [_ [r [Hr ->]]]].
  intros Hnil.
  assert (Hin : In r (filter (fun r0 => key_eqb (key_of by_ r0) (key_of by_ r)) rs)).
  { apply filter_In. split; auto. apply key_eqb_refl. }
  rewrite Hnil in Hin. contradiction.
Qed.

Lemma groups_covers (by_ : list string) (rs : list row) (r : row) :
  In r rs -> key_isna (key_of by_ r) = false ->
  exists k,
    In (k, filter (fun r0 => key_eqb (key_of by_ r0) k) rs) (groups by_ rs) /\
    key_eqb k (key_of by_ r) = true.
Proof.
  intros Hr Hna.
  destruct (unique_covers key_eqb key_eqb_refl key_eqb_trans
              (filter (fun k => negb (key_isna k)) (map (key_of by_) rs))
              (key_of by_ r)) as [k [Hk Hkr]].
  { apply filter_In. split; [now apply in_map|]. now rewrite Hna. }
  exists k. split; auto.
  unfold groups. apply in_map_iff. exists k. split; auto.
  now apply sort_by_in.
Qed.

Lemma head_rows_in (by_ : list string) (n : nat) (rs : list row) :
  forall seen r, In r (head_rows by_ n seen rs) -> In r rs.
Proof.
  induction rs as [|a rs IH]; simpl; intros seen r H; auto.
  destruct (key_isna (key_of by_ a)); eauto.
  destruct (Nat.ltb _ n); [destruct H|]; eauto.
Qed.

(** The rows of one group that [head] keeps are the first [n] rows of
    that group. *)
Lemma head_rows_filter (by_ : list string) (n : nat) (k : key) :
  key_isna k = false ->
  forall rs seen,
    filter (fun r => key_eqb (key_of by_ r) k) (head_rows by_ n seen rs) =
    firstn (n - List.length (filter (key_eqb k) seen))
      (filter (fun r => key_eqb (key_of by_ r) k) rs).
Proof.
  intros Hk. induction rs as [|a rs IH]; intros seen; simpl.
  - now rewrite firstn_nil.
  - destruct (key_eqb (key_of by_ a) k) eqn:Hak.
    + rewrite (key_eqb_isna _ _ Hak), Hk.
      rewrite (filter_key_congr _ _ seen Hak).
      destruct (Nat.ltb _ n) eqn:Hlt.
      * apply Nat.ltb_lt in Hlt. simpl. rewrite Hak, IH. simpl.
        rewrite key_eqb_sym, Hak. simpl.
        destruct (n - List.length (filter (key_eqb k) seen)) eqn:Hd; [lia|].
        simpl. f_equal. f_equal. lia.
      * apply Nat.ltb_ge in Hlt. rewrite IH. simpl.
        rewrite key_eqb_sym, Hak. simpl.
        replace (n - S _) with 0 by lia.
        replace (n - _) with 0 by lia. reflexivity.
    + assert (Hka : key_eqb k (key_of by_ a) = false)
        by now rewrite key_eqb_sym.
      destruct (key_isna (key_of by_ a)); auto.
      destruct (Nat.ltb _ n); simpl; rewrite ?Hak, IH; simpl; now rewrite Hka.
Qed.

Lemma head_rows_group (by_ : list string) (n : nat) (k : key) (rs : list row) :
  key_isna k = false ->
  filter (fun r => key_eqb (key_of by_ r) k) (head_rows by_ n [] rs) =
  firstn n (filter (fun r => key_eqb (key_of by_ r) k) rs).
Proof.
  intros Hk. rewrite (head_rows_filter by_ n k Hk). simpl.
  now rewrite Nat.sub_0_r.
Qed.

(** ** The orders used by [sort_values] *)

Lemma Qle_bool_total (p q : Q) : Qle_bool p q = false -> Qle_bool q p = true.
Proof.
  intros H. apply Qle_bool_iff. apply Qlt_le_weak, Qnot_le_lt.
  intros Hle. apply Qle_bool_iff in Hle. congruence.
Qed.

Lemma Qle_bool_trans (p q r : Q) :
  Qle_bool p q = true -> Qle_bool q r = true -> Qle_bool p r = true.
Proof.
  rewrite !Qle_bool_iff. apply Qle_trans.
Qed.

Lemma asc_leb_total (a b : cell) : asc_leb a b = false -> asc_leb b a = true.
Proof.
  destruct a, b; simpl; try congruence. apply Qle_bool_total.
Qed.

Lemma asc_leb_trans (a b c : cell) :
  asc_leb a b = true -> asc_leb b c = true -> asc_leb a c = true.
Proof.
  destruct a, b, c; simpl; try congruence. apply Qle_bool_trans.
Qed.

Lemma desc_leb_total (a b : cell) : desc_leb a b = false -> desc_leb b a = true.
Proof.
  destruct a, b; simpl; try congruence. apply Qle_bool_total.
Qed.

Lemma desc_leb_trans (a b c : cell) :
  desc_leb a b = true -> desc_leb b c = true -> desc_leb a c = true.
Proof.
  destruct a, b, c; simpl; try congruence.
  intros H1 H2. eapply Qle_bool_trans; eauto.
Qed.

Lemma sort_values_sorted (df sorted : DataFrame) (c : string) (asc : bool) :
  sort_values df c asc = inr sorted ->
  columns sorted = columns df /\
  Permutation (rows df) (rows sorted) /\
  StronglySorted
    (fun r1 r2 => (if asc then asc_leb else desc_leb) (field r1 c) (field r2 c) = true)
    (rows sorted).
Proof.
  unfold sort_values. destruct (has_column df c); [|discriminate].
  intros H. inversion H; subst sorted; clear H. simpl.
  split; [reflexivity|]. split; [apply sort_by_perm|].
  apply (sort_by_sorted
           (fun r1 r2 => (if asc then asc_leb else desc_leb) (field r1 c) (field r2 c))).
  - intros x y. destruct asc; [apply asc_leb_total | apply desc_leb_total].
  - intros x y z. destruct asc; [apply asc_leb_trans | apply desc_leb_trans].
Qed.

Lemma StronglySorted_map_in {A B} (R : A -> A -> Prop) (S : B -> B -> Prop)
    (f : A -> B) (l : list A) :
  (forall x y, In x l -> In y l -> R x y -> S (f x) (f y)) ->
  StronglySorted R l -> StronglySorted S (map f l).
Proof.
  intros HRS Hs. induction Hs as [|x l Hs IH Hx]; simpl; constructor.
  - apply IH. intros a b Ha Hb. apply HRS; now right.
  - apply Forall_forall. intros y Hy. apply in_map_iff in Hy as [z [<- Hz]].
    rewrite Forall_forall in Hx. apply HRS; simpl; auto.
Qed.

Lemma count_cell_desc (x y : nat) :
  desc_leb (count_cell x) (count_cell y) = true -> y <= x.
Proof.
  unfold count_cell. simpl. rewrite Qle_bool_iff, <- Zle_Qle. lia.
Qed.

(** ** The store *)

Lemma nth_update {A} (l : list A) (i : nat) (a d : A) :
  nth i (update l i a) d = if Nat.ltb i (List.length l) then a else d.
Proof.
  revert i. induction l as [|x l IH]; intros [|i]; simpl; auto.
Qed.

Lemma nth_update_other {A} (l : list A) (i j : nat) (a d : A) :
  i <> j -> nth j (update l i a) d = nth j l d.
Proof.
  revert i j. induction l as [|x l IH]; intros [|i] [|j] H; simpl; auto;
    congruence.
Qed.

Lemma update_length {A} (l : list A) (i : nat) (a : A) :
  List.length (update l i a) = List.length l.
Proof.
  revert i. induction l as [|x l IH]; intros [|i]; simpl; auto.
Qed.

(** ** Frames *)

Arguments mem : simpl never.
Arguments has_column : simpl never.

Lemma has_column_mk (cols : list string) (rs : list row) (c : string) :
  has_column (mkDataFrame cols rs) c = mem c cols.
Proof. reflexivity. Qed.

Lemma getitem_mk (cols : list string) (rs : list row) (c : string) :
  getitem (mkDataFrame cols rs) c =
  if mem c cols then inr (map (fun r => field r c) rs) else inl (KeyError c).
Proof. reflexivity. Qed.

Lemma getitem_inv (df : DataFrame) (c : string) (s : Series) :
  getitem df c = inr s ->
  has_column df c = true /\ s = map (fun r => field r c) (rows df).
Proof.
  unfold getitem. destruct (has_column df c); [|discriminate].
  intros H. inversion H. auto.
Qed.

Lemma setitem_mk (cols : list string) (rs : list row) (c : string) (g : row -> cell) :
  setitem (mkDataFrame cols rs) c (map g rs) =
  mkDataFrame (if mem c cols then cols else cols ++ [c])
    (map (fun r => with_field r c (g r)) rs).
Proof.
  unfold setitem. simpl. rewrite combine_map_r, map_map. reflexivity.
Qed.

Lemma dropna_mk (cols : list string) (rs : list row) (cs : list string) :
  dropna (mkDataFrame cols rs) cs =
  match filter (fun c => negb (mem c cols)) cs with
  | c :: _ => inl (KeyError c)
  | [] => inr (mkDataFrame cols
                 (filter (fun r => negb (existsb (fun c => isna (field r c)) cs)) rs))
  end.
Proof. reflexivity. Qed.

Lemma mem_app (c : string) (l1 l2 : list string) :
  mem c (l1 ++ l2) = mem c l1 || mem c l2.
Proof. apply existsb_app. Qed.

Lemma getitem_mask_isin (df : DataFrame) (c : string) (values : Series) (neg : bool) :
  getitem_mask df
    (map (fun b => if neg then negb b else b)
       (isin (map (fun r => field r c) (rows df)) values)) =
  mkDataFrame (columns df)
    (filter (fun r => let b := existsb (cell_eqb (field r c)) values in
                      if neg then negb b else b) (rows df)).
Proof.
  unfold getitem_mask, isin. rewrite !map_map, select_map. reflexivity.
Qed.

Section Derivation.

Context {arith : Arithmetic}.
Variable float_of_string : string -> option Q.

Lemma goal_2_positive_claims_spec (claims_df reverts_df : DataFrame) :
  goal_2_positive_claims float_of_string claims_df reverts_df =
  let* _ := valid_claim_labels claims_df reverts_df in
  retE (mkDataFrame (columns claims_df)
          (positive_claim_rows float_of_string claims_df reverts_df)).
Proof.
  unfold goal_2_positive_claims, valid_claim_labels.
  unfold getitem at 1.
  destruct (has_column claims_df "id") eqn:Hid; simpl; [|reflexivity].
  unfold getitem at 1.
  destruct (has_column reverts_df "claim_id") eqn:Hrev; simpl; [|reflexivity].
  change (map negb) with (map (fun b => if true then negb b else b)).
  rewrite getitem_mask_isin. cbv zeta.
  unfold positive_claim_rows.
  change (filter _ (rows claims_df))
    with (filter (fun r => negb (is_reverted reverts_df r)) (rows claims_df)).
  set (valid := filter _ (rows claims_df)).
  destruct claims_df as [cols rs]. simpl in *. rewrite !has_column_mk in *.
  clearbody valid.
  rewrite getitem_mk.
  destruct (mem "price" cols) eqn:Hp; simpl; [|reflexivity].
  unfold to_numeric. rewrite map_map.
  rewrite (setitem_mk cols valid "price" (fun r => coerce float_of_string (field r "price"))), Hp.
  rewrite getitem_mk.
  destruct (mem "quantity" cols) eqn:Hq; simpl; [|reflexivity].
  rewrite (map_map _ (coerce float_of_string)).
  rewrite (setitem_mk _ _ "quantity" (fun r => coerce float_of_string (field r "quantity"))), Hq.
  rewrite map_map.
  rewrite dropna_mk. cbn [filter]. rewrite Hp, Hq. cbn [negb bindE].
  rewrite getitem_mk, Hq. cbn [bindE].
  unfold getitem_mask, gt_zero. cbn [rows columns]. rewrite map_map, select_map.
  unfold retE. f_equal. f_equal.
  unfold positive_quantity. f_equal.
  unfold coerced_claim, coerce_field. apply filter_ext. intros r.
  unfold is_priced. cbn [existsb].
  destruct (isna (field r "price")), (isna (field r "quantity")); reflexivity.
Qed.

Lemma goal_2_valid_claims_spec (claims_df reverts_df : DataFrame) :
  goal_2_valid_claims float_of_string claims_df reverts_df =
  valid_claim_set float_of_string claims_df reverts_df.
Proof.
  unfold goal_2_valid_claims, valid_claim_set.
  rewrite goal_2_positive_claims_spec.
  destruct (valid_claim_labels claims_df reverts_df) as [e|[]] eqn:Hl;
    cbn [bindE retE]; [reflexivity|].
  assert (Hcols : has_column claims_df "price" = true /\
                  has_column claims_df "quantity" = true).
  { unfold valid_claim_labels in Hl.
    destruct (has_column claims_df "id"); [|discriminate].
    destruct (has_column reverts_df "claim_id"); [|discriminate].
    destruct (has_column claims_df "price"); [|discriminate].
    destruct (has_column claims_df "quantity"); [|discriminate]. auto. }
  destruct Hcols as [Hp Hq]. destruct claims_df as [cols rs].
  rewrite has_column_mk in *. cbn [columns].
  set (pos := positive_claim_rows _ _ _).
  rewrite !getitem_mk, Hp, Hq. cbn [bindE].
  unfold series_div. rewrite combine_map_map, map_map. cbn [fst snd].
  rewrite (setitem_mk cols pos "unit_price"
             (fun r => cell_div truediv (field r "price") (field r "quantity"))).
  reflexivity.
Qed.

Lemma goal_3_valid_claims_spec (claims_df reverts_df : DataFrame) :
  goal_3_valid_claims float_of_string claims_df reverts_df =
  valid_claim_set float_of_string claims_df reverts_df.
Proof.
  rewrite <- goal_2_valid_claims_spec.
  unfold goal_3_valid_claims, goal_2_valid_claims, goal_2_positive_claims.
  repeat (cbn [bindE retE raiseE];
          match goal with
          | |- context [bindE ?m _] =>
              lazymatch m with
              | context [bindE] => fail
              | _ => destruct m
              end
          end);
    reflexivity.
Qed.

End Derivation.

(** ** Goal 4 *)

Lemma update_update {A} (l : list A) (i : nat) (a b : A) :
  update (update l i a) i b = update l i b.
Proof.
  revert i. induction l as [|x l IH]; intros [|i]; simpl; auto.
  now rewrite IH.
Qed.

Lemma groupby_inv (df : DataFrame) (by_ : list string) (gs : list (key * list row)) :
  groupby df by_ = inr gs ->
  missing_labels df by_ = [] /\ gs = groups by_ (rows df).
Proof.
  unfold groupby. destruct (missing_labels df by_); [|discriminate].
  intros H. inversion H. auto.
Qed.

Lemma groupby_head_inv (df top : DataFrame) (by_ : list string) (n : nat) :
  groupby_head df by_ n = inr top ->
  top = mkDataFrame (columns df) (head_rows by_ n [] (rows df)).
Proof.
  unfold groupby_head. destruct (missing_labels df by_); [|discriminate].
  intros H. now inversion H.
Qed.

Lemma groupby_column_apply_inv {A} (df : DataFrame) (c : string) (f : list row -> A)
    (out : list (cell * A)) :
  groupby_column_apply df c f = inr out ->
  out = map (fun g => (hd NaN (fst g), f (snd g))) (groups [c] (rows df)).
Proof.
  unfold groupby_column_apply.
  destruct (groupby df [c]) as [e|gs] eqn:Hg; [discriminate|].
  cbn [bindE retE]. apply groupby_inv in Hg as [_ ->].
  intros H. now inversion H.
Qed.

Lemma groupby_apply_inv {A} (df : DataFrame) (c : string) (f : list row -> A)
    (out : list (cell * A)) :
  groupby_apply df c f = inr out ->
  out = map (fun g => (hd NaN (fst g), f (snd g))) (groups [c] (rows df)).
Proof.
  unfold groupby_apply. destruct (groupby df [c]) as [e|gs] eqn:Hg; [discriminate|].
  cbn [bindE retE]. apply groupby_inv in Hg as [_ ->].
  destruct (groups [c] (rows df)); [discriminate|].
  intros H. now inversion H.
Qed.

(** [groupby_apply] raises [TypeError] exactly on a frame that has the
    label and no group. *)
Lemma groupby_apply_type_error {A} (df : DataFrame) (c : string) (f : list row -> A) :
  groupby_apply df c f = inl TypeError <->
  has_column df c = true /\ groups [c] (rows df) = [].
Proof.
  unfold groupby_apply, groupby, missing_labels. cbn [filter].
  destruct (has_column df c); cbn [negb bindE retE raiseE].
  - destruct (groups [c] (rows df)).
    + split; auto.
    + split; [discriminate|]. intros [_ H]. discriminate.
  - split; [discriminate|]. intros [H _]. discriminate.
Qed.

(** What one record of a per-drug output holds: the first [n] rows of
    the drug in the frame that [head] was applied to. *)
Lemma per_drug_record {A} (n : nat) (rs : list row) (f : list row -> A)
    (ndc : cell) (a : A) :
  In (ndc, a)
     (map (fun g => (hd NaN (fst g), f (snd g)))
        (groups ["ndc"] (head_rows ["ndc"] n [] rs))) ->
  isna ndc = false /\
  (exists r, In r rs /\ field r "ndc" = ndc) /\
  a = f (firstn n (filter (fun r => cell_eqb (field r "ndc") ndc) rs)).
Proof.
  intros H. apply in_map_iff in H as [[k g] [Heq Hg]].
  cbn [fst snd] in Heq. inversion Heq; subst ndc a; clear Heq.
  apply groups_in in Hg as [-> [Hna [r [Hr ->]]]].
  rewrite (head_rows_group ["ndc"] n _ rs Hna).
  cbn [key_of map hd] in *.
  split; [|split].
  - unfold key_isna in Hna. cbn [existsb] in Hna. now rewrite orb_false_r in Hna.
  - exists r. split; auto. eapply head_rows_in; eauto.
  - f_equal. f_equal. apply filter_ext. intros x. unfold key_eqb. cbn [forallb2].
    now rewrite andb_true_r.
Qed.

Lemma count_cell_inj (x y : nat) : count_cell x = count_cell y -> x = y.
Proof.
  unfold count_cell. intros H. inversion H. lia.
Qed.

Lemma has_column_setitem_same (df : DataFrame) (c : string) (s : Series) :
  has_column (setitem df c s) c = true.
Proof.
  unfold has_column at 1, setitem. cbn [columns].
  destruct (has_column df c) eqn:Hc; [exact Hc|].
  rewrite existsb_app. cbn [existsb]. rewrite String.eqb_refl.
  now rewrite orb_true_r.
Qed.

Lemma filter_filter_map {A B} (f : A -> B) (p q : B -> bool) (l : list A) :
  filter p (filter q (map f l)) = map f (filter (fun x => q (f x) && p (f x)) l).
Proof.
  induction l as [|x l IH]; [reflexivity|].
  cbn [map filter]. destruct (q (f x)); cbn [andb filter]; [|exact IH].
  destruct (p (f x)); cbn [map]; now rewrite IH.
Qed.

Section Goal4Facts.

Context {arith : Arithmetic}.
Variable float_of_string : string -> option Q.

Lemma calculate_goal_4_run (claims_df : ref) (w : World) :
  calculate_goal_4_common_quantities float_of_string claims_df w =
  match goal_4_coerced float_of_string (nth claims_df (heap w) DataFrame_empty) with
  | inl e => (inl e, w)
  | inr df =>
      (goal_4_ranking df,
       mkWorld (update (heap w) claims_df df) (made_dir w) (written w))
  end.
Proof.
  unfold calculate_goal_4_common_quantities, goal_4_coerced, bind, deref, liftE, assign.
  cbn [heap made_dir written].
  destruct (getitem (nth claims_df (heap w) DataFrame_empty) "quantity")
    as [e|quantity] eqn:Hq; cbn [bindE]; [reflexivity|].
  apply getitem_inv in Hq as [Hcol _].
  rewrite nth_update.
  destruct (Nat.ltb claims_df (List.length (heap w))) eqn:Hlt.
  - unfold dropna at 1 2. cbn [filter].
    rewrite has_column_setitem_same. cbn [negb].
    unfold retE. rewrite update_update, nth_update, Hlt. reflexivity.
  - apply Nat.ltb_ge in Hlt. rewrite nth_overflow in Hcol by assumption.
    discriminate.
Qed.

Lemma goal_4_coerced_spec (cols : list string) (rs : list row) :
  goal_4_coerced float_of_string (mkDataFrame cols rs) =
  if mem "quantity" cols
  then inr (mkDataFrame cols
              (filter (fun r => negb (isna (field r "quantity")))
                 (map (coerce_field float_of_string "quantity") rs)))
  else inl (KeyError "quantity").
Proof.
  unfold goal_4_coerced. rewrite getitem_mk.
  destruct (mem "quantity" cols) eqn:Hq; cbn [bindE]; [|reflexivity].
  unfold to_numeric. rewrite map_map.
  rewrite (setitem_mk cols rs "quantity"
             (fun r => coerce float_of_string (field r "quantity"))), Hq.
  rewrite dropna_mk. cbn [filter]. rewrite Hq. cbn [negb].
  f_equal. f_equal. apply filter_ext. intros r. cbn [existsb].
  now rewrite orb_false_r.
Qed.

(** Counting in the coerced frame is counting the claims whose quantity
    coerces to the number. *)
Lemma occurrences_coerced (claims_df df : DataFrame) (ndc quantity : cell) :
  goal_4_coerced float_of_string claims_df = inr df ->
  isna quantity = false ->
  occurrences df ndc quantity = frequency float_of_string claims_df ndc quantity.
Proof.
  destruct claims_df as [cols rs]. rewrite goal_4_coerced_spec.
  destruct (mem "quantity" cols); [|discriminate].
  intros H Hna. inversion H; subst df; clear H.
  unfold occurrences, frequency. cbn [rows].
  rewrite filter_filter_map, length_map. f_equal.
  apply filter_ext. intros r. unfold coerce_field.
  rewrite field_with_field_same.
  rewrite field_with_field_other by reflexivity.
  destruct (cell_eqb (coerce float_of_string (field r "quantity")) quantity) eqn:Hc.
  - now rewrite (cell_eqb_isna _ _ Hc), Hna.
  - now rewrite andb_false_r, andb_false_r.
Qed.

End Goal4Facts.

(** The tally of line 107: one row per drug and quantity, with the
    number of rows of the frame that carry them. *)
Lemma quantity_counts_rows (df tally : DataFrame) :
  goal_4_quantity_counts df = inr tally ->
  has_column df "ndc" = true /\
  rows tally =
  map (fun g => combine ["ndc"; "quantity"] (fst g) ++
                [("count", count_cell (List.length (snd g)))])
    (groups ["ndc"; "quantity"] (rows df)).
Proof.
  unfold goal_4_quantity_counts, groupby_size.
  destruct (groupby df ["ndc"; "quantity"]) as [e|gs] eqn:Hg; [discriminate|].
  cbn [bindE retE]. apply groupby_inv in Hg as [Hm ->].
  intros H. inversion H; subst tally; clear H. split; [|reflexivity].
  unfold missing_labels in Hm. cbn [filter] in Hm.
  destruct (has_column df "ndc"); [reflexivity|discriminate].
Qed.

Lemma group_size_occurrences (df : DataFrame) (a b : cell) :
  List.length
    (filter (fun r => key_eqb (key_of ["ndc"; "quantity"] r) [a; b]) (rows df)) =
  occurrences df a b.
Proof.
  unfold occurrences. f_equal. apply filter_ext. intros x.
  unfold key_eqb. cbn [key_of map forallb2]. now rewrite andb_true_r.
Qed.

Lemma quantity_counts_row (df tally : DataFrame) (t : row) :
  goal_4_quantity_counts df = inr tally ->
  In t (rows tally) ->
  exists r,
    In r (rows df) /\
    isna (field r "ndc") = false /\ isna (field r "quantity") = false /\
    t = [("ndc", field r "ndc"); ("quantity", field r "quantity");
         ("count", count_cell (occurrences df (field r "ndc") (field r "quantity")))].
Proof.
  intros Ht Hin. apply quantity_counts_rows in Ht as [_ Hrows].
  rewrite Hrows in Hin. apply in_map_iff in Hin as [[k g] [<- Hg]].
  apply groups_in in Hg as [-> [Hna [r [Hr ->]]]].
  exists r. cbn [fst snd].
  change (key_of ["ndc"; "quantity"] r) with [field r "ndc"; field r "quantity"].
  rewrite group_size_occurrences.
  unfold key_isna in Hna. cbn [key_of map existsb] in Hna.
  rewrite orb_false_r in Hna. apply orb_false_iff in Hna as [Hn Hq].
  repeat split; auto.
Qed.

Lemma occurrences_congr (df : DataFrame) (a a' b : cell) :
  cell_eqb a a' = true -> occurrences df a b = occurrences df a' b.
Proof.
  intros H. unfold occurrences. f_equal. apply filter_ext. intros x. f_equal.
  destruct (cell_eqb (field x "ndc") a) eqn:Hx.
  - symmetry. eauto using cell_eqb_trans.
  - destruct (cell_eqb (field x "ndc") a') eqn:Hy; auto.
    rewrite cell_eqb_sym in H.
    rewrite (cell_eqb_trans _ _ _ Hy H) in Hx. discriminate.
Qed.

Lemma occurrences_congr_r (df : DataFrame) (a b b' : cell) :
  cell_eqb b b' = true -> occurrences df a b = occurrences df a b'.
Proof.
  intros H. unfold occurrences. f_equal. apply filter_ext. intros x. f_equal.
  destruct (cell_eqb (field x "quantity") b) eqn:Hx.
  - symmetry. eauto using cell_eqb_trans.
  - destruct (cell_eqb (field x "quantity") b') eqn:Hy; auto.
    rewrite cell_eqb_sym in H.
    rewrite (cell_eqb_trans _ _ _ Hy H) in Hx. discriminate.
Qed.

(** Every row with a drug and a quantity is counted by a row of the tally. *)
Lemma quantity_counts_covers (df tally : DataFrame) (r : row) :
  goal_4_quantity_counts df = inr tally ->
  In r (rows df) ->
  isna (field r "ndc") = false -> isna (field r "quantity") = false ->
  exists t,
    In t (rows tally) /\
    cell_eqb (field t "ndc") (field r "ndc") = true /\
    cell_eqb (field t "quantity") (field r "quantity") = true /\
    field t "count" =
      count_cell (occurrences df (field r "ndc") (field r "quantity")).
Proof.
  intros Ht Hr Hn Hq.
  destruct (groups_covers ["ndc"; "quantity"] (rows df) r Hr) as [k [Hk Hkr]].
  { unfold key_isna. cbn [key_of map existsb]. now rewrite Hn, Hq. }
  pose proof (groups_in _ _ _ _ Hk) as [_ [_ [r0 [Hr0 ->]]]].
  apply quantity_counts_rows in Ht as [_ Hrows].
  eexists. split.
  - rewrite Hrows. apply in_map_iff. eexists. split; [reflexivity|exact Hk].
  - cbn [fst snd].
    change (key_of ["ndc"; "quantity"] r0)
      with [field r0 "ndc"; field r0 "quantity"] in *.
    rewrite group_size_occurrences.
    unfold key_eqb in Hkr. cbn [key_of map forallb2] in Hkr.
    rewrite andb_true_r in Hkr. apply andb_true_iff in Hkr as [H1 H2].
    cbn. repeat split; auto.
    f_equal. rewrite (occurrences_congr df _ _ _ H1).
    now apply occurrences_congr_r.
Qed.

Lemma goal_4_ranking_inv (df : DataFrame) (out : list (cell * list cell)) :
  goal_4_ranking df = inr out ->
  exists tally sorted,
    goal_4_quantity_counts df = inr tally /\
    Permutation (rows tally) sorted /\
    StronglySorted
      (fun t1 t2 => desc_leb (field t1 "count") (field t2 "count") = true) sorted /\
    out = map (fun g => (hd NaN (fst g), map (fun r => field r "quantity") (snd g)))
            (groups ["ndc"] (head_rows ["ndc"] 5 [] sorted)).
Proof.
  unfold goal_4_ranking.
  destruct (goal_4_quantity_counts df) as [e|tally]; [discriminate|].
  cbn [bindE].
  destruct (sort_values tally "count" false) as [e|sorted] eqn:Hs; [discriminate|].
  cbn [bindE]. apply sort_values_sorted in Hs as [Hc [Hp Hsorted]].
  destruct (groupby_head sorted ["ndc"] 5) as [e|top] eqn:Hh; [discriminate|].
  cbn [bindE]. apply groupby_head_inv in Hh. subst top.
  intros H. apply groupby_column_apply_inv in H. cbn [rows] in H.
  exists tally, (rows sorted). auto.
Qed.

Section Goal4Ranking.

Context {arith : Arithmetic}.
Variable float_of_string : string -> option Q.

Lemma tally_row_count (claims_df df tally : DataFrame) (t : row) (ndc : cell) :
  goal_4_coerced float_of_string claims_df = inr df ->
  goal_4_quantity_counts df = inr tally ->
  In t (rows tally) ->
  cell_eqb (field t "ndc") ndc = true ->
  isna (field t "quantity") = false /\
  field t "count" =
    count_cell (frequency float_of_string claims_df ndc (field t "quantity")).
Proof.
  intros Hc Ht Hin Hn.
  destruct (quantity_counts_row df tally t Ht Hin) as [r [Hr [Hna [Hnq ->]]]].
  cbn in Hn. cbn. split; auto. f_equal.
  rewrite (occurrences_congr df _ _ _ Hn).
  now apply occurrences_coerced.
Qed.

(** C9: every record of Goal 4 lists at most five quantities, and lists
    them by descending frequency among the claims of its drug whose
    quantity coerces to a number. *)
Theorem goal_4_quantities_ranked
    (claims_df : ref) (w w' : World) (out : list (cell * list cell)) :
  calculate_goal_4_common_quantities float_of_string claims_df w = (inr out, w') ->
  forall ndc qs,
    In (ndc, qs) out ->
    List.length qs <= 5 /\
    StronglySorted
      (fun q1 q2 =>
         frequency float_of_string (nth claims_df (heap w) DataFrame_empty) ndc q2 <=
         frequency float_of_string (nth claims_df (heap w) DataFrame_empty) ndc q1)
      qs.
Proof.
  rewrite calculate_goal_4_run.
  destruct (goal_4_coerced float_of_string _) as [e|df] eqn:Hc; [discriminate|].
  intros H ndc qs Hin. inversion H as [[Hrank Hw]]. clear H Hw.
  apply goal_4_ranking_inv in Hrank
    as [tally [sorted [Ht [Hperm [Hsorted ->]]]]].
  apply per_drug_record in Hin as [_ [_ ->]].
  split.
  - rewrite length_map. apply firstn_le_length.
  - apply StronglySorted_map_in
      with (R := fun t1 t2 => desc_leb (field t1 "count") (field t2 "count") = true).
    + intros x y Hx Hy Hxy.
      assert (Hrow : forall t,
                 In t (firstn 5 (filter (fun r => cell_eqb (field r "ndc") ndc) sorted)) ->
                 field t "count" =
                 count_cell (frequency float_of_string
                               (nth claims_df (heap w) DataFrame_empty) ndc
                               (field t "quantity"))).
      { intros t Hin.
        assert (Hin' : In t (filter (fun r => cell_eqb (field r "ndc") ndc) sorted)).
        { rewrite <- (firstn_skipn 5). apply in_or_app. now left. }
        apply filter_In in Hin' as [Hin' Hn].
        apply (Permutation_in _ (Permutation_sym Hperm)) in Hin'.
        now apply (tally_row_count _ df tally t ndc Hc Ht Hin'). }
      rewrite (Hrow x Hx), (Hrow y Hy) in Hxy.
      now apply count_cell_desc.
    + now apply StronglySorted_firstn, StronglySorted_filter.
Qed.

End Goal4Ranking.

(** ** main *)

Ltac plumb :=
  cbv beta iota zeta delta
    [bind new deref assign liftE ret makedirs write_file initial_world
     heap made_dir written nth update app List.length].

Ltac finish_run n :=
  let H := fresh in
  intros H; inversion H; subst; cbn;
  split;
  [ let Hx := fresh in intros [Hx|Hx]; first [discriminate Hx | auto]
  | split;
    [ let Hr := fresh in intros Hr; first [discriminate Hr | auto]
    | exists n; reflexivity ] ].

Section MainFacts.

Context {arith : Arithmetic}.
Variable float_of_string : string -> option Q.

(** The run of [main], path by path. *)
Lemma main_run (pf cf rf : list DataFrame) :
  main float_of_string pf cf rf initial_world =
  let P := load_data_from_dirs pf in
  let C := load_data_from_dirs cf in
  let R := load_data_from_dirs rf in
  if empty P || negb (has_column P "npi") then (inr tt, mkWorld [P; C; R] false [])
  else if empty C || negb (has_column C "npi") then (inr tt, mkWorld [P; C; R] false [])
  else
    match dropna P ["npi"] with
    | inl e => (inl e, mkWorld [P; C; R] false [])
    | inr P' =>
    match dropna C ["npi"; "id"] with
    | inl e => (inl e, mkWorld [P'; C; R] false [])
    | inr C' =>
    match getitem C' "npi" with
    | inl e => (inl e, mkWorld [P'; C'; R] false [])
    | inr claims_npi =>
    match getitem P' "npi" with
    | inl e => (inl e, mkWorld [P'; C'; R] false [])
    | inr pharmacy_npi =>
    let F := getitem_mask C' (isin claims_npi pharmacy_npi) in
    if empty F then (inr tt, mkWorld [P'; C'; R; F] false [])
    else
      match goal_2_metrics float_of_string F R with
      | inl e => (inl e, mkWorld [P'; C'; R; F] true [])
      | inr g2 =>
      match goal_3_recommendations float_of_string F P' R with
      | inl e =>
          (inl e, mkWorld [P'; C'; R; F] true [("goal_2_metrics.json", Records g2)])
      | inr g3 =>
      match goal_4_coerced float_of_string F with
      | inl e =>
          (inl e,
           mkWorld [P'; C'; R; F] true
             [("goal_2_metrics.json", Records g2);
              ("goal_3_recommendations.json", Recommendations g3)])
      | inr F' =>
      match goal_4_ranking F' with
      | inl e =>
          (inl e,
           mkWorld [P'; C'; R; F'] true
             [("goal_2_metrics.json", Records g2);
              ("goal_3_recommendations.json", Recommendations g3)])
      | inr g4 =>
          (inr tt,
           mkWorld [P'; C'; R; F'] true
             [("goal_2_metrics.json", Records g2);
              ("goal_3_recommendations.json", Recommendations g3);
              ("goal_4_common_quantities.json", Quantities g4)])
      end end end end end end end end.
Proof.
  set (P := load_data_from_dirs pf). set (C := load_data_from_dirs cf).
  set (R := load_data_from_dirs rf).
  unfold main, calculate_goal_2_metrics, calculate_goal_3_recommendations.
  fold P C R. clearbody P C R.
  plumb. destruct (empty P || negb (has_column P "npi")); [reflexivity|].
  plumb. destruct (empty C || negb (has_column C "npi")); [reflexivity|].
  plumb. destruct (dropna P ["npi"]) as [e|P']; [reflexivity|].
  plumb. destruct (dropna C ["npi"; "id"]) as [e|C']; [reflexivity|].
  plumb. destruct (getitem C' "npi") as [e|cn]; [reflexivity|].
  plumb. destruct (getitem P' "npi") as [e|pn]; [reflexivity|].
  plumb. destruct (empty (getitem_mask C' (isin cn pn))); [reflexivity|].
  plumb. destruct (goal_2_metrics float_of_string _ R) as [e|g2]; [reflexivity|].
  plumb. destruct (goal_3_recommendations float_of_string _ P' R) as [e|g3];
    [reflexivity|].
  plumb. rewrite calculate_goal_4_run. plumb.
  destruct (goal_4_coerced float_of_string _) as [e|F']; [reflexivity|].
  destruct (goal_4_ranking F') as [e|g4]; reflexivity.
Qed.


(** The checks come before every write, a run without an exception has
    written all files or none, and the files written are an initial
    segment of the three. *)
Lemma main_outputs_prefix
    (pf cf rf : list DataFrame) (res : E unit) (w : World) :
  main float_of_string pf cf rf initial_world = (res, w) ->
  (fatal (load_data_from_dirs pf) (load_data_from_dirs cf) = true \/
   nothing_to_do (load_data_from_dirs pf) (load_data_from_dirs cf) = true ->
   res = inr tt /\ written w = []) /\
  (res = inr tt -> output_names w = [] \/ output_names w = goal_files) /\
  (exists n, output_names w = firstn n goal_files).
Proof.
  rewrite main_run. cbv zeta.
  unfold fatal, nothing_to_do, known_claims.
  set (P := load_data_from_dirs pf). set (C := load_data_from_dirs cf).
  set (R := load_data_from_dirs rf). clearbody P C R.
  rewrite <- orb_assoc.
  destruct (empty P || negb (has_column P "npi")) eqn:HP; [finish_run 0|].
  destruct (empty C || negb (has_column C "npi")) eqn:HC; [finish_run 0|].
  cbn [orb].
  destruct (dropna P ["npi"]) as [e|P']; cbn [bindE]; [finish_run 0|].
  destruct (dropna C ["npi"; "id"]) as [e|C']; cbn [bindE]; [finish_run 0|].
  destruct (getitem C' "npi") as [e|cn]; cbn [bindE]; [finish_run 0|].
  destruct (getitem P' "npi") as [e|pn]; cbn [bindE retE]; [finish_run 0|].
  destruct (empty (getitem_mask C' (isin cn pn))) eqn:HF; [finish_run 0|].
  destruct (goal_2_metrics float_of_string _ R) as [e|g2]; [finish_run 0|].
  destruct (goal_3_recommendations float_of_string _ P' R) as [e|g3];
    [finish_run 1|].
  destruct (goal_4_coerced float_of_string _) as [e|F']; [finish_run 2|].
  destruct (goal_4_ranking F') as [e|g4]; [finish_run 2|finish_run 3].
Qed.


(** Each file is written as soon as its goal has returned: the files of
    a run are those of the goals up to the first that raises, each with
    the result of its goal, and the run ends with that exception. *)
Lemma main_files_follow_goals
    (pf cf rf : list DataFrame) (res : E unit) (w : World)
    (pharmacy claims : DataFrame) :
  main float_of_string pf cf rf initial_world = (res, w) ->
  fatal (load_data_from_dirs pf) (load_data_from_dirs cf) = false ->
  dropna (load_data_from_dirs pf) ["npi"] = inr pharmacy ->
  known_claims (load_data_from_dirs pf) (load_data_from_dirs cf) = inr claims ->
  empty claims = false ->
  match goal_2_metrics float_of_string claims (load_data_from_dirs rf) with
  | inl e => res = inl e /\ written w = []
  | inr g2 =>
      match goal_3_recommendations float_of_string claims pharmacy
              (load_data_from_dirs rf) with
      | inl e => res = inl e /\ written w = [("goal_2_metrics.json", Records g2)]
      | inr g3 =>
          match goal_4_quantities float_of_string claims with
          | inl e =>
              res = inl e /\
              written w = [("goal_2_metrics.json", Records g2);
                           ("goal_3_recommendations.json", Recommendations g3)]
          | inr g4 =>
              res = inr tt /\
              written w = [("goal_2_metrics.json", Records g2);
                           ("goal_3_recommendations.json", Recommendations g3);
                           ("goal_4_common_quantities.json", Quantities g4)]
          end
      end
  end.
Proof.
  rewrite main_run. cbv zeta. unfold fatal, known_claims, goal_4_quantities.
  set (P := load_data_from_dirs pf). set (C := load_data_from_dirs cf).
  set (R := load_data_from_dirs rf). clearbody P C R.
  intros Hrun Hfatal Hp Hk He.
  rewrite <- orb_assoc in Hfatal. apply orb_false_iff in Hfatal as [HP HC].
  rewrite HP, HC, Hp in Hrun. rewrite Hp in Hk. cbn [bindE] in Hk.
  destruct (dropna C ["npi"; "id"]) as [e|C']; [discriminate|]. cbn [bindE] in Hk.
  destruct (getitem C' "npi") as [e|cn]; [discriminate|]. cbn [bindE] in Hk.
  destruct (getitem pharmacy "npi") as [e|pn]; [discriminate|].
  cbn [bindE retE] in Hk. injection Hk as Hk. rewrite Hk, He in Hrun.
  destruct (goal_2_metrics float_of_string claims R) as [e|g2];
    [now inversion Hrun|].
  destruct (goal_3_recommendations float_of_string claims pharmacy R) as [e|g3];
    [now inversion Hrun|].
  destruct (goal_4_coerced float_of_string claims) as [e|F']; cbn [bindE];
    [now inversion Hrun|].
  destruct (goal_4_ranking F') as [e|g4]; now inversion Hrun.
Qed.

(** C1, as amended: each fatal and soft-terminate condition ends the run
    before any output file is written; a run that ends without an
    exception has written all three files or none; in every run the
    files written are an initial segment of the three, in the order
    Goal 2, Goal 3, Goal 4; and each file is written right after its
    goal has returned, so that when a goal raises, the run ends with its
    exception and the files of the goals before it remain. *)
Theorem main_outputs_in_order
    (pf cf rf : list DataFrame) (res : E unit) (w : World) :
  main float_of_string pf cf rf initial_world = (res, w) ->
  (fatal (load_data_from_dirs pf) (load_data_from_dirs cf) = true \/
   nothing_to_do (load_data_from_dirs pf) (load_data_from_dirs cf) = true ->
   res = inr tt /\ written w = []) /\
  (res = inr tt -> output_names w = [] \/ output_names w = goal_files) /\
  (exists n, output_names w = firstn n goal_files) /\
  (forall pharmacy claims,
      fatal (load_data_from_dirs pf) (load_data_from_dirs cf) = false ->
      dropna (load_data_from_dirs pf) ["npi"] = inr pharmacy ->
      known_claims (load_data_from_dirs pf) (load_data_from_dirs cf) = inr claims ->
      empty claims = false ->
      match goal_2_metrics float_of_string claims (load_data_from_dirs rf) with
      | inl e => res = inl e /\ written w = []
      | inr g2 =>
          match goal_3_recommendations float_of_string claims pharmacy
                  (load_data_from_dirs rf) with
          | inl e => res = inl e /\ written w = [("goal_2_metrics.json", Records g2)]
          | inr g3 =>
              match goal_4_quantities float_of_string claims with
              | inl e =>
                  res = inl e /\
                  written w = [("goal_2_metrics.json", Records g2);
                               ("goal_3_recommendations.json", Recommendations g3)]
              | inr g4 =>
                  res = inr tt /\
                  written w = [("goal_2_metrics.json", Records g2);
                               ("goal_3_recommendations.json", Recommendations g3);
                               ("goal_4_common_quantities.json", Quantities g4)]
              end
          end
      end).
Proof.
  intros Hrun.
  destruct (main_outputs_prefix _ _ _ _ _ Hrun) as [H1 [H2 H3]].
  split; [exact H1|]. split; [exact H2|]. split; [exact H3|].
  intros pharmacy claims Hf Hp Hk He.
  now apply (main_files_follow_goals pf cf rf res w pharmacy claims).
Qed.

End MainFacts.

Ltac no_goal_4 Hnone :=
  let H := fresh in let Hin := fresh in
  intros H Hin; exfalso; eapply Hnone; [exact H| |exact Hin];
  cbn; intuition discriminate.

Section Goal4Tally.

Context {arith : Arithmetic}.
Variable float_of_string : string -> option Q.

Lemma goal_4_coerced_rows (claims_df df : DataFrame) :
  goal_4_coerced float_of_string claims_df = inr df ->
  columns df = columns claims_df /\
  rows df =
  filter (fun r => negb (isna (field r "quantity")))
    (map (coerce_field float_of_string "quantity") (rows claims_df)).
Proof.
  destruct claims_df as [cols rs]. rewrite goal_4_coerced_spec.
  destruct (mem "quantity" cols); [|discriminate].
  intros H. inversion H. auto.
Qed.

(** A claim with a drug and a quantity that coerces to a number is
    counted by the tally of line 107, together with every other claim of
    that drug and quantity. *)
Lemma tally_counts_claim (claims_df df tally : DataFrame) (r : row) (q : Q) :
  goal_4_coerced float_of_string claims_df = inr df ->
  goal_4_quantity_counts df = inr tally ->
  In r (rows claims_df) ->
  isna (field r "ndc") = false ->
  coerce float_of_string (field r "quantity") = Num q ->
  exists t,
    In t (rows tally) /\
    cell_eqb (field t "ndc") (field r "ndc") = true /\
    cell_eqb (field t "quantity") (Num q) = true /\
    field t "count" =
      count_cell (frequency float_of_string claims_df (field r "ndc") (Num q)) /\
    0 < frequency float_of_string claims_df (field r "ndc") (Num q).
Proof.
  intros Hc Ht Hr Hn Hq.
  pose proof (goal_4_coerced_rows _ _ Hc) as [_ Hrows].
  set (r' := coerce_field float_of_string "quantity" r).
  assert (Hq' : field r' "quantity" = Num q).
  { unfold r', coerce_field. now rewrite field_with_field_same. }
  assert (Hn' : field r' "ndc" = field r "ndc").
  { unfold r', coerce_field. now rewrite field_with_field_other. }
  assert (Hr' : In r' (rows df)).
  { rewrite Hrows. apply filter_In. split; [now apply in_map|].
    now rewrite Hq'. }
  destruct (quantity_counts_covers df tally r' Ht Hr') as [t [Hin [H1 [H2 H3]]]].
  { now rewrite Hn'. }
  { now rewrite Hq'. }
  rewrite Hn', Hq' in *.
  rewrite (occurrences_coerced float_of_string claims_df df
             (field r "ndc") (Num q) Hc eq_refl) in H3.
  exists t. repeat split; auto.
  unfold frequency.
  assert (Hin' : In r (filter
            (fun r0 => cell_eqb (field r0 "ndc") (field r "ndc") &&
                       cell_eqb (coerce float_of_string (field r0 "quantity")) (Num q))
            (rows claims_df))).
  { apply filter_In. split; auto. now rewrite Hq, !cell_eqb_refl. }
  destruct (filter _ (rows claims_df)); [contradiction|]. cbn. lia.
Qed.

(** C2: the file of Goal 4 is computed from the claims of known
    pharmacies as they are, whatever the reverts: its tally counts every
    such claim whose quantity coerces to a number, reverted or not. *)
Theorem goal_4_counts_reverted_claims
    (pf cf rf : list DataFrame) (res : E unit) (w : World)
    (g4 : list (cell * list cell)) :
  main float_of_string pf cf rf initial_world = (res, w) ->
  In ("goal_4_common_quantities.json", Quantities g4) (written w) ->
  exists claims coerced tally,
    known_claims (load_data_from_dirs pf) (load_data_from_dirs cf) = inr claims /\
    goal_4_coerced float_of_string claims = inr coerced /\
    goal_4_quantity_counts coerced = inr tally /\
    goal_4_ranking coerced = inr g4 /\
    forall r q,
      In r (rows claims) ->
      isna (field r "ndc") = false ->
      coerce float_of_string (field r "quantity") = Num q ->
      forall reverted : bool,
        is_reverted (load_data_from_dirs rf) r = reverted ->
        exists t,
          In t (rows tally) /\
          cell_eqb (field t "ndc") (field r "ndc") = true /\
          cell_eqb (field t "quantity") (Num q) = true /\
          field t "count" =
            count_cell (frequency float_of_string claims (field r "ndc") (Num q)) /\
          0 < frequency float_of_string claims (field r "ndc") (Num q).
Proof.
  rewrite main_run. cbv zeta. unfold known_claims.
  set (P := load_data_from_dirs pf). set (C := load_data_from_dirs cf).
  set (R := load_data_from_dirs rf). clearbody P C R.
  assert (Hnone : forall (r : E unit) (h : list DataFrame) (b : bool) l,
             (r, mkWorld h b l) = (res, w) ->
             ~ In "goal_4_common_quantities.json" (map fst l) ->
             In ("goal_4_common_quantities.json", Quantities g4) (written w) ->
             False).
  { intros r h b l H Hl Hin. inversion H; subst. apply Hl.
    cbn [written] in Hin. now apply (in_map fst) in Hin. }
  destruct (empty P || negb (has_column P "npi")); [no_goal_4 Hnone|].
  destruct (empty C || negb (has_column C "npi")); [no_goal_4 Hnone|].
  destruct (dropna P ["npi"]) as [e|P']; cbn [bindE]; [no_goal_4 Hnone|].
  destruct (dropna C ["npi"; "id"]) as [e|C']; cbn [bindE]; [no_goal_4 Hnone|].
  destruct (getitem C' "npi") as [e|cn]; cbn [bindE]; [no_goal_4 Hnone|].
  destruct (getitem P' "npi") as [e|pn]; cbn [bindE retE]; [no_goal_4 Hnone|].
  destruct (empty (getitem_mask C' (isin cn pn))); [no_goal_4 Hnone|].
  destruct (goal_2_metrics float_of_string _ R) as [e|g2]; [no_goal_4 Hnone|].
  destruct (goal_3_recommendations float_of_string _ P' R) as [e|g3];
    [no_goal_4 Hnone|].
  destruct (goal_4_coerced float_of_string _) as [e|F'] eqn:Hc; [no_goal_4 Hnone|].
  destruct (goal_4_ranking F') as [e|out] eqn:Hrank; [no_goal_4 Hnone|].
  intros H Hin. inversion H; subst; clear H. cbn [written] in Hin.
  destruct Hin as [Hin|[Hin|[Hin|[]]]]; try discriminate.
  inversion Hin; subst out; clear Hin.
  destruct (goal_4_ranking_inv _ _ Hrank) as [tally [_ [Ht _]]].
  eexists _, F', tally. repeat split; eauto.
  intros r q Hr Hn Hq reverted _.
  now apply (tally_counts_claim _ F' tally r q Hc Ht).
Qed.

End Goal4Tally.

(** ** The claims behind the price metrics *)


Lemma filter_comm {A} (p q : A -> bool) (l : list A) :
  filter p (filter q l) = filter q (filter p l).
Proof.
  induction l as [|x l IH]; [reflexivity|].
  cbn [filter]. destruct (p x) eqn:Hp, (q x) eqn:Hq; cbn [filter];
    rewrite ?Hp, ?Hq, IH; reflexivity.
Qed.

Section ValidClaims.

Context {arith : Arithmetic}.
Variable float_of_string : string -> option Q.

Lemma coerce_not_text (c : cell) (s : string) : coerce float_of_string c <> Str s.
Proof.
  destruct c as [|t|q]; cbn; try discriminate.
  destruct (float_of_string t); discriminate.
Qed.

(** Every row kept for the price metrics has a numeric price and a
    quantity above zero. *)
Lemma positive_claim_rows_positive (claims_df reverts_df : DataFrame) (r : row) :
  In r (positive_claim_rows float_of_string claims_df reverts_df) ->
  exists p q, field r "price" = Num p /\ field r "quantity" = Num q /\ (0 < q)%Q.
Proof.
  unfold positive_claim_rows. intros H.
  apply filter_In in H as [H Hpos]. apply filter_In in H as [H Hpriced].
  apply in_map_iff in H as [r0 [<- _]].
  unfold positive_quantity in Hpos. unfold is_priced in Hpriced.
  destruct (field (coerced_claim float_of_string r0) "quantity") as [| |q] eqn:Hq;
    try discriminate.
  destruct (field (coerced_claim float_of_string r0) "price") as [|s|p] eqn:Hp.
  - discriminate.
  - exfalso. unfold coerced_claim, coerce_field in Hp.
    rewrite field_with_field_other, field_with_field_same in Hp by reflexivity.
    now apply coerce_not_text in Hp.
  - exists p, q. repeat split.
    apply Qnot_le_lt. intros Hle. apply Qle_bool_iff in Hle.
    now rewrite Hle in Hpos.
Qed.




(** C10: lines 44-50 of Goal 2 and lines 78-83 of Goal 3 derive the same
    claim set, which is the one the specification describes. *)
Theorem valid_claims_agree (claims_df reverts_df : DataFrame) :
  goal_2_valid_claims float_of_string claims_df reverts_df =
    goal_3_valid_claims float_of_string claims_df reverts_df /\
  goal_2_valid_claims float_of_string claims_df reverts_df =
    valid_claim_set float_of_string claims_df reverts_df.
Proof.
  split.
  - now rewrite goal_2_valid_claims_spec, goal_3_valid_claims_spec.
  - apply goal_2_valid_claims_spec.
Qed.

End ValidClaims.

(** ** Aggregation and joins *)

Lemma groupby_agg_inv (df out : DataFrame) (by_ : list string)
    (specs : list (string * (string * aggfunc))) :
  groupby_agg df by_ specs = inr out ->
  missing_labels df by_ = [] /\
  missing_labels df (map (fun sp => fst (snd sp)) specs) = [] /\
  out =
  mkDataFrame (by_ ++ map fst specs)
    (map (fun g =>
            combine by_ (fst g) ++
            map (fun sp =>
                   (fst sp,
                    aggregate (snd (snd sp))
                      (map (fun r => field r (fst (snd sp))) (snd g))))
              specs)
       (groups by_ (rows df))).
Proof.
  unfold groupby_agg.
  destruct (groupby df by_) as [e|gs] eqn:Hg; [discriminate|].
  cbn [bindE]. apply groupby_inv in Hg as [Hm ->].
  destruct (missing_labels df (map _ specs)); [|discriminate].
  intros H. inversion H. auto.
Qed.

Lemma merge_inv (left right out : DataFrame) (on : list string) (h : how) :
  merge left right on h = inr out ->
  missing_labels left on = [] /\ missing_labels right on = [] /\
  columns out =
    map (left_label left right on) (columns left) ++
    map (right_label left right on) (right_columns right on) /\
  forall r, In r (rows out) ->
    exists l, In l (rows left) /\
      ((exists m, In m (rows right) /\
                  key_eqb (key_of on m) (key_of on l) = true /\
                  r = joined left right on l m) \/
       (matches right on l = [] /\ h = Left /\ r = joined left right on l [])).
Proof.
  unfold merge.
  destruct (missing_labels left on ++ missing_labels right on) eqn:Hm; [|discriminate].
  apply app_eq_nil in Hm as [Hl Hr].
  intros H. inversion H; subst out; clear H. cbn [columns rows].
  repeat split; auto.
  intros r Hin. apply in_flat_map in Hin as [l [Hl' Hin]].
  exists l. split; auto.
  destruct (matches right on l) as [|m0 ms] eqn:Hms.
  - destruct h; [|contradiction]. destruct Hin as [<-|[]]. right. auto.
  - left.
    assert (Hin' : In r (map (joined left right on l) (m0 :: ms)))
      by (destruct h; exact Hin).
    clear Hin. apply in_map_iff in Hin' as [m [<- Hin]].
    exists m. rewrite <- Hms in Hin. unfold matches in Hin.
    apply filter_In in Hin as [Hin Hk]. auto.
Qed.

Section Goal2Facts.

Context {arith : Arithmetic}.
Variable float_of_string : string -> option Q.

(** Lines 65-69 on one row of the joined frame. *)
Lemma goal_2_postprocess (m2 out : DataFrame) :
  (let* reverted := getitem m2 "reverted" in
   let result_df := setitem m2 "reverted" (astype_int (fillna (Num 0) reverted)) in
   let* avg_price := getitem result_df "avg_price" in
   let* total_price := getitem result_df "total_price" in
   let result_df := setitem result_df "avg_price" (fillna (Num 0) avg_price) in
   let result_df := setitem result_df "total_price" (fillna (Num 0) total_price) in
   let* avg_price := getitem result_df "avg_price" in
   let result_df := setitem result_df "avg_price" (round_2 round_avg avg_price) in
   let* total_price := getitem result_df "total_price" in
   let result_df := setitem result_df "total_price" (round_2 round_total total_price) in
   retE result_df) = inr out ->
  forall r, In r (rows out) ->
    exists r0, In r0 (rows m2) /\
      field r "npi" = field r0 "npi" /\
      field r "ndc" = field r0 "ndc" /\
      field r "fills" = field r0 "fills" /\
      field r "reverted" = int_cell (fill (Num 0) (field r0 "reverted")) /\
      field r "avg_price" = round_cell round_avg (fill (Num 0) (field r0 "avg_price")) /\
      field r "total_price" = round_cell round_total (fill (Num 0) (field r0 "total_price")).
Proof.
  destruct m2 as [cols rs]. cbv zeta. cbn [rows].
  unfold astype_int, fillna, round_2.
  rewrite getitem_mk. destruct (mem "reverted" cols) eqn:Hr; [|discriminate].
  cbn [bindE]. rewrite !map_map.
  rewrite (setitem_mk cols rs "reverted"), Hr.
  set (rs1 := map _ rs).
  rewrite !getitem_mk.
  destruct (mem "avg_price" cols) eqn:Ha; [|discriminate].
  destruct (mem "total_price" cols) eqn:Ht; [|discriminate].
  cbn [bindE]. rewrite !map_map.
  rewrite (setitem_mk cols rs1 "avg_price"), Ha.
  set (rs2 := map _ rs1).
  assert (Htot : map (fun x => fill (Num 0) (field x "total_price")) rs1 =
                 map (fun x => fill (Num 0) (field x "total_price")) rs2).
  { unfold rs2. rewrite map_map. apply map_ext. intros x.
    now rewrite field_with_field_other. }
  rewrite Htot. rewrite (setitem_mk cols rs2 "total_price"), Ht.
  set (rs3 := map _ rs2).
  rewrite getitem_mk, Ha. cbn [bindE]. rewrite !map_map.
  rewrite (setitem_mk cols rs3 "avg_price"), Ha.
  set (rs4 := map _ rs3).
  rewrite getitem_mk, Ht. cbn [bindE]. rewrite !map_map.
  rewrite (setitem_mk cols rs4 "total_price"), Ht.
  intros H r Hin. inversion H; subst out; clear H. cbn [rows] in Hin.
  apply in_map_iff in Hin as [r4 [<- Hin]].
  apply in_map_iff in Hin as [r3 [<- Hin]].
  apply in_map_iff in Hin as [r2 [<- Hin]].
  apply in_map_iff in Hin as [r1 [<- Hin]].
  apply in_map_iff in Hin as [r0 [<- Hin]].
  exists r0. split; [exact Hin|].
  repeat (rewrite ?field_with_field_same;
          rewrite ?field_with_field_other by reflexivity).
  repeat split; reflexivity.
Qed.

Lemma fills_count_inv (claims_df fills_count : DataFrame) :
  goal_2_fills_count claims_df = inr fills_count ->
  has_column claims_df "ndc" = true /\
  fills_count =
  mkDataFrame ["npi"; "ndc"; "fills"]
    (map (fun g =>
            combine ["npi"; "ndc"] (fst g) ++
            [("fills", count_cell (count_notna (map (fun r => field r "id") (snd g))))])
       (groups ["npi"; "ndc"] (rows claims_df))).
Proof.
  unfold goal_2_fills_count. intros H.
  apply groupby_agg_inv in H as [Hm [_ ->]]. split; [|reflexivity].
  unfold missing_labels in Hm. cbn [filter] in Hm.
  destruct (has_column claims_df "npi"); [|discriminate].
  destruct (has_column claims_df "ndc"); [reflexivity|discriminate].
Qed.

Lemma goal_2_first_join (fills_count reverts_count m1 : DataFrame) :
  columns fills_count = ["npi"; "ndc"; "fills"] ->
  columns reverts_count = ["npi"; "ndc"; "reverted"] ->
  merge fills_count reverts_count ["npi"; "ndc"] Left = inr m1 ->
  columns m1 = ["npi"; "ndc"; "fills"; "reverted"] /\
  forall r, In r (rows m1) ->
    exists l mrev, In l (rows fills_count) /\
      (mrev = [] /\ matches reverts_count ["npi"; "ndc"] l = [] \/
       In mrev (rows reverts_count) /\
       key_eqb (key_of ["npi"; "ndc"] mrev) (key_of ["npi"; "ndc"] l) = true) /\
      r = [("npi", field l "npi"); ("ndc", field l "ndc");
           ("fills", field l "fills"); ("reverted", field mrev "reverted")].
Proof.
  intros Hc1 Hc2 H. apply merge_inv in H as [_ [_ [Hcols Hrows]]].
  split.
  - rewrite Hcols. unfold left_label, right_label, right_columns, overlap.
    rewrite Hc1, Hc2. reflexivity.
  - intros r Hr. destruct (Hrows r Hr) as [l [Hl [[m [Hm [Hk ->]]]|[Hno [_ ->]]]]];
      exists l.
    + exists m. split; auto. split; auto.
      unfold joined, left_label, right_label, right_columns, overlap.
      rewrite Hc1, Hc2. reflexivity.
    + exists []. split; auto. split; auto.
      unfold joined, left_label, right_label, right_columns, overlap.
      rewrite Hc1, Hc2. reflexivity.
Qed.

Lemma goal_2_second_join (m1 metrics_df m2 : DataFrame) :
  columns m1 = ["npi"; "ndc"; "fills"; "reverted"] ->
  columns metrics_df = ["npi"; "ndc"; "avg_price"; "total_price"] ->
  merge m1 metrics_df ["npi"; "ndc"] Left = inr m2 ->
  forall r, In r (rows m2) ->
    exists l mmet, In l (rows m1) /\
      (mmet = [] \/
       In mmet (rows metrics_df) /\
       key_eqb (key_of ["npi"; "ndc"] mmet) (key_of ["npi"; "ndc"] l) = true) /\
      r = [("npi", field l "npi"); ("ndc", field l "ndc");
           ("fills", field l "fills"); ("reverted", field l "reverted");
           ("avg_price", field mmet "avg_price");
           ("total_price", field mmet "total_price")].
Proof.
  intros Hc1 Hc2 H. apply merge_inv in H as [_ [_ [Hcols Hrows]]].
  intros r Hr. destruct (Hrows r Hr) as [l [Hl [[m [Hm [Hk ->]]]|[_ [_ ->]]]]];
    exists l.
  - exists m. split; auto. split; auto.
    unfold joined, left_label, right_label, right_columns, overlap.
    rewrite Hc1, Hc2. reflexivity.
  - exists []. split; auto. split; auto.
    unfold joined, left_label, right_label, right_columns, overlap.
    rewrite Hc1, Hc2. reflexivity.
Qed.

(** One row of the result of Goal 2, traced back to the three grouped
    frames it is joined from. *)
Lemma goal_2_metrics_row (claims_df reverts_df out : DataFrame) :
  goal_2_metrics float_of_string claims_df reverts_df = inr out ->
  exists metrics_df fills_count reverts_count,
    goal_2_price_metrics float_of_string claims_df reverts_df = inr metrics_df /\
    goal_2_fills_count claims_df = inr fills_count /\
    goal_2_reverts_count claims_df reverts_df = inr reverts_count /\
    forall r, In r (rows out) ->
      exists l mrev mmet,
        In l (rows fills_count) /\
        (mrev = [] /\ matches reverts_count ["npi"; "ndc"] l = [] \/
         In mrev (rows reverts_count) /\
         key_eqb (key_of ["npi"; "ndc"] mrev) (key_of ["npi"; "ndc"] l) = true) /\
        (mmet = [] \/
         In mmet (rows metrics_df) /\
         key_eqb (key_of ["npi"; "ndc"] mmet) (key_of ["npi"; "ndc"] l) = true) /\
        field r "npi" = field l "npi" /\
        field r "ndc" = field l "ndc" /\
        field r "fills" = field l "fills" /\
        field r "reverted" = int_cell (fill (Num 0) (field mrev "reverted")) /\
        field r "avg_price" = round_cell round_avg (fill (Num 0) (field mmet "avg_price")) /\
        field r "total_price" = round_cell round_total (fill (Num 0) (field mmet "total_price")).
Proof.
  unfold goal_2_metrics.
  destruct (goal_2_price_metrics _ _ _) as [e|metrics_df] eqn:Hmet; [discriminate|].
  cbn [bindE].
  destruct (goal_2_fills_count claims_df) as [e|fills_count] eqn:Hfills;
    [discriminate|].
  cbn [bindE].
  destruct (goal_2_reverts_count claims_df reverts_df) as [e|reverts_count] eqn:Hrev;
    [discriminate|].
  cbn [bindE].
  destruct (merge fills_count reverts_count _ _) as [e|m1] eqn:Hm1; [discriminate|].
  cbn [bindE].
  destruct (merge m1 metrics_df _ _) as [e|m2] eqn:Hm2; [discriminate|].
  cbn [bindE].
  intros Hpost. exists metrics_df, fills_count, reverts_count.
  repeat split; auto.
  intros r Hr.
  destruct (goal_2_postprocess m2 out Hpost r Hr)
    as [r0 [Hr0 [Hnpi [Hndc [Hf [Hv [Ha Ht]]]]]]].
  assert (Hc_fills : columns fills_count = ["npi"; "ndc"; "fills"]).
  { apply fills_count_inv in Hfills as [_ ->]. reflexivity. }
  assert (Hc_rev : columns reverts_count = ["npi"; "ndc"; "reverted"]).
  { unfold goal_2_reverts_count in Hrev.
    destruct (getitem claims_df "id"); [discriminate|].
    destruct (getitem reverts_df "claim_id"); [discriminate|].
    cbn [bindE] in Hrev.
    destruct (getitem_columns _ _); [discriminate|]. cbn [bindE] in Hrev.
    apply groupby_agg_inv in Hrev as [_ [_ ->]]. reflexivity. }
  assert (Hc_met : columns metrics_df = ["npi"; "ndc"; "avg_price"; "total_price"]).
  { unfold goal_2_price_metrics in Hmet.
    destruct (goal_2_valid_claims _ _ _); [discriminate|]. cbn [bindE] in Hmet.
    apply groupby_agg_inv in Hmet as [_ [_ ->]]. reflexivity. }
  destruct (goal_2_first_join _ _ _ Hc_fills Hc_rev Hm1) as [Hc_m1 Hrows1].
  destruct (goal_2_second_join _ _ _ Hc_m1 Hc_met Hm2 r0 Hr0)
    as [l2 [mmet [Hl2 [Hmmet ->]]]].
  destruct (Hrows1 l2 Hl2) as [l [mrev [Hl [Hmrev ->]]]].
  exists l, mrev, mmet. cbn in *. repeat split; auto.
Qed.

End Goal2Facts.

(** ** Goal 2: fills and reverts *)

Lemma filter_map_swap {A B} (f : A -> B) (p : B -> bool) (l : list A) :
  filter p (map f l) = map f (filter (fun x => p (f x)) l).
Proof.
  induction l as [|x l IH]; [reflexivity|].
  cbn [map filter]. destruct (p (f x)); cbn [map]; now rewrite IH.
Qed.

Lemma count_notna_filter {A} (f : A -> cell) (p : A -> bool) (l : list A) :
  count_notna (map f (filter p l)) <= count_notna (map f l).
Proof.
  unfold count_notna. induction l as [|x l IH]; [reflexivity|].
  cbn [filter map]. destruct (p x); cbn [map filter];
    destruct (negb (isna (f x))); cbn [List.length]; lia.
Qed.

Lemma int_cell_count (n : nat) : int_cell (count_cell n) = count_cell n.
Proof.
  unfold int_cell, count_cell.
  assert (H : Qle_bool 0 (inject_Z (Z.of_nat n)) = true).
  { apply Qle_bool_iff. change 0%Q with (inject_Z 0). rewrite <- Zle_Qle. lia. }
  rewrite H. now rewrite Qfloor_Z.
Qed.

Lemma fills_of_congr (claims_df : DataFrame) (a a' b b' : cell) :
  cell_eqb a a' = true -> cell_eqb b b' = true ->
  fills_of claims_df a b = fills_of claims_df a' b'.
Proof.
  intros Ha Hb. unfold fills_of. apply filter_ext. intros r. f_equal.
  - destruct (cell_eqb (field r "npi") a) eqn:H1.
    + symmetry. eauto using cell_eqb_trans.
    + destruct (cell_eqb (field r "npi") a') eqn:H2; auto.
      rewrite cell_eqb_sym in Ha. rewrite (cell_eqb_trans _ _ _ H2 Ha) in H1.
      discriminate.
  - destruct (cell_eqb (field r "ndc") b) eqn:H1.
    + symmetry. eauto using cell_eqb_trans.
    + destruct (cell_eqb (field r "ndc") b') eqn:H2; auto.
      rewrite cell_eqb_sym in Hb. rewrite (cell_eqb_trans _ _ _ H2 Hb) in H1.
      discriminate.
Qed.

Lemma group_is_fills_of (claims_df : DataFrame) (a b : cell) :
  filter (fun r => key_eqb (key_of ["npi"; "ndc"] r) [a; b]) (rows claims_df) =
  fills_of claims_df a b.
Proof.
  unfold fills_of. apply filter_ext. intros r.
  unfold key_eqb. cbn [key_of map forallb2]. now rewrite andb_true_r.
Qed.

Lemma fills_count_row (claims_df fills_count : DataFrame) (l : row) :
  goal_2_fills_count claims_df = inr fills_count ->
  In l (rows fills_count) ->
  exists a b,
    isna a = false /\ isna b = false /\
    l = [("npi", a); ("ndc", b);
         ("fills", count_cell (count_ids (fills_of claims_df a b)))].
Proof.
  intros H Hl. apply fills_count_inv in H as [_ ->]. cbn [rows] in Hl.
  apply in_map_iff in Hl as [[k g] [<- Hg]].
  apply groups_in in Hg as [-> [Hna [r [Hr ->]]]].
  cbn [fst snd].
  change (key_of ["npi"; "ndc"] r) with [field r "npi"; field r "ndc"] in *.
  rewrite group_is_fills_of.
  unfold key_isna in Hna. cbn [existsb] in Hna. rewrite orb_false_r in Hna.
  apply orb_false_iff in Hna as [Ha Hb].
  exists (field r "npi"), (field r "ndc"). repeat split; auto.
Qed.

Lemma getitem_mask_isin_pos (df : DataFrame) (c : string) (values : Series) :
  getitem_mask df (isin (map (fun r => field r c) (rows df)) values) =
  mkDataFrame (columns df)
    (filter (fun r => existsb (cell_eqb (field r c)) values) (rows df)).
Proof.
  unfold getitem_mask, isin. rewrite map_map, select_map. reflexivity.
Qed.

Lemma reverts_count_inv (claims_df reverts_df reverts_count : DataFrame) :
  goal_2_reverts_count claims_df reverts_df = inr reverts_count ->
  reverts_count =
  mkDataFrame ["npi"; "ndc"; "reverted"]
    (map (fun g =>
            combine ["npi"; "ndc"] (fst g) ++
            [("reverted",
              count_cell (count_notna (map (fun r => field r "id") (snd g))))])
       (groups ["npi"; "ndc"]
          (map reverted_info
             (filter (is_reverted reverts_df) (rows claims_df))))).
Proof.
  unfold goal_2_reverts_count.
  destruct (getitem claims_df "id") as [e|ids] eqn:Hid; [discriminate|].
  destruct (getitem reverts_df "claim_id") as [e|cids] eqn:Hc; [discriminate|].
  cbn [bindE].
  apply getitem_inv in Hid as [_ ->]. apply getitem_inv in Hc as [_ ->].
  rewrite getitem_mask_isin_pos.
  unfold getitem_columns.
  destruct (missing_labels _ ["id"; "npi"; "ndc"]); [|discriminate].
  cbn [bindE retE]. intros H.
  apply groupby_agg_inv in H as [_ [_ ->]]. reflexivity.
Qed.

Lemma reverted_group (claims_df reverts_df : DataFrame) (a b : cell) :
  count_notna
    (map (fun r => field r "id")
       (filter (fun r => key_eqb (key_of ["npi"; "ndc"] r) [a; b])
          (map reverted_info (filter (is_reverted reverts_df) (rows claims_df))))) =
  count_ids (reverted_of claims_df reverts_df a b).
Proof.
  unfold count_ids, reverted_of, fills_of.
  rewrite filter_map_swap, map_map. cbn [reverted_info field String.eqb].
  rewrite filter_comm. f_equal. f_equal. f_equal.
  apply filter_ext. intros r. unfold key_eqb. cbn.
  now rewrite andb_true_r.
Qed.

Lemma reverts_count_row (claims_df reverts_df reverts_count : DataFrame) (m : row) :
  goal_2_reverts_count claims_df reverts_df = inr reverts_count ->
  In m (rows reverts_count) ->
  exists a b,
    m = [("npi", a); ("ndc", b);
         ("reverted", count_cell (count_ids (reverted_of claims_df reverts_df a b)))].
Proof.
  intros H Hm. apply reverts_count_inv in H. subst reverts_count.
  cbn [rows] in Hm. apply in_map_iff in Hm as [[k g] [<- Hg]].
  apply groups_in in Hg as [-> [Hna [r [Hr ->]]]].
  cbn [fst snd].
  change (key_of ["npi"; "ndc"] r) with [field r "npi"; field r "ndc"].
  rewrite reverted_group.
  exists (field r "npi"), (field r "ndc"). reflexivity.
Qed.

(** Without a row in [reverts_count] for a key, no claim of that key is
    reverted. *)
Lemma reverts_count_none (claims_df reverts_df reverts_count : DataFrame)
    (a b : cell) (l : row) :
  goal_2_reverts_count claims_df reverts_df = inr reverts_count ->
  isna a = false -> isna b = false ->
  field l "npi" = a -> field l "ndc" = b ->
  matches reverts_count ["npi"; "ndc"] l = [] ->
  reverted_of claims_df reverts_df a b = [].
Proof.
  intros H Ha Hb Hla Hlb Hno.
  destruct (reverted_of claims_df reverts_df a b) as [|r rs] eqn:Hrev; [reflexivity|].
  exfalso.
  assert (Hr : In r (reverted_of claims_df reverts_df a b)) by (rewrite Hrev; now left).
  unfold reverted_of, fills_of in Hr.
  apply filter_In in Hr as [Hr Hisrev]. apply filter_In in Hr as [Hr Hkey].
  apply andb_true_iff in Hkey as [Hk1 Hk2].
  apply reverts_count_inv in H.
  destruct (groups_covers ["npi"; "ndc"]
              (map reverted_info (filter (is_reverted reverts_df) (rows claims_df)))
              (reverted_info r)) as [k [Hk Hkr]].
  { apply in_map. apply filter_In. auto. }
  { unfold key_isna. cbn.
    rewrite (cell_eqb_isna _ _ Hk1), (cell_eqb_isna _ _ Hk2), Ha, Hb. reflexivity. }
  pose proof (groups_in _ _ _ _ Hk) as [_ [_ [r0 [_ Hk0]]]].
  pose proof (in_map
                (fun g : key * list row =>
                   combine ["npi"; "ndc"] (fst g) ++
                   [("reverted",
                     count_cell (count_notna (map (fun r => field r "id") (snd g))))])
                _ _ Hk) as Hm.
  match type of Hm with
  | In ?m _ => assert (Hin : In m (matches reverts_count ["npi"; "ndc"] l))
  end.
  { unfold matches. apply filter_In. split.
    - rewrite H. exact Hm.
    - subst k. cbn in Hkr |- *. rewrite Hla, Hlb.
      unfold key_eqb in *. cbn [forallb2] in *.
      rewrite andb_true_r in *. apply andb_true_iff in Hkr as [H1 H2].
      apply andb_true_iff. split; eauto using cell_eqb_trans. }
  rewrite Hno in Hin. contradiction.
Qed.

Section Goal2Counts.

Context {arith : Arithmetic}.
Variable float_of_string : string -> option Q.

(** C5: in every row of Goal 2, [fills] counts the claims of the row's
    prescriber and drug, [reverted] counts those of them whose id is
    among the reverts, and so [reverted] is at most [fills]. *)
Theorem reverted_at_most_fills (claims_df reverts_df out : DataFrame) :
  goal_2_metrics float_of_string claims_df reverts_df = inr out ->
  forall r, In r (rows out) ->
    field r "fills" =
      count_cell (count_ids (fills_of claims_df (field r "npi") (field r "ndc"))) /\
    field r "reverted" =
      count_cell
        (count_ids (reverted_of claims_df reverts_df (field r "npi") (field r "ndc"))) /\
    count_ids (reverted_of claims_df reverts_df (field r "npi") (field r "ndc")) <=
    count_ids (fills_of claims_df (field r "npi") (field r "ndc")).
Proof.
  intros H r Hr.
  destruct (goal_2_metrics_row float_of_string _ _ _ H)
    as [metrics_df [fills_count [reverts_count [_ [Hfills [Hrev Hrows]]]]]].
  destruct (Hrows r Hr)
    as [l [mrev [mmet [Hl [Hmrev [_ [Hnpi [Hndc [Hf [Hv _]]]]]]]]]].
  destruct (fills_count_row _ _ _ Hfills Hl) as [a [b [Ha [Hb ->]]]].
  cbn in Hnpi, Hndc, Hf. rewrite Hnpi, Hndc, Hf, Hv.
  split; [reflexivity|]. split.
  - destruct Hmrev as [[-> Hno]|[Hm Hk]].
    + pose proof (fun H1 H2 =>
                    reverts_count_none claims_df reverts_df reverts_count a b _
                      Hrev Ha Hb H1 H2 Hno) as Hnone.
      rewrite (Hnone eq_refl eq_refl). reflexivity.
    + destruct (reverts_count_row _ _ _ _ Hrev Hm) as [a' [b' ->]].
      change (field _ "reverted")
        with (count_cell (count_ids (reverted_of claims_df reverts_df a' b'))).
      change (fill (Num 0) (count_cell ?n)) with (count_cell n).
      rewrite int_cell_count. do 2 f_equal.
      unfold key_eqb in Hk. cbn in Hk. rewrite andb_true_r in Hk.
      apply andb_true_iff in Hk as [H1 H2].
      unfold reverted_of. f_equal. now apply fills_of_congr.
  - unfold reverted_of, count_ids. apply count_notna_filter.
Qed.

End Goal2Counts.

(** ** Goal 2: prices *)








Section Goal2Prices.

Context {arith : Arithmetic}.
Variable float_of_string : string -> option Q.



End Goal2Prices.

(** ** Joined rows *)

Lemma ends_with_append (suffix c : string) :
  ends_with suffix (String.append c suffix) = true.
Proof.
  induction c as [|a c IH]; cbn [String.append].
  - destruct suffix; cbn; [reflexivity|].
    now rewrite Ascii.eqb_refl, String.eqb_refl.
  - cbn [ends_with]. rewrite IH. apply orb_true_r.
Qed.

Lemma plain_label_x (c c' : string) :
  plain_label c = true -> String.append c' "_x" <> c.
Proof.
  unfold plain_label. intros H <-. now rewrite ends_with_append in H.
Qed.

Lemma plain_label_y (c c' : string) :
  plain_label c = true -> String.append c' "_y" <> c.
Proof.
  unfold plain_label. intros H <-.
  rewrite (ends_with_append "_y") in H. now rewrite andb_false_r in H.
Qed.

Lemma mem_in (c : string) (l : list string) : mem c l = true <-> In c l.
Proof.
  unfold mem. rewrite existsb_exists. split.
  - intros [x [Hx He]]. apply String.eqb_eq in He. now subst.
  - intros H. exists c. split; auto. apply String.eqb_refl.
Qed.

Lemma field_build (f : string -> string) (v : string -> cell)
    (cols : list string) (rest : row) (c : string) :
  In c cols -> f c = c ->
  (forall c', In c' cols -> f c' = c -> c' = c) ->
  field (map (fun c' => (f c', v c')) cols ++ rest) c = v c.
Proof.
  intros Hin Hf Hinj. induction cols as [|c0 cols IH]; [contradiction|].
  cbn [map app field].
  destruct (String.eqb (f c0) c) eqn:He.
  - apply String.eqb_eq in He. f_equal. apply Hinj; [now left|exact He].
  - destruct Hin as [->|Hin].
    + rewrite Hf, String.eqb_refl in He. discriminate.
    + apply IH; auto. intros c' Hc'. apply Hinj. now right.
Qed.

(** A plain label of the left frame that is a label of the joined frame
    keeps the value the left row has for it. *)
Lemma field_joined_left (left right : DataFrame) (on : list string)
    (l m : row) (c : string) :
  plain_label c = true ->
  In c (columns left) ->
  In c (map (left_label left right on) (columns left) ++
        map (right_label left right on) (right_columns right on)) ->
  field (joined left right on l m) c = field l c.
Proof.
  intros Hplain Hleft Hmerged.
  assert (Hov : mem c (overlap left right on) = false).
  { destruct (mem c (overlap left right on)) eqn:Hov; [|reflexivity].
    exfalso. apply in_app_or in Hmerged as [H|H];
      apply in_map_iff in H as [c' [Hc' _]].
    - unfold left_label in Hc'. destruct (mem c' (overlap left right on)) eqn:Hov'.
      + now apply plain_label_x in Hc'.
      + subst c'. congruence.
    - unfold right_label in Hc'. destruct (mem c' (overlap left right on)) eqn:Hov'.
      + now apply plain_label_y in Hc'.
      + subst c'. congruence. }
  unfold joined.
  apply (field_build (left_label left right on) (field l)); auto.
  - unfold left_label. now rewrite Hov.
  - intros c' _. unfold left_label.
    destruct (mem c' (overlap left right on)); auto.
    intros H. now apply plain_label_x in H.
Qed.

Lemma Permutation_filter' {A} (p : A -> bool) (l1 l2 : list A) :
  Permutation l1 l2 -> Permutation (filter p l1) (filter p l2).
Proof.
  induction 1 as [|x l1 l2 H IH|x y l|l1 l2 l3 H1 IH1 H2 IH2]; cbn [filter].
  - constructor.
  - destruct (p x); auto.
  - destruct (p x), (p y); auto. constructor.
  - now rewrite IH1.
Qed.

(** ** Goal 3 *)

Section Goal3Facts.

Context {arith : Arithmetic}.
Variable float_of_string : string -> option Q.

Lemma valid_claims_rows (claims_df reverts_df valid : DataFrame) :
  goal_3_valid_claims float_of_string claims_df reverts_df = inr valid ->
  (has_column claims_df "ndc" = true -> In "ndc" (columns valid)) /\
  In "unit_price" (columns valid) /\
  forall l, In l (rows valid) ->
    exists p q, field l "unit_price" = Num (truediv p q) /\ (0 < q)%Q.
Proof.
  rewrite goal_3_valid_claims_spec. unfold valid_claim_set.
  destruct (valid_claim_labels claims_df reverts_df) as [e|[]]; [discriminate|].
  cbn [bindE retE]. intros H. inversion H; subst valid; clear H.
  cbn [columns rows]. split; [|split].
  - intros Hn. apply mem_in in Hn.
    destruct (has_column claims_df "unit_price"); auto.
    apply in_or_app. now left.
  - destruct (has_column claims_df "unit_price") eqn:Hu.
    + now apply mem_in.
    + apply in_or_app. right. now left.
  - intros l Hl. apply in_map_iff in Hl as [r0 [<- Hr0]].
    destruct (positive_claim_rows_positive _ _ _ _ Hr0) as [p [q [Hp [Hq Hpos]]]].
    exists p, q. unfold with_unit_price.
    rewrite field_with_field_same, Hp, Hq. auto.
Qed.

(** The rows of [avg_chain_price_df] after line 88. *)
Lemma avg_chain_price_rows (claims_df pharmacy_df reverts_df avg : DataFrame) :
  goal_3_avg_chain_price float_of_string claims_df pharmacy_df reverts_df = inr avg ->
  exists valid,
    goal_3_valid_claims float_of_string claims_df reverts_df = inr valid /\
    has_column avg "ndc" = true /\ has_column avg "avg_price" = true /\
    forall a, In a (rows avg) ->
      exists v : Q,
        field a "avg_price" = Num (round_avg v) /\
        isna (field a "ndc") = false /\
        (has_column claims_df "ndc" = true ->
         exists l, In l (rows valid) /\
                   cell_eqb (field l "ndc") (field a "ndc") = true).
Proof.
  unfold goal_3_avg_chain_price.
  destruct (goal_3_valid_claims _ _ _) as [e|valid] eqn:Hvalid; [discriminate|].
  cbn [bindE].
  destruct (merge valid pharmacy_df ["npi"] Inner) as [e|merged] eqn:Hmerge;
    [discriminate|].
  cbn [bindE].
  destruct (groupby_agg merged _ _) as [e|avg0] eqn:Hagg; [discriminate|].
  cbn [bindE].
  apply groupby_agg_inv in Hagg as [Hby [Hcol Havg0]].
  destruct avg0 as [cols0 rows0].
  assert (Hcols0 : cols0 = ["ndc"; "chain"; "avg_price"])
    by (injection Havg0 as Hc0 _; exact Hc0).
  assert (Hrows0 : rows0 =
            map (fun g : key * list row =>
                   combine ["ndc"; "chain"] (fst g) ++
                   [("avg_price",
                     aggregate (Mean mean) (map (fun r => field r "unit_price") (snd g)))])
              (groups ["ndc"; "chain"] (rows merged)))
    by (injection Havg0 as _ Hr0; exact Hr0).
  clear Havg0. subst cols0.
  rewrite getitem_mk.
  change (mem "avg_price" ["ndc"; "chain"; "avg_price"]) with true. cbn [bindE].
  unfold round_2. rewrite map_map.
  rewrite (setitem_mk ["ndc"; "chain"; "avg_price"] rows0 "avg_price"
             (fun r => round_cell round_avg (field r "avg_price"))).
  change (mem "avg_price" ["ndc"; "chain"; "avg_price"]) with true.
  intros Havg. exists valid.
  assert (Hc : columns avg = ["ndc"; "chain"; "avg_price"]) by (now inversion Havg).
  assert (Hravg : rows avg =
               map (fun r => with_field r "avg_price" (round_cell round_avg (field r "avg_price")))
                 rows0) by (now inversion Havg).
  clear Havg.
  split; [reflexivity|].
  split; [unfold has_column; now rewrite Hc|].
  split; [unfold has_column; now rewrite Hc|].
  intros a Ha. rewrite Hravg in Ha.
  apply in_map_iff in Ha as [a0 [<- Ha0]].
  rewrite Hrows0 in Ha0.
  apply in_map_iff in Ha0 as [[k g] [<- Hg]].
  pose proof (groups_nonempty _ _ _ _ Hg) as Hne.
  apply groups_in in Hg as [-> [Hna [r [Hr ->]]]].
  cbn [fst snd].
  change (key_of ["ndc"; "chain"] r) with [field r "ndc"; field r "chain"] in *.
  cbn [combine app map fst snd].
  unfold key_isna in Hna. cbn [existsb] in Hna.
  apply orb_false_iff in Hna as [Hn _].
  (* the columns the aggregation reads *)
  destruct (valid_claims_rows _ _ _ Hvalid) as [Hndc_col [Hup_col Hup]].
  destruct (merge_inv _ _ _ _ _ Hmerge) as [_ [_ [Hcols Hrows]]].
  assert (Hm_ndc : In "ndc" (columns merged)).
  { unfold missing_labels in Hby. cbn [filter] in Hby.
    destruct (has_column merged "ndc") eqn:Hhas; [now apply mem_in|discriminate]. }
  assert (Hm_up : In "unit_price" (columns merged)).
  { unfold missing_labels in Hcol. cbn [filter map fst snd] in Hcol.
    destruct (has_column merged "unit_price") eqn:Hhas; [now apply mem_in|discriminate]. }
  rewrite Hcols in Hm_ndc, Hm_up.
  assert (Hrow : forall x, In x (rows merged) ->
             exists l m, In l (rows valid) /\ x = joined valid pharmacy_df ["npi"] l m).
  { intros x Hx. destruct (Hrows x Hx) as [l [Hl [[m [_ [_ ->]]]|[_ [Hh _]]]]].
    - eauto.
    - discriminate. }
  set (g := filter _ (rows merged)) in *.
  assert (Hg : forall x, In x g ->
             In x (rows merged) /\ cell_eqb (field x "ndc") (field r "ndc") = true).
  { intros x Hx. apply filter_In in Hx as [Hx Hk]. split; auto.
    unfold key_eqb in Hk. cbn [key_of map forallb2] in Hk.
    now apply andb_true_iff in Hk as [Hk _]. }
  destruct g as [|x g'] eqn:Hgeq; [congruence|].
  destruct (Hg x (or_introl eq_refl)) as [Hx Hxn].
  destruct (Hrow x Hx) as [l [m [Hl ->]]].
  assert (Hxu : field (joined valid pharmacy_df ["npi"] l m) "unit_price" =
                field l "unit_price")
    by (apply field_joined_left; auto).
  destruct (Hup l Hl) as [p [q [Hpq _]]].
  match goal with
  | |- context [aggregate (Mean mean) ?s] => destruct (aggregate (Mean mean) s) as [|t|v] eqn:Hagg
  end.
  - exfalso. unfold aggregate in Hagg. cbn [map numbers flat_map] in Hagg.
    rewrite Hxu, Hpq in Hagg. discriminate.
  - exfalso. unfold aggregate in Hagg.
    destruct (numbers _); discriminate.
  - exists v. cbn. repeat split; auto.
    intros Hhas. exists l. split; auto.
    rewrite field_joined_left in Hxn by auto. exact Hxn.
Qed.

End Goal3Facts.

Section Goal3Records.

Context {arith : Arithmetic}.
Variable float_of_string : string -> option Q.

Lemma goal_3_records (claims_df pharmacy_df reverts_df : DataFrame)
    (out : list (cell * list row)) :
  goal_3_recommendations float_of_string claims_df pharmacy_df reverts_df = inr out ->
  exists valid avg,
    goal_3_valid_claims float_of_string claims_df reverts_df = inr valid /\
    goal_3_avg_chain_price float_of_string claims_df pharmacy_df reverts_df = inr avg /\
    forall ndc chains,
      In (ndc, chains) out ->
      List.length chains <= 2 /\
      chains <> [] /\
      StronglySorted price_le chains /\
      (List.length (of_drug ndc (rows avg)) <= 2 ->
       Permutation (format_chains (of_drug ndc (rows avg))) chains) /\
      (has_column claims_df "ndc" = true ->
       exists l, In l (rows valid) /\ cell_eqb (field l "ndc") ndc = true).
Proof.
  unfold goal_3_recommendations.
  destruct (goal_3_avg_chain_price _ _ _ _) as [e|avg] eqn:Havg; [discriminate|].
  cbn [bindE].
  destruct (avg_chain_price_rows float_of_string _ _ _ _ Havg)
    as [valid [Hvalid [_ [_ Hrows]]]].
  destruct (sort_values avg "avg_price" true) as [e|sorted] eqn:Hs; [discriminate|].
  cbn [bindE]. apply sort_values_sorted in Hs as [_ [Hperm Hsorted]].
  destruct (groupby_head sorted ["ndc"] 2) as [e|top] eqn:Hh; [discriminate|].
  cbn [bindE]. apply groupby_head_inv in Hh. subst top.
  intros H. apply groupby_apply_inv in H. cbn [rows] in H. subst out.
  exists valid, avg. split; [exact Hvalid|]. split; [reflexivity|].
  intros ndc chains Hin.
  apply per_drug_record in Hin as [Hna [[r [Hr Hrn]] ->]].
  fold (of_drug ndc (rows sorted)).
  assert (Hsub : forall x, In x (firstn 2 (of_drug ndc (rows sorted))) ->
                           In x (rows avg)).
  { intros x Hx.
    assert (Hx' : In x (of_drug ndc (rows sorted))).
    { rewrite <- (firstn_skipn 2). apply in_or_app. now left. }
    apply filter_In in Hx' as [Hx' _].
    now apply (Permutation_in _ (Permutation_sym Hperm)). }
  unfold format_chains.
  split; [|split; [|split; [|split]]].
  - rewrite length_map. apply firstn_le_length.
  - assert (Hr' : In r (of_drug ndc (rows sorted))).
    { apply filter_In. split; auto. rewrite Hrn. apply cell_eqb_refl. }
    destruct (of_drug ndc (rows sorted)); [contradiction|]. discriminate.
  - apply StronglySorted_map_in
      with (R := fun r1 r2 =>
                   asc_leb (field r1 "avg_price") (field r2 "avg_price") = true).
    + intros x y Hx Hy Hxy.
      destruct (Hrows x (Hsub x Hx)) as [vx [Hvx _]].
      destruct (Hrows y (Hsub y Hy)) as [vy [Hvy _]].
      exists (round_avg vx), (round_avg vy). cbn [field String.eqb].
      change (field [("name", field x "chain"); ("avg_price", field x "avg_price")]
                "avg_price") with (field x "avg_price").
      change (field [("name", field y "chain"); ("avg_price", field y "avg_price")]
                "avg_price") with (field y "avg_price").
      repeat split; auto.
      rewrite Hvx, Hvy in Hxy. now apply Qle_bool_iff.
    + unfold of_drug. now apply StronglySorted_firstn, StronglySorted_filter.
  - intros Hlen. fold (format_chains (of_drug ndc (rows avg))).
    assert (Hp : Permutation (of_drug ndc (rows avg)) (of_drug ndc (rows sorted)))
      by now apply Permutation_filter'.
    rewrite firstn_all2 by (rewrite <- (Permutation_length Hp); exact Hlen).
    unfold format_chains. now apply Permutation_map.
  - intros Hc.
    apply (Permutation_in _ (Permutation_sym Hperm)) in Hr.
    destruct (Hrows r Hr) as [_ [_ [_ Hl]]].
    rewrite <- Hrn. auto.
Qed.

(** Every record that [main] writes for Goal 3 lists one or two chains
    of its drug in ascending order of [avg_price]; a drug with at most
    two chains has all of them listed; and the drug of a record has a
    valid claim. *)
Lemma goal_3_written_records
    (pf cf rf : list DataFrame) (res : E unit) (w : World)
    (g3 : list (cell * list row)) :
  main float_of_string pf cf rf initial_world = (res, w) ->
  In ("goal_3_recommendations.json", Recommendations g3) (written w) ->
  exists pharmacy claims valid avg,
    dropna (load_data_from_dirs pf) ["npi"] = inr pharmacy /\
    known_claims (load_data_from_dirs pf) (load_data_from_dirs cf) = inr claims /\
    goal_3_valid_claims float_of_string claims (load_data_from_dirs rf) = inr valid /\
    goal_3_avg_chain_price float_of_string claims pharmacy (load_data_from_dirs rf) =
      inr avg /\
    forall ndc chains,
      In (ndc, chains) g3 ->
      List.length chains <= 2 /\
      chains <> [] /\
      StronglySorted price_le chains /\
      (List.length (of_drug ndc (rows avg)) <= 2 ->
       Permutation (format_chains (of_drug ndc (rows avg))) chains) /\
      exists l, In l (rows valid) /\ cell_eqb (field l "ndc") ndc = true.
Proof.
  rewrite main_run. cbv zeta. unfold known_claims.
  set (P := load_data_from_dirs pf). set (C := load_data_from_dirs cf).
  set (R := load_data_from_dirs rf). clearbody P C R.
  assert (Hnone : forall (r : E unit) (h : list DataFrame) (b : bool) l,
             (r, mkWorld h b l) = (res, w) ->
             ~ In "goal_3_recommendations.json" (map fst l) ->
             In ("goal_3_recommendations.json", Recommendations g3) (written w) ->
             False).
  { intros r h b l H Hl Hin. inversion H; subst. apply Hl.
    cbn [written] in Hin. now apply (in_map fst) in Hin. }
  destruct (empty P || negb (has_column P "npi")); [no_goal_4 Hnone|].
  destruct (empty C || negb (has_column C "npi")); [no_goal_4 Hnone|].
  destruct (dropna P ["npi"]) as [e|P']; cbn [bindE]; [no_goal_4 Hnone|].
  destruct (dropna C ["npi"; "id"]) as [e|C']; cbn [bindE]; [no_goal_4 Hnone|].
  destruct (getitem C' "npi") as [e|cn]; cbn [bindE]; [no_goal_4 Hnone|].
  destruct (getitem P' "npi") as [e|pn]; cbn [bindE retE]; [no_goal_4 Hnone|].
  set (F := getitem_mask C' (isin cn pn)). clearbody F.
  destruct (empty F); [no_goal_4 Hnone|].
  destruct (goal_2_metrics float_of_string F R) as [e|g2] eqn:Hg2; [no_goal_4 Hnone|].
  destruct (goal_3_recommendations float_of_string F P' R) as [e|out] eqn:Hg3;
    [no_goal_4 Hnone|].
  assert (Hndc : has_column F "ndc" = true).
  { destruct (goal_2_metrics_row float_of_string _ _ _ Hg2)
      as [? [fills_count [? [_ [Hfills _]]]]].
    now apply fills_count_inv in Hfills as [Hc _]. }
  destruct (goal_3_records _ _ _ _ Hg3) as [valid [avg [Hvalid [Havg Hrec]]]].
  assert (Hgoal : forall l : list (string * payload),
             In ("goal_3_recommendations.json", Recommendations g3)
                (("goal_2_metrics.json", Records g2) ::
                 ("goal_3_recommendations.json", Recommendations out) :: l) ->
             ~ In "goal_3_recommendations.json" (map fst l) ->
             g3 = out).
  { intros l [Hin|[Hin|Hin]] Hl.
    - discriminate.
    - now inversion Hin.
    - exfalso. apply Hl. now apply (in_map fst) in Hin. }
  destruct (goal_4_coerced float_of_string F) as [e|F'];
    [|destruct (goal_4_ranking F') as [e|g4]];
    (intros H Hin; inversion H; subst; clear H; cbn [written] in Hin;
     apply Hgoal in Hin; [|cbn; intuition discriminate]; subst g3;
     exists P', F, valid, avg;
     split; [reflexivity|]; split; [reflexivity|];
     split; [exact Hvalid|]; split; [exact Havg|];
     intros ndc chains Hin';
     destruct (Hrec ndc chains Hin') as [H1 [H2 [H3 [H4 H5]]]];
     split; [exact H1|]; split; [exact H2|]; split; [exact H3|];
     split; [exact H4|]; exact (H5 Hndc)).
Qed.

(** Without any chain average there is no group for line 95 to apply
    [format_chains] to, and Goal 3 raises [TypeError]. *)
Lemma goal_3_raises_without_averages
    (claims_df pharmacy_df reverts_df avg : DataFrame) :
  goal_3_avg_chain_price float_of_string claims_df pharmacy_df reverts_df = inr avg ->
  rows avg = [] ->
  goal_3_recommendations float_of_string claims_df pharmacy_df reverts_df =
    inl TypeError.
Proof.
  intros Havg Hrows. unfold goal_3_recommendations. rewrite Havg. cbn [bindE].
  destruct (avg_chain_price_rows float_of_string _ _ _ _ Havg)
    as [valid [_ [Hndc [Hprice _]]]].
  destruct avg as [cols rs]. cbn [rows] in Hrows. subst rs.
  unfold sort_values. rewrite Hprice. cbn [bindE retE rows columns sort_by fold_right].
  unfold groupby_head, missing_labels. cbn [filter columns].
  rewrite has_column_mk in Hndc |- *. rewrite Hndc.
  cbn [negb bindE retE rows head_rows].
  apply groupby_apply_type_error. split; [now rewrite has_column_mk|reflexivity].
Qed.

End Goal3Records.

(** C4: on every run that writes the file of Goal 3, each record lists
    one or two chains of its drug in ascending order of [avg_price], all
    of them when the drug has at most two, and the drug of a record has
    a valid claim, so that a drug without valid claims has no record.
    But when no drug at all has a valid claim at a chain, line 95 raises
    [TypeError] instead of returning no record: with every claim of the
    scenario reverted, the run ends with that exception after the file
    of Goal 2 has been written. *)
Theorem goal_3_top_chains :
  (forall (arith : Arithmetic) float_of_string pf cf rf res w g3,
      main float_of_string pf cf rf initial_world = (res, w) ->
      In ("goal_3_recommendations.json", Recommendations g3) (written w) ->
      exists pharmacy claims valid avg,
        dropna (load_data_from_dirs pf) ["npi"] = inr pharmacy /\
        known_claims (load_data_from_dirs pf) (load_data_from_dirs cf) = inr claims /\
        goal_3_valid_claims float_of_string claims (load_data_from_dirs rf) =
          inr valid /\
        goal_3_avg_chain_price float_of_string claims pharmacy
          (load_data_from_dirs rf) = inr avg /\
        forall ndc chains,
          In (ndc, chains) g3 ->
          List.length chains <= 2 /\
          chains <> [] /\
          StronglySorted price_le chains /\
          (List.length (of_drug ndc (rows avg)) <= 2 ->
           Permutation (format_chains (of_drug ndc (rows avg))) chains) /\
          exists l, In l (rows valid) /\ cell_eqb (field l "ndc") ndc = true) /\
  (forall (arith : Arithmetic) float_of_string claims_df pharmacy_df reverts_df avg,
      goal_3_avg_chain_price float_of_string claims_df pharmacy_df reverts_df =
        inr avg ->
      rows avg = [] ->
      goal_3_recommendations float_of_string claims_df pharmacy_df reverts_df =
        inl TypeError) /\
  let run := main (arith := decimal) decimal_of_string
               [scen_pharmacy] [scen_claims] [reverts_of_all] initial_world in
  fst run = inl TypeError /\
  output_names (snd run) = ["goal_2_metrics.json"].
Proof.
  split; [|split].
  - intros arith fos pf cf rf res w g3. apply goal_3_written_records.
  - intros arith fos claims_df pharmacy_df reverts_df avg.
    apply goal_3_raises_without_averages.
  - cbv zeta. split; vm_compute; reflexivity.
Qed.

(** ** Frame objects under the three goals *)

Lemma goal_2_leaves_frames {arith : Arithmetic}
    (float_of_string : string -> option Q)
    (claims_df reverts_df : ref) (w : World) :
  snd (calculate_goal_2_metrics float_of_string claims_df reverts_df w) = w.
Proof.
  unfold calculate_goal_2_metrics. plumb.
  destruct (goal_2_metrics _ _ _); reflexivity.
Qed.

Lemma goal_3_leaves_frames {arith : Arithmetic}
    (float_of_string : string -> option Q)
    (claims_df pharmacy_df reverts_df : ref) (w : World) :
  snd (calculate_goal_3_recommendations float_of_string
         claims_df pharmacy_df reverts_df w) = w.
Proof.
  unfold calculate_goal_3_recommendations. plumb.
  destruct (goal_3_recommendations _ _ _ _); reflexivity.
Qed.

(** C7: Goals 2 and 3 leave every frame object as it is, but Goal 4
    updates the claims object it is given: after the call on the claims
    of [claims_odd_quantities] the object holds coerced quantities and
    has lost the row whose quantity is not a number. *)
Theorem goal_4_updates_claims_in_place :
  (forall (arith : Arithmetic) float_of_string claims_df reverts_df w,
      snd (calculate_goal_2_metrics float_of_string claims_df reverts_df w) = w) /\
  (forall (arith : Arithmetic) float_of_string claims_df pharmacy_df reverts_df w,
      snd (calculate_goal_3_recommendations float_of_string
             claims_df pharmacy_df reverts_df w) = w) /\
  let w := mkWorld [claims_odd_quantities] false [] in
  let w' := snd (calculate_goal_4_common_quantities decimal_of_string 0 w) in
  nth 0 (heap w) DataFrame_empty = claims_odd_quantities /\
  nth 0 (heap w') DataFrame_empty <> claims_odd_quantities /\
  List.length (rows (nth 0 (heap w') DataFrame_empty)) = 2 /\
  map (fun r => field r "quantity") (rows (nth 0 (heap w') DataFrame_empty)) =
    [Num 0; Num 10].
Proof.
  split; [intros; apply goal_2_leaves_frames|].
  split; [intros; apply goal_3_leaves_frames|].
  cbv zeta. split; [reflexivity|]. split; [|split; vm_compute; reflexivity].
  intros H. apply (f_equal (fun df => List.length (rows df))) in H.
  vm_compute in H. discriminate.
Qed.

(** ** Runs without revert records *)

Lemma goal_2_needs_claim_id {arith : Arithmetic}
    (float_of_string : string -> option Q) (claims_df : DataFrame) :
  exists e, goal_2_metrics float_of_string claims_df DataFrame_empty = inl e.
Proof.
  unfold goal_2_metrics, goal_2_price_metrics.
  rewrite goal_2_valid_claims_spec. unfold valid_claim_set, valid_claim_labels.
  change (has_column DataFrame_empty "claim_id") with false.
  destruct (has_column claims_df "id"); cbn; eauto.
Qed.

(** C8: when the revert directories contribute no record at all, the
    loaded frame has no [claim_id] label; Goal 2 raises [KeyError] and
    no output file is written. *)
Theorem no_revert_files_no_output :
  (forall (arith : Arithmetic) float_of_string pf cf,
      written (snd (main float_of_string pf cf [] initial_world)) = []) /\
  (forall arith : Arithmetic,
      fst (main decimal_of_string [scen_pharmacy] [scen_claims] [] initial_world) =
        inl (KeyError "claim_id")) /\
  output_names
    (snd (main (arith := decimal) decimal_of_string
            [scen_pharmacy] [scen_claims] [no_reverts] initial_world)) = goal_files.
Proof.
  split; [|split; [intros arith|]; vm_compute; reflexivity].
  intros arith fos pf cf. rewrite main_run. cbv zeta.
  change (load_data_from_dirs []) with DataFrame_empty.
  repeat match goal with
         | |- context [goal_2_metrics fos ?F DataFrame_empty] =>
             destruct (goal_2_needs_claim_id fos F) as [e ->]
         | |- written (snd (if ?b then _ else _)) = _ => destruct b
         | |- written (snd (match ?m with inl _ => _ | inr _ => _ end)) = _ =>
             destruct m
         end; reflexivity.
Qed.

(** ** Counterexamples *)

(** C1 as stated fails: with pharmacy records that have no [chain]
    field, Goal 3 raises after the file of Goal 2 has been written. *)
Lemma partial_output_without_chain :
  let run := main (arith := decimal) decimal_of_string [pharmacy_without_chain] [scen_claims]
               [scen_reverts] initial_world in
  fst run = inl (KeyError "chain") /\
  output_names (snd run) = ["goal_2_metrics.json"] /\
  ~ (output_names (snd run) = [] \/ output_names (snd run) = goal_files).
Proof.
  cbv zeta. split; [vm_compute; reflexivity|]. split; [vm_compute; reflexivity|].
  intros [H|H]; vm_compute in H; discriminate.
Qed.


(** The sum of an int64 price column wraps around: two claims of one
    prescriber and drug, each priced at the largest int64, have the
    rounded -2 as [total_price], whatever the rest of the arithmetic. *)
Lemma int64_total_price_wraps (arith : Arithmetic)
    (float_of_string : string -> option Q) :
  exists out,
    goal_2_metrics (arith := with_int64_prices arith) float_of_string
      claims_huge_prices no_reverts = inr out /\
    map (fun r => field r "total_price") (rows out) =
      [Num (round_total (- (2))%Q)].
Proof.
  eexists. split; vm_compute; reflexivity.
Qed.

(** The rounding of a float64 column works on the binary64 nearest to a
    price: 1.015 becomes the binary64 nearest to 1.01 and 0.545 the one
    nearest to 0.55, where rounding the decimals half to even gives 1.02
    and 0.54. *)
Lemma binary64_rounding_of_prices :
  (exists out,
      goal_2_metrics (arith := with_binary64_rounding decimal) decimal_of_string
        claims_half_cents no_reverts = inr out /\
      map (fun r => field r "total_price") (rows out) =
        [Num (Q_of_binary64 (binary64_of_Q (101 # 100)));
         Num (Q_of_binary64 (binary64_of_Q (55 # 100)))]) /\
  (exists out,
      goal_2_metrics (arith := decimal) decimal_of_string
        claims_half_cents no_reverts = inr out /\
      map (fun r => field r "total_price") (rows out) =
        [Num (102 # 100); Num (54 # 100)]).
Proof.
  split; eexists; split; vm_compute; reflexivity.
Qed.

(** ** The properties on the scenario of the specification *)

Lemma scen_run_eq :
  main (arith := decimal) decimal_of_string [scen_pharmacy] [scen_claims] [scen_reverts] initial_world =
  (fst scen_run, snd scen_run).
Proof. vm_compute. reflexivity. Defined.

Lemma main_outputs_in_order_witness :
  main (arith := decimal) decimal_of_string
    [scen_pharmacy] [scen_claims] [scen_reverts] initial_world =
    (fst scen_run, snd scen_run) /\
  (output_names (snd scen_run) = [] \/ output_names (snd scen_run) = goal_files) /\
  (exists n, output_names (snd scen_run) = firstn n goal_files) /\
  exists g2 g3 g4,
    goal_2_metrics (arith := decimal) decimal_of_string scen_claims scen_reverts =
      inr g2 /\
    goal_3_recommendations (arith := decimal) decimal_of_string
      scen_claims scen_pharmacy scen_reverts = inr g3 /\
    goal_4_quantities decimal_of_string scen_claims = inr g4 /\
    fst scen_run = inr tt /\
    written (snd scen_run) =
      [("goal_2_metrics.json", Records g2);
       ("goal_3_recommendations.json", Recommendations g3);
       ("goal_4_common_quantities.json", Quantities g4)].
Proof.
  split; [exact scen_run_eq|].
  destruct (main_outputs_in_order (arith := decimal) decimal_of_string
              [scen_pharmacy] [scen_claims] [scen_reverts]
              (fst scen_run) (snd scen_run) scen_run_eq) as [_ [H1 [H2 H3]]].
  split; [apply H1; reflexivity|]. split; [exact H2|].
  specialize (H3 scen_pharmacy scen_claims eq_refl eq_refl eq_refl eq_refl).
  change (load_data_from_dirs [scen_reverts]) with scen_reverts in H3.
  destruct (goal_2_metrics (arith := decimal) decimal_of_string scen_claims scen_reverts)
    as [e|g2] eqn:Hg2; [vm_compute in Hg2; discriminate|].
  destruct (goal_3_recommendations (arith := decimal) decimal_of_string
              scen_claims scen_pharmacy scen_reverts)
    as [e|g3] eqn:Hg3; [vm_compute in Hg3; discriminate|].
  destruct (goal_4_quantities decimal_of_string scen_claims)
    as [e|g4] eqn:Hg4; [vm_compute in Hg4; discriminate|].
  exists g2, g3, g4. destruct H3 as [Hres Hw]. auto.
Defined.

Lemma goal_4_counts_reverted_claims_witness :
  In ("goal_4_common_quantities.json", Quantities [(Str "D1", [Num 10])])
     (written (snd scen_run)) /\
  is_reverted scen_reverts
    [("id", Str "c1"); ("npi", Str "1"); ("ndc", Str "D1");
     ("price", Num 100); ("quantity", Num 10)] = true /\
  exists tally t,
    goal_4_quantity_counts
      (mkDataFrame ["id"; "npi"; "ndc"; "price"; "quantity"]
         [ [("id", Str "c1"); ("npi", Str "1"); ("ndc", Str "D1");
            ("price", Num 100); ("quantity", Num 10)];
           [("id", Str "c2"); ("npi", Str "2"); ("ndc", Str "D1");
            ("price", Str "50"); ("quantity", Num 10)] ]) = inr tally /\
    In t (rows tally) /\ field t "count" = count_cell 2.
Proof.
  assert (Hin : In ("goal_4_common_quantities.json", Quantities [(Str "D1", [Num 10])])
                  (written (snd scen_run))).
  { right. right. left. reflexivity. }
  split; [exact Hin|]. split; [reflexivity|].
  destruct (goal_4_counts_reverted_claims (arith := decimal) decimal_of_string
              [scen_pharmacy] [scen_claims] [scen_reverts]
              (fst scen_run) (snd scen_run) _ scen_run_eq Hin)
    as [claims [coerced [tally [Hk [Hc [Ht [_ Hcount]]]]]]].
  vm_compute in Hk. injection Hk as <-.
  vm_compute in Hc. injection Hc as <-.
  destruct (Hcount
              [("id", Str "c1"); ("npi", Str "1"); ("ndc", Str "D1");
               ("price", Num 100); ("quantity", Num 10)] 10%Q
              (or_introl eq_refl) eq_refl eq_refl true eq_refl)
    as [t [Hin' [_ [_ [Hcnt _]]]]].
  exists tally, t. split; [exact Ht|]. split; [exact Hin'|].
  rewrite Hcnt. vm_compute. reflexivity.
Defined.


Lemma goal_3_top_chains_witness :
  In ("goal_3_recommendations.json",
      Recommendations [(Str "D1", [[("name", Str "B"); ("avg_price", Num (500 # 100))]])])
     (written (snd scen_run)) /\
  forall ndc chains,
    In (ndc, chains) [(Str "D1", [[("name", Str "B"); ("avg_price", Num (500 # 100))]])] ->
    List.length chains <= 2 /\ chains <> [] /\ StronglySorted price_le chains.
Proof.
  assert (Hin : In ("goal_3_recommendations.json",
                    Recommendations
                      [(Str "D1", [[("name", Str "B"); ("avg_price", Num (500 # 100))]])])
                  (written (snd scen_run))).
  { right. left. reflexivity. }
  split; [exact Hin|].
  destruct goal_3_top_chains as [Hrecords _].
  destruct (Hrecords decimal decimal_of_string
              [scen_pharmacy] [scen_claims] [scen_reverts]
              (fst scen_run) (snd scen_run) _ scen_run_eq Hin)
    as [pharmacy [claims [valid [avg [_ [_ [_ [_ Hrec]]]]]]]].
  intros ndc chains Hc.
  destruct (Hrec ndc chains Hc) as [H1 [H2 [H3 _]]]. auto.
Defined.

Lemma reverted_at_most_fills_witness :
  exists out,
    goal_2_metrics (arith := decimal) decimal_of_string scen_claims scen_reverts = inr out /\
    forall r, In r (rows out) ->
      field r "fills" =
        count_cell (count_ids (fills_of scen_claims (field r "npi") (field r "ndc"))) /\
      field r "reverted" =
        count_cell
          (count_ids
             (reverted_of scen_claims scen_reverts (field r "npi") (field r "ndc"))) /\
      count_ids (reverted_of scen_claims scen_reverts (field r "npi") (field r "ndc")) <=
      count_ids (fills_of scen_claims (field r "npi") (field r "ndc")).
Proof.
  destruct (goal_2_metrics (arith := decimal) decimal_of_string scen_claims scen_reverts)
    as [e|out] eqn:H; [vm_compute in H; discriminate|].
  exists out. split; [reflexivity|].
  exact (reverted_at_most_fills (arith := decimal) decimal_of_string
           scen_claims scen_reverts out H).
Defined.


Lemma goal_4_quantities_ranked_witness :
  fst (calculate_goal_4_common_quantities decimal_of_string 0
         (mkWorld [claims_odd_quantities] false [])) =
    inr [(Str "D1", [Num 0; Num 10])] /\
  forall ndc qs,
    In (ndc, qs) [(Str "D1", [Num 0; Num 10])] ->
    List.length qs <= 5 /\
    StronglySorted
      (fun q1 q2 =>
         frequency decimal_of_string claims_odd_quantities ndc q2 <=
         frequency decimal_of_string claims_odd_quantities ndc q1)
      qs.
Proof.
  split; [vm_compute; reflexivity|].
  apply (goal_4_quantities_ranked decimal_of_string 0
           (mkWorld [claims_odd_quantities] false [])
           (snd (calculate_goal_4_common_quantities decimal_of_string 0
                   (mkWorld [claims_odd_quantities] false [])))).
  vm_compute. reflexivity.
Defined.

(** * Further properties of the program *)

(** ** Distinct keys *)

Section DistinctFacts.
Context {A : Type} (eqb : A -> A -> bool).

Hypothesis eqb_refl : forall x, eqb x x = true.
Hypothesis eqb_sym : forall x y, eqb x y = eqb y x.

Lemma unique_distinct (l : list A) : distinct_by eqb (unique eqb l).
Proof.
  induction l as [|x l [IHn IHe]]; cbn [unique].
  - split; [constructor|]. intros ? ? [].
  - split.
    + constructor; [|now apply NoDup_filter].
      intros H. apply filter_In in H as [_ H]. now rewrite eqb_refl in H.
    + intros y z [<-|Hy] [<-|Hz] Hyz; auto.
      * apply filter_In in Hz as [_ Hz]. rewrite Hyz in Hz. discriminate.
      * apply filter_In in Hy as [_ Hy]. rewrite eqb_sym, Hyz in Hy. discriminate.
      * apply filter_In in Hy as [Hy _]. apply filter_In in Hz as [Hz _]. auto.
Qed.

Lemma distinct_by_perm (l l' : list A) :
  Permutation l l' -> distinct_by eqb l -> distinct_by eqb l'.
Proof.
  intros Hp [Hn He]. split.
  - eapply Permutation_NoDup; eauto.
  - intros x y Hx Hy.
    apply He; apply (Permutation_in _ (Permutation_sym Hp)); assumption.
Qed.

Lemma distinct_by_filter (p : A -> bool) (l : list A) :
  distinct_by eqb l -> distinct_by eqb (filter p l).
Proof.
  intros [Hn He]. split; [now apply NoDup_filter|].
  intros x y Hx Hy. apply filter_In in Hx as [Hx _]. apply filter_In in Hy as [Hy _].
  auto.
Qed.

Lemma distinct_by_firstn (n : nat) (l : list A) :
  distinct_by eqb l -> distinct_by eqb (firstn n l).
Proof.
  intros [Hn He]. rewrite <- (firstn_skipn n l) in Hn. split.
  - eapply NoDup_app_remove_r; eauto.
  - intros x y Hx Hy. apply He; rewrite <- (firstn_skipn n l); apply in_or_app; auto.
Qed.

(** At most one element of a list of distinct elements passes a test
    that only equal elements pass together. *)
Lemma distinct_filter_le_1 (p : A -> bool) (l : list A) :
  distinct_by eqb l ->
  (forall x y, In x l -> In y l -> p x = true -> p y = true -> eqb x y = true) ->
  List.length (filter p l) <= 1.
Proof.
  intros [Hn He] Hp. induction l as [|x l IH]; cbn [filter]; [auto|].
  inversion Hn as [|? ? Hx Hn']; subst.
  assert (IH' : List.length (filter p l) <= 1).
  { apply IH; auto.
    - intros y z Hy Hz. apply He; now right.
    - intros y z Hy Hz. apply Hp; now right. }
  destruct (p x) eqn:Hpx; [|exact IH'].
  destruct (filter p l) as [|y l'] eqn:Hf; [auto|].
  exfalso. assert (Hy : In y (filter p l)) by (rewrite Hf; now left).
  apply filter_In in Hy as [Hy Hpy]. apply Hx.
  rewrite (He x y); auto; [now left|now right|].
  apply Hp; auto; [now left|now right].
Qed.
End DistinctFacts.

Lemma distinct_by_map {A B} (eqb : B -> B -> bool) (f : A -> B) (l : list A) :
  (forall x, eqb x x = true) ->
  NoDup l ->
  (forall x y, In x l -> In y l -> eqb (f x) (f y) = true -> x = y) ->
  distinct_by eqb (map f l).
Proof.
  intros Hrefl Hn Hinj. split.
  - induction Hn as [|x l Hx Hn IH]; cbn [map]; constructor.
    + intros H. apply in_map_iff in H as [y [Hy Hin]]. apply Hx.
      rewrite (Hinj x y); auto; [now left|now right|].
      rewrite Hy. apply Hrefl.
    + apply IH. intros y z Hy Hz. apply Hinj; now right.
  - intros x y Hx Hy He.
    apply in_map_iff in Hx as [x0 [<- Hx0]]. apply in_map_iff in Hy as [y0 [<- Hy0]].
    f_equal. auto.
Qed.

Lemma groups_keys (by_ : list string) (rs : list row) :
  distinct_by key_eqb (map fst (groups by_ rs)).
Proof.
  unfold groups. rewrite map_map. cbn [fst]. rewrite map_id.
  eapply distinct_by_perm; [apply sort_by_perm|].
  apply unique_distinct; [apply key_eqb_refl|apply key_eqb_sym].
Qed.

(** Two groups with equal keys are the same group. *)
Lemma groups_same_key (by_ : list string) (rs : list row) (g1 g2 : key * list row) :
  In g1 (groups by_ rs) -> In g2 (groups by_ rs) ->
  key_eqb (fst g1) (fst g2) = true -> g1 = g2.
Proof.
  intros H1 H2 He.
  destruct (groups_keys by_ rs) as [_ Hd].
  assert (Hk : fst g1 = fst g2) by (apply Hd; auto using in_map).
  destruct g1 as [k1 r1], g2 as [k2 r2]. cbn [fst] in Hk. subst k2.
  apply groups_in in H1 as [-> _]. apply groups_in in H2 as [-> _]. reflexivity.
Qed.

Lemma groups_nodup (by_ : list string) (rs : list row) : NoDup (groups by_ rs).
Proof.
  apply (NoDup_map_inv fst). apply groups_keys.
Qed.

(** The rows of a grouped frame are distinct up to their key. *)
Lemma grouped_rows_distinct (by_ : list string) (rs : list row)
    (F : key * list row -> row) :
  (forall g, In g (groups by_ rs) -> key_of by_ (F g) = fst g) ->
  distinct_by (fun t1 t2 => key_eqb (key_of by_ t1) (key_of by_ t2))
    (map F (groups by_ rs)).
Proof.
  intros HF. apply distinct_by_map.
  - intros x. apply key_eqb_refl.
  - apply groups_nodup.
  - intros g1 g2 H1 H2. rewrite (HF g1 H1), (HF g2 H2).
    intros He. now apply (groups_same_key by_ rs).
Qed.

Lemma StronglySorted_split {A} (R : A -> A -> Prop) (n : nat) (l : list A) :
  StronglySorted R l ->
  forall x y, In x (firstn n l) -> In y (skipn n l) -> R x y.
Proof.
  intros H. revert n. induction H as [|a l Hs IH Ha]; intros n x y Hx Hy.
  - rewrite firstn_nil in Hx. contradiction.
  - destruct n as [|n]; [contradiction|]. cbn [firstn skipn] in Hx, Hy.
    destruct Hx as [<-|Hx]; [|eauto].
    rewrite Forall_forall in Ha. apply Ha.
    rewrite <- (firstn_skipn n l). apply in_or_app. now right.
Qed.

(** ** Goal 4: what the ranking keeps *)

Lemma cell_eqb_congr_l (a a' b : cell) :
  cell_eqb a a' = true -> cell_eqb a b = cell_eqb a' b.
Proof.
  intros H. destruct (cell_eqb a b) eqn:H1, (cell_eqb a' b) eqn:H2; auto.
  - rewrite cell_eqb_sym in H. rewrite (cell_eqb_trans _ _ _ H H1) in H2. discriminate.
  - rewrite (cell_eqb_trans _ _ _ H H2) in H1. discriminate.
Qed.

Lemma cell_eqb_congr_r (a b b' : cell) :
  cell_eqb b b' = true -> cell_eqb a b = cell_eqb a b'.
Proof.
  intros H. rewrite (cell_eqb_sym a b), (cell_eqb_sym a b').
  now apply cell_eqb_congr_l.
Qed.

Lemma quantity_counts_distinct (df tally : DataFrame) :
  goal_4_quantity_counts df = inr tally ->
  distinct_by
    (fun t1 t2 => key_eqb (key_of ["ndc"; "quantity"] t1) (key_of ["ndc"; "quantity"] t2))
    (rows tally).
Proof.
  intros H. apply quantity_counts_rows in H as [_ ->].
  apply grouped_rows_distinct. intros [k g] Hg.
  apply groups_in in Hg as [_ [_ [r [_ ->]]]]. reflexivity.
Qed.

Section Goal4More.

Context {arith : Arithmetic}.
Variable float_of_string : string -> option Q.

Lemma frequency_congr (claims_df : DataFrame) (a a' b b' : cell) :
  cell_eqb a a' = true -> cell_eqb b b' = true ->
  frequency float_of_string claims_df a b = frequency float_of_string claims_df a' b'.
Proof.
  intros Ha Hb. unfold frequency. f_equal. apply filter_ext. intros r.
  now rewrite (cell_eqb_congr_r _ _ _ Ha), (cell_eqb_congr_r _ _ _ Hb).
Qed.

(** A successful call of Goal 4, stage by stage. *)
Lemma calculate_goal_4_inv (claims_df : ref) (w w' : World)
    (out : list (cell * list cell)) :
  calculate_goal_4_common_quantities float_of_string claims_df w = (inr out, w') ->
  exists coerced tally sorted,
    goal_4_coerced float_of_string (nth claims_df (heap w) DataFrame_empty) =
      inr coerced /\
    goal_4_quantity_counts coerced = inr tally /\
    Permutation (rows tally) sorted /\
    StronglySorted
      (fun t1 t2 => desc_leb (field t1 "count") (field t2 "count") = true) sorted /\
    out = map (fun g => (hd NaN (fst g), map (fun r => field r "quantity") (snd g)))
            (groups ["ndc"] (head_rows ["ndc"] 5 [] sorted)) /\
    w' = mkWorld (update (heap w) claims_df coerced) (made_dir w) (written w).
Proof.
  rewrite calculate_goal_4_run.
  destruct (goal_4_coerced float_of_string _) as [e|coerced] eqn:Hc; [discriminate|].
  intros [= Hrank Hw].
  apply goal_4_ranking_inv in Hrank as [tally [sorted [Ht [Hp [Hs Ho]]]]].
  exists coerced, tally, sorted. subst w'. repeat split; auto.
Qed.

(** X7: a quantity that a record of Goal 4 leaves out is no more frequent
    than any quantity the record lists, and is left out only when the
    record lists five. *)
Theorem goal_4_keeps_most_frequent
    (claims_df : ref) (w w' : World) (out : list (cell * list cell)) :
  calculate_goal_4_common_quantities float_of_string claims_df w = (inr out, w') ->
  forall ndc qs, In (ndc, qs) out ->
  forall c q',
    In c (rows (nth claims_df (heap w) DataFrame_empty)) ->
    cell_eqb (field c "ndc") ndc = true ->
    coerce float_of_string (field c "quantity") = Num q' ->
    (exists q, In q qs /\ cell_eqb q (Num q') = true) \/
    (List.length qs = 5 /\
     forall q, In q qs ->
       frequency float_of_string (nth claims_df (heap w) DataFrame_empty) ndc (Num q') <=
       frequency float_of_string (nth claims_df (heap w) DataFrame_empty) ndc q).
Proof.
  intros Hcall ndc qs Hin c q' Hc Hndc Hq.
  set (claims := nth claims_df (heap w) DataFrame_empty) in *.
  destruct (calculate_goal_4_inv _ _ _ _ Hcall)
    as [coerced [tally [sorted [Hco [Ht [Hperm [Hsorted [-> _]]]]]]]].
  apply per_drug_record in Hin as [Hna [_ ->]].
  set (L := filter (fun r => cell_eqb (field r "ndc") ndc) sorted).
  assert (Hcna : isna (field c "ndc") = false)
    by now rewrite (cell_eqb_isna _ _ Hndc).
  destruct (tally_counts_claim float_of_string claims coerced tally c q' Hco Ht Hc Hcna Hq)
    as [t [Htin [Htn [Htq _]]]].
  assert (HtL : In t L).
  { apply filter_In. split; [now apply (Permutation_in _ Hperm)|].
    eauto using cell_eqb_trans. }
  assert (Hcount : forall x, In x L ->
            field x "count" =
            count_cell (frequency float_of_string claims ndc (field x "quantity"))).
  { intros x Hx. apply filter_In in Hx as [Hx Hxn].
    apply (Permutation_in _ (Permutation_sym Hperm)) in Hx.
    now apply (tally_row_count float_of_string claims coerced tally x ndc Hco Ht Hx). }
  rewrite <- (firstn_skipn 5 L) in HtL. apply in_app_or in HtL as [Hfirst|Hrest].
  - left. exists (field t "quantity"). split; [|exact Htq].
    apply in_map_iff. eauto.
  - right.
    assert (Hlen : 5 <= List.length L).
    { destruct (Nat.le_gt_cases 5 (List.length L)) as [H|H]; [exact H|].
      rewrite skipn_all2 in Hrest by lia. contradiction. }
    split; [rewrite length_map; now apply firstn_length_le|].
    intros q Hqin. apply in_map_iff in Hqin as [x [<- Hx]].
    assert (HxL : In x L).
    { rewrite <- (firstn_skipn 5 L). apply in_or_app. now left. }
    assert (Hsort : StronglySorted
              (fun t1 t2 => desc_leb (field t1 "count") (field t2 "count") = true) L)
      by now apply StronglySorted_filter.
    pose proof (StronglySorted_split _ 5 L Hsort x t Hx Hrest) as Hxt.
    assert (HtL : In t L).
    { rewrite <- (firstn_skipn 5 L). apply in_or_app. now right. }
    cbv beta in Hxt. rewrite (Hcount x HxL), (Hcount t HtL) in Hxt.
    apply count_cell_desc in Hxt.
    rewrite (frequency_congr claims ndc ndc (Num q') (field t "quantity")); auto.
    + apply cell_eqb_refl.
    + now rewrite cell_eqb_sym.
Qed.

(** X8: the quantities of a record of Goal 4 are pairwise different. *)
Theorem goal_4_quantities_distinct
    (claims_df : ref) (w w' : World) (out : list (cell * list cell)) :
  calculate_goal_4_common_quantities float_of_string claims_df w = (inr out, w') ->
  forall ndc qs, In (ndc, qs) out -> distinct_by cell_eqb qs.
Proof.
  intros Hcall ndc qs Hin.
  destruct (calculate_goal_4_inv _ _ _ _ Hcall)
    as [coerced [tally [sorted [Hco [Ht [Hperm [Hsorted [-> _]]]]]]]].
  apply per_drug_record in Hin as [Hna [_ ->]].
  pose proof (quantity_counts_distinct _ _ Ht) as Hd.
  apply (distinct_by_perm _ _ _ Hperm) in Hd.
  apply (distinct_by_filter _ (fun r => cell_eqb (field r "ndc") ndc)) in Hd.
  apply (distinct_by_firstn _ 5) in Hd.
  destruct Hd as [Hn Hd].
  apply distinct_by_map; [apply cell_eqb_refl|exact Hn|].
  intros x y Hx Hy Hq. apply Hd; auto.
  assert (Hxn : cell_eqb (field x "ndc") ndc = true).
  { assert (H : In x (filter (fun r => cell_eqb (field r "ndc") ndc) sorted)).
    { rewrite <- (firstn_skipn 5). apply in_or_app. now left. }
    now apply filter_In in H. }
  assert (Hyn : cell_eqb (field y "ndc") ndc = true).
  { assert (H : In y (filter (fun r => cell_eqb (field r "ndc") ndc) sorted)).
    { rewrite <- (firstn_skipn 5). apply in_or_app. now left. }
    now apply filter_In in H. }
  unfold key_eqb. cbn [key_of map forallb2]. rewrite Hq. cbn [andb].
  rewrite andb_true_r.
  rewrite cell_eqb_sym in Hyn. eauto using cell_eqb_trans.
Qed.

End Goal4More.

(** ** Per-drug outputs: one record for each drug *)

Lemma per_drug_distinct {A} (top : list row) (f : list row -> A) :
  distinct_by cell_eqb
    (map fst (map (fun g => (hd NaN (fst g), f (snd g))) (groups ["ndc"] top))).
Proof.
  rewrite map_map. cbn [fst].
  apply distinct_by_map; [apply cell_eqb_refl|apply groups_nodup|].
  intros g1 g2 H1 H2 He. apply (groups_same_key ["ndc"] top); auto.
  destruct g1 as [k1 r1], g2 as [k2 r2].
  apply groups_in in H1 as [_ [_ [x1 [_ ->]]]].
  apply groups_in in H2 as [_ [_ [x2 [_ ->]]]].
  cbn in He |- *. unfold key_eqb. cbn [forallb2]. now rewrite He.
Qed.

(** A drug that has a row in the ranked frame has a record. *)
Lemma per_drug_covers {A} (n : nat) (rs : list row) (f : list row -> A) (t : row) :
  0 < n -> In t rs -> isna (field t "ndc") = false ->
  exists ndc a,
    In (ndc, a)
       (map (fun g => (hd NaN (fst g), f (snd g)))
          (groups ["ndc"] (head_rows ["ndc"] n [] rs))) /\
    cell_eqb ndc (field t "ndc") = true.
Proof.
  intros Hn Ht Hna.
  assert (Hk : key_isna (key_of ["ndc"] t) = false).
  { unfold key_isna. cbn. now rewrite Hna. }
  pose proof (head_rows_group ["ndc"] n (key_of ["ndc"] t) rs Hk) as Hhead.
  assert (Hin : In t (filter (fun r => key_eqb (key_of ["ndc"] r) (key_of ["ndc"] t)) rs)).
  { apply filter_In. split; [exact Ht|apply key_eqb_refl]. }
  destruct (filter _ rs) as [|x l] eqn:Hf; [contradiction|].
  destruct n as [|n]; [lia|]. cbn [firstn] in Hhead.
  assert (Hx : In x (filter (fun r => key_eqb (key_of ["ndc"] r) (key_of ["ndc"] t))
                       (head_rows ["ndc"] (S n) [] rs)))
    by (rewrite Hhead; now left).
  apply filter_In in Hx as [Hx Hxt].
  destruct (groups_covers ["ndc"] (head_rows ["ndc"] (S n) [] rs) x Hx) as [k [Hg Hkx]].
  { now rewrite (key_eqb_isna _ _ Hxt). }
  pose proof (groups_in _ _ _ _ Hg) as [_ [_ [y [_ Hky]]]].
  eexists. eexists. split.
  - apply in_map_iff. eexists. split; [reflexivity|exact Hg].
  - cbn [fst]. subst k. pose proof (key_eqb_trans _ _ _ Hkx Hxt) as H.
    unfold key_eqb in H. cbn in H |- *. now rewrite andb_true_r in H.
Qed.

Section Goal4Records.

Context {arith : Arithmetic}.
Variable float_of_string : string -> option Q.

(** X9: Goal 4 returns one record for each drug that has a claim with a
    quantity that coerces to a number: no drug twice, no drug left out,
    and no record for another drug. *)
Theorem goal_4_one_record_per_drug
    (claims_df : ref) (w w' : World) (out : list (cell * list cell)) :
  calculate_goal_4_common_quantities float_of_string claims_df w = (inr out, w') ->
  distinct_by cell_eqb (map fst out) /\
  (forall c q,
      In c (rows (nth claims_df (heap w) DataFrame_empty)) ->
      isna (field c "ndc") = false ->
      coerce float_of_string (field c "quantity") = Num q ->
      exists ndc qs, In (ndc, qs) out /\ cell_eqb ndc (field c "ndc") = true) /\
  (forall ndc qs,
      In (ndc, qs) out ->
      exists c q,
        In c (rows (nth claims_df (heap w) DataFrame_empty)) /\
        cell_eqb (field c "ndc") ndc = true /\
        coerce float_of_string (field c "quantity") = Num q /\
        In (Num q) qs).
Proof.
  intros Hcall.
  destruct (calculate_goal_4_inv _ _ _ _ _ Hcall)
    as [coerced [tally [sorted [Hco [Ht [Hperm [Hsorted [-> _]]]]]]]].
  split; [apply per_drug_distinct|]. split.
  - intros c q Hc Hna Hq.
    destruct (tally_counts_claim float_of_string _ coerced tally c q Hco Ht Hc Hna Hq)
      as [t [Htin [Htn _]]].
    apply (Permutation_in _ Hperm) in Htin.
    assert (Htna : isna (field t "ndc") = false)
      by now rewrite (cell_eqb_isna _ _ Htn).
    destruct (per_drug_covers 5 sorted (map (fun r => field r "quantity")) t
                ltac:(lia) Htin Htna) as [ndc [qs [Hin He]]].
    exists ndc, qs. split; [exact Hin|]. eauto using cell_eqb_trans.
  - intros ndc qs Hin.
    apply per_drug_record in Hin as [Hna [[t [Htin Htn]] ->]].
    assert (HtL : In t (filter (fun r => cell_eqb (field r "ndc") ndc) sorted)).
    { apply filter_In. split; auto. rewrite Htn. apply cell_eqb_refl. }
    destruct (filter _ sorted) as [|x L] eqn:HL; [contradiction|].
    cbn [firstn map].
    assert (Hx : In x (filter (fun r => cell_eqb (field r "ndc") ndc) sorted))
      by (rewrite HL; now left).
    apply filter_In in Hx as [Hx Hxn].
    apply (Permutation_in _ (Permutation_sym Hperm)) in Hx.
    destruct (quantity_counts_row _ _ _ Ht Hx) as [r [Hr [Hrn [Hrq Hxeq]]]].
    destruct (goal_4_coerced_rows float_of_string _ _ Hco) as [_ Hrows].
    rewrite Hrows in Hr. apply filter_In in Hr as [Hr _].
    apply in_map_iff in Hr as [c [<- Hc]].
    unfold coerce_field in Hrq, Hxeq.
    rewrite field_with_field_same in Hrq, Hxeq.
    rewrite field_with_field_other in Hxeq by reflexivity.
    destruct (coerce float_of_string (field c "quantity")) as [|s|q] eqn:Hq;
      [discriminate| |].
    { exfalso. now apply coerce_not_text in Hq. }
    exists c, q. split; [exact Hc|].
    subst x. cbn in Hxn |- *. auto.
Qed.

End Goal4Records.

(** ** Goal 4: missing labels and repeated calls *)

Lemma with_field_twice (r : row) (c : string) (v v' : cell) :
  with_field (with_field r c v) c v' = with_field r c v'.
Proof.
  induction r as [|[k x] r IH]; cbn [with_field].
  - now rewrite String.eqb_refl.
  - destruct (String.eqb k c) eqn:Hk; cbn [with_field]; rewrite Hk; [reflexivity|].
    now rewrite IH.
Qed.

Lemma goal_4_ranking_ok (cols : list string) (rs : list row) :
  mem "ndc" cols = true -> mem "quantity" cols = true ->
  exists out, goal_4_ranking (mkDataFrame cols rs) = inr out.
Proof.
  intros Hn Hq. unfold goal_4_ranking, goal_4_quantity_counts, groupby_size, groupby.
  unfold missing_labels. cbn [filter]. rewrite !has_column_mk, Hn, Hq.
  cbn [negb bindE retE app].
  unfold sort_values.
  change (has_column (mkDataFrame ["ndc"; "quantity"; "count"] ?x) "count") with true.
  cbn [bindE retE]. unfold groupby_head, missing_labels. cbn [filter columns].
  change (has_column (mkDataFrame ["ndc"; "quantity"; "count"] ?x) "ndc") with true.
  cbn [negb bindE retE]. unfold groupby_column_apply, groupby, missing_labels.
  cbn [filter columns].
  change (has_column (mkDataFrame ["ndc"; "quantity"; "count"] ?x) "ndc") with true.
  cbn [negb bindE retE]. eauto.
Qed.

Lemma goal_4_ranking_no_ndc (cols : list string) (rs : list row) :
  mem "ndc" cols = false ->
  goal_4_ranking (mkDataFrame cols rs) = inl (KeyError "ndc").
Proof.
  intros Hn. unfold goal_4_ranking, goal_4_quantity_counts, groupby_size, groupby.
  unfold missing_labels. cbn [filter]. rewrite !has_column_mk, Hn. reflexivity.
Qed.

Section Goal4Calls.

Context {arith : Arithmetic}.
Variable float_of_string : string -> option Q.

Lemma coerce_twice (c : cell) :
  coerce float_of_string (coerce float_of_string c) = coerce float_of_string c.
Proof.
  destruct c as [|s|q]; cbn; auto. destruct (float_of_string s); reflexivity.
Qed.

Lemma goal_4_coerced_twice (claims_df coerced : DataFrame) :
  goal_4_coerced float_of_string claims_df = inr coerced ->
  goal_4_coerced float_of_string coerced = inr coerced.
Proof.
  destruct claims_df as [cols rs]. rewrite goal_4_coerced_spec.
  destruct (mem "quantity" cols) eqn:Hq; [|discriminate].
  intros [= <-]. rewrite goal_4_coerced_spec, Hq. do 2 f_equal.
  set (L := filter _ (map _ rs)).
  assert (HL : forall x, In x L ->
             coerce_field float_of_string "quantity" x = x /\
             negb (isna (field x "quantity")) = true).
  { intros x Hx. apply filter_In in Hx as [Hx Hp]. split; [|exact Hp].
    apply in_map_iff in Hx as [r [<- _]]. unfold coerce_field.
    now rewrite field_with_field_same, with_field_twice, coerce_twice. }
  clearbody L. induction L as [|x L IH]; [reflexivity|].
  cbn [map filter]. destruct (HL x (or_introl eq_refl)) as [-> ->].
  f_equal. apply IH. intros y Hy. apply HL. now right.
Qed.

(** X10: a missing [quantity] label makes Goal 4 raise before it touches
    the frame; a missing [ndc] label makes it raise after the frame
    has been updated in place; with both labels it returns. *)
Theorem goal_4_missing_labels (claims_df : ref) (w : World) :
  let df := nth claims_df (heap w) DataFrame_empty in
  match calculate_goal_4_common_quantities float_of_string claims_df w with
  | (inl e, w') =>
      (has_column df "quantity" = false /\ e = KeyError "quantity" /\ w' = w) \/
      (has_column df "quantity" = true /\ has_column df "ndc" = false /\
       e = KeyError "ndc" /\
       exists coerced,
         goal_4_coerced float_of_string df = inr coerced /\
         w' = mkWorld (update (heap w) claims_df coerced) (made_dir w) (written w))
  | (inr _, _) => has_column df "quantity" = true /\ has_column df "ndc" = true
  end.
Proof.
  cbv zeta. rewrite calculate_goal_4_run.
  destruct (nth claims_df (heap w) DataFrame_empty) as [cols rs].
  rewrite goal_4_coerced_spec, !has_column_mk.
  destruct (mem "quantity" cols) eqn:Hq; [|left; auto].
  destruct (mem "ndc" cols) eqn:Hn.
  - destruct (goal_4_ranking_ok cols
                (filter (fun r => negb (isna (field r "quantity")))
                   (map (coerce_field float_of_string "quantity") rs)) Hn Hq)
      as [out ->]. auto.
  - rewrite goal_4_ranking_no_ndc by assumption. right. repeat split; eauto.
Qed.

(** X11: a second call of Goal 4 on the same frame object changes nothing
    more and returns the same records. *)
Theorem goal_4_second_call
    (claims_df : ref) (w w' : World) (out : list (cell * list cell)) :
  calculate_goal_4_common_quantities float_of_string claims_df w = (inr out, w') ->
  calculate_goal_4_common_quantities float_of_string claims_df w' = (inr out, w').
Proof.
  rewrite !calculate_goal_4_run.
  destruct (goal_4_coerced float_of_string (nth claims_df (heap w) DataFrame_empty))
    as [e|coerced] eqn:Hc; [discriminate|].
  intros [= Hrank <-]. cbn [heap made_dir written].
  assert (Hlt : Nat.ltb claims_df (List.length (heap w)) = true).
  { destruct (Nat.ltb claims_df (List.length (heap w))) eqn:Hlt; [reflexivity|].
    apply Nat.ltb_ge in Hlt. rewrite nth_overflow in Hc by assumption.
    discriminate. }
  rewrite nth_update, Hlt, (goal_4_coerced_twice _ _ Hc), Hrank, update_update.
  reflexivity.
Qed.

End Goal4Calls.

(** ** Goal 3: what the recommendation keeps *)

Section Goal3More.

Context {arith : Arithmetic}.
Variable float_of_string : string -> option Q.

Lemma goal_3_recommendations_inv (claims_df pharmacy_df reverts_df : DataFrame)
    (out : list (cell * list row)) :
  goal_3_recommendations float_of_string claims_df pharmacy_df reverts_df = inr out ->
  exists avg sorted,
    goal_3_avg_chain_price float_of_string claims_df pharmacy_df reverts_df = inr avg /\
    Permutation (rows avg) sorted /\
    StronglySorted
      (fun r1 r2 => asc_leb (field r1 "avg_price") (field r2 "avg_price") = true)
      sorted /\
    out = map (fun g => (hd NaN (fst g), format_chains (snd g)))
            (groups ["ndc"] (head_rows ["ndc"] 2 [] sorted)).
Proof.
  unfold goal_3_recommendations.
  destruct (goal_3_avg_chain_price _ _ _ _) as [e|avg]; [discriminate|].
  cbn [bindE].
  destruct (sort_values avg "avg_price" true) as [e|sorted] eqn:Hs; [discriminate|].
  cbn [bindE]. apply sort_values_sorted in Hs as [_ [Hperm Hsorted]].
  destruct (groupby_head sorted ["ndc"] 2) as [e|top] eqn:Hh; [discriminate|].
  cbn [bindE]. apply groupby_head_inv in Hh. subst top.
  intros H. apply groupby_apply_inv in H. cbn [rows] in H.
  exists avg, (rows sorted). auto.
Qed.

(** The rows of [avg_chain_price_df] are distinct up to drug and chain. *)
Lemma avg_chain_price_distinct (claims_df pharmacy_df reverts_df avg : DataFrame) :
  goal_3_avg_chain_price float_of_string claims_df pharmacy_df reverts_df = inr avg ->
  distinct_by
    (fun t1 t2 => key_eqb (key_of ["ndc"; "chain"] t1) (key_of ["ndc"; "chain"] t2))
    (rows avg).
Proof.
  unfold goal_3_avg_chain_price.
  destruct (goal_3_valid_claims _ _ _) as [e|valid]; [discriminate|].
  cbn [bindE].
  destruct (merge valid pharmacy_df ["npi"] Inner) as [e|merged]; [discriminate|].
  cbn [bindE].
  destruct (groupby_agg merged _ _) as [e|avg0] eqn:Hagg; [discriminate|].
  cbn [bindE].
  apply groupby_agg_inv in Hagg as [_ [_ Havg0]].
  destruct avg0 as [cols0 rows0].
  assert (Hcols0 : cols0 = ["ndc"; "chain"; "avg_price"])
    by (injection Havg0 as Hc0 _; exact Hc0).
  assert (Hrows0 : rows0 =
            map (fun g : key * list row =>
                   combine ["ndc"; "chain"] (fst g) ++
                   [("avg_price",
                     aggregate (Mean mean) (map (fun r => field r "unit_price") (snd g)))])
              (groups ["ndc"; "chain"] (rows merged)))
    by (injection Havg0 as _ Hr0; exact Hr0).
  clear Havg0. subst cols0.
  rewrite getitem_mk.
  change (mem "avg_price" ["ndc"; "chain"; "avg_price"]) with true. cbn [bindE].
  unfold round_2. rewrite map_map.
  rewrite (setitem_mk ["ndc"; "chain"; "avg_price"] rows0 "avg_price"
             (fun r => round_cell round_avg (field r "avg_price"))).
  intros Havg.
  assert (Hravg : rows avg =
               map (fun r => with_field r "avg_price" (round_cell round_avg (field r "avg_price")))
                 rows0) by (now inversion Havg).
  rewrite Hravg, Hrows0, map_map.
  apply grouped_rows_distinct. intros [k g] Hg.
  apply groups_in in Hg as [_ [_ [r [_ ->]]]]. reflexivity.
Qed.

(** X5: a chain that a record of Goal 3 leaves out has an average price at
    least that of every chain the record lists, and is left out only
    when the record lists two. *)
Theorem goal_3_keeps_cheapest (claims_df pharmacy_df reverts_df : DataFrame)
    (out : list (cell * list row)) :
  goal_3_recommendations float_of_string claims_df pharmacy_df reverts_df = inr out ->
  exists avg,
    goal_3_avg_chain_price float_of_string claims_df pharmacy_df reverts_df = inr avg /\
    forall ndc chains, In (ndc, chains) out ->
    forall a, In a (rows avg) -> cell_eqb (field a "ndc") ndc = true ->
      In (chain_record a) chains \/
      (List.length chains = 2 /\
       forall c, In c chains -> price_le c (chain_record a)).
Proof.
  intros H.
  destruct (goal_3_recommendations_inv _ _ _ _ H)
    as [avg [sorted [Havg [Hperm [Hsorted ->]]]]].
  destruct (avg_chain_price_rows float_of_string _ _ _ _ Havg)
    as [valid [_ [_ [_ Hrows]]]].
  exists avg. split; [exact Havg|].
  intros ndc chains Hin a Ha Han.
  apply per_drug_record in Hin as [_ [_ ->]].
  set (L := filter (fun r => cell_eqb (field r "ndc") ndc) sorted).
  assert (HaL : In a L).
  { apply filter_In. split; [now apply (Permutation_in _ Hperm)|exact Han]. }
  unfold format_chains. fold chain_record.
  change (fun r : row => [("name", field r "chain"); ("avg_price", field r "avg_price")])
    with chain_record.
  rewrite <- (firstn_skipn 2 L) in HaL. apply in_app_or in HaL as [Hfirst|Hrest].
  - left. now apply in_map.
  - right.
    assert (Hlen : 2 <= List.length L).
    { destruct (Nat.le_gt_cases 2 (List.length L)) as [Hl|Hl]; [exact Hl|].
      rewrite skipn_all2 in Hrest by lia. contradiction. }
    split; [rewrite length_map; now apply firstn_length_le|].
    intros c Hc. apply in_map_iff in Hc as [x [<- Hx]].
    assert (Hsort : StronglySorted
              (fun r1 r2 => asc_leb (field r1 "avg_price") (field r2 "avg_price") = true)
              L) by now apply StronglySorted_filter.
    pose proof (StronglySorted_split _ 2 L Hsort x a Hx Hrest) as Hxa.
    cbv beta in Hxa.
    assert (HxL : In x L).
    { rewrite <- (firstn_skipn 2 L). apply in_or_app. now left. }
    apply filter_In in HxL as [HxL _].
    apply (Permutation_in _ (Permutation_sym Hperm)) in HxL.
    destruct (Hrows x HxL) as [vx [Hvx _]]. destruct (Hrows a Ha) as [va [Hva _]].
    exists (round_avg vx), (round_avg va).
    change (field (chain_record x) "avg_price") with (field x "avg_price").
    change (field (chain_record a) "avg_price") with (field a "avg_price").
    rewrite Hvx, Hva in *. repeat split. now apply Qle_bool_iff.
Qed.

(** X6: the chains of a record of Goal 3 are pairwise different, and
    Goal 3 returns one record for each drug that has a chain average. *)
Theorem goal_3_one_record_per_drug (claims_df pharmacy_df reverts_df : DataFrame)
    (out : list (cell * list row)) :
  goal_3_recommendations float_of_string claims_df pharmacy_df reverts_df = inr out ->
  exists avg,
    goal_3_avg_chain_price float_of_string claims_df pharmacy_df reverts_df = inr avg /\
    distinct_by cell_eqb (map fst out) /\
    (forall a, In a (rows avg) ->
       exists ndc chains, In (ndc, chains) out /\ cell_eqb ndc (field a "ndc") = true) /\
    (forall ndc chains, In (ndc, chains) out ->
       distinct_by (fun c1 c2 => cell_eqb (field c1 "name") (field c2 "name")) chains).
Proof.
  intros H.
  destruct (goal_3_recommendations_inv _ _ _ _ H)
    as [avg [sorted [Havg [Hperm [Hsorted ->]]]]].
  destruct (avg_chain_price_rows float_of_string _ _ _ _ Havg)
    as [valid [_ [_ [_ Hrows]]]].
  exists avg. split; [exact Havg|].
  split; [apply per_drug_distinct|]. split.
  - intros a Ha. destruct (Hrows a Ha) as [_ [_ [Hna _]]].
    apply (Permutation_in _ Hperm) in Ha.
    exact (per_drug_covers 2 sorted format_chains a ltac:(lia) Ha Hna).
  - intros ndc chains Hin. apply per_drug_record in Hin as [_ [_ ->]].
    pose proof (avg_chain_price_distinct _ _ _ _ Havg) as Hd.
    apply (distinct_by_perm _ _ _ Hperm) in Hd.
    apply (distinct_by_filter _ (fun r => cell_eqb (field r "ndc") ndc)) in Hd.
    apply (distinct_by_firstn _ 2) in Hd.
    destruct Hd as [Hn Hd]. unfold format_chains.
    apply distinct_by_map; [intros x; apply cell_eqb_refl|exact Hn|].
    intros x y Hx Hy Hq. apply Hd; auto.
    assert (Hxn : cell_eqb (field x "ndc") ndc = true).
    { assert (Hf : In x (filter (fun r => cell_eqb (field r "ndc") ndc) sorted)).
      { rewrite <- (firstn_skipn 2). apply in_or_app. now left. }
      now apply filter_In in Hf. }
    assert (Hyn : cell_eqb (field y "ndc") ndc = true).
    { assert (Hf : In y (filter (fun r => cell_eqb (field r "ndc") ndc) sorted)).
      { rewrite <- (firstn_skipn 2). apply in_or_app. now left. }
      now apply filter_In in Hf. }
    unfold key_eqb. cbn [key_of map forallb2].
    change (field [("name", field x "chain"); ("avg_price", field x "avg_price")] "name")
      with (field x "chain") in Hq.
    change (field [("name", field y "chain"); ("avg_price", field y "avg_price")] "name")
      with (field y "chain") in Hq.
    rewrite Hq. cbn [andb]. rewrite andb_true_r.
    rewrite cell_eqb_sym in Hyn. eauto using cell_eqb_trans.
Qed.

End Goal3More.

(** ** The claims of known pharmacies *)


(** ** The output directory *)

Ltac dir_case :=
  let H := fresh in
  intros H; inversion H; subst; cbn [made_dir written];
  split;
  [ split;
    [ let Hd := fresh in
      intros Hd; first [discriminate Hd | split; [reflexivity|eauto]]
    | let Hd := fresh in
      intros [Hd [? [Hd1 Hd2]]];
      first [reflexivity | discriminate Hd | discriminate Hd1
             | injection Hd1 as <-; congruence] ]
  | let Hd := fresh in intros Hd; first [reflexivity | discriminate Hd] ].

Section MainMore.

Context {arith : Arithmetic}.
Variable float_of_string : string -> option Q.

(** X13: [main] creates the output directory exactly when no fatal condition
    holds and a claim of a known pharmacy remains, whatever happens to
    the goals afterwards; no file is written without it. *)
Theorem main_makes_directory_after_checks
    (pf cf rf : list DataFrame) (res : E unit) (w : World) :
  main float_of_string pf cf rf initial_world = (res, w) ->
  (made_dir w = true <->
   fatal (load_data_from_dirs pf) (load_data_from_dirs cf) = false /\
   exists claims,
     known_claims (load_data_from_dirs pf) (load_data_from_dirs cf) = inr claims /\
     empty claims = false) /\
  (made_dir w = false -> written w = []).
Proof.
  rewrite main_run. cbv zeta. unfold fatal, known_claims.
  set (P := load_data_from_dirs pf). set (C := load_data_from_dirs cf).
  set (R := load_data_from_dirs rf). clearbody P C R.
  rewrite <- orb_assoc.
  destruct (empty P || negb (has_column P "npi")) eqn:HP; [dir_case|].
  destruct (empty C || negb (has_column C "npi")) eqn:HC; [dir_case|].
  cbn [orb].
  destruct (dropna P ["npi"]) as [e|P']; cbn [bindE]; [dir_case|].
  destruct (dropna C ["npi"; "id"]) as [e|C']; cbn [bindE]; [dir_case|].
  destruct (getitem C' "npi") as [e|cn]; cbn [bindE]; [dir_case|].
  destruct (getitem P' "npi") as [e|pn]; cbn [bindE retE]; [dir_case|].
  destruct (empty (getitem_mask C' (isin cn pn))) eqn:HF; [dir_case|].
  destruct (goal_2_metrics float_of_string _ R) as [e|g2]; [dir_case|].
  destruct (goal_3_recommendations float_of_string _ P' R) as [e|g3]; [dir_case|].
  destruct (goal_4_coerced float_of_string _) as [e|F']; [dir_case|].
  destruct (goal_4_ranking F') as [e|g4]; dir_case.
Qed.

End MainMore.

(** ** Goal 2: missing labels and the shape of the result *)

Lemma groupby_agg_ok (df : DataFrame) (by_ : list string)
    (specs : list (string * (string * aggfunc))) :
  missing_labels df by_ = [] ->
  missing_labels df (map (fun sp => fst (snd sp)) specs) = [] ->
  groupby_agg df by_ specs =
  inr (mkDataFrame (by_ ++ map fst specs)
         (map (fun g =>
                 combine by_ (fst g) ++
                 map (fun sp =>
                        (fst sp,
                         aggregate (snd (snd sp))
                           (map (fun r => field r (fst (snd sp))) (snd g))))
                   specs)
            (groups by_ (rows df)))).
Proof.
  intros Hb Hs. unfold groupby_agg, groupby. rewrite Hb. cbn [bindE retE].
  now rewrite Hs.
Qed.

Lemma merge_ok (left right : DataFrame) (on : list string) (h : how) :
  missing_labels left on = [] -> missing_labels right on = [] ->
  exists rs,
    merge left right on h =
    inr (mkDataFrame
           (map (left_label left right on) (columns left) ++
            map (right_label left right on) (right_columns right on)) rs).
Proof.
  intros Hl Hr. unfold merge. rewrite Hl, Hr. cbn [app]. eauto.
Qed.

Section Goal2Shape.

Context {arith : Arithmetic}.
Variable float_of_string : string -> option Q.

Lemma goal_2_tail_ok (claims_df reverts_df metrics_df : DataFrame) :
  has_column claims_df "id" = true ->
  has_column reverts_df "claim_id" = true ->
  has_column claims_df "npi" = true ->
  has_column claims_df "ndc" = true ->
  columns metrics_df = ["npi"; "ndc"; "avg_price"; "total_price"] ->
  exists out,
    (let* fills_count := goal_2_fills_count claims_df in
     let* reverts_count := goal_2_reverts_count claims_df reverts_df in
     let* result_df := merge fills_count reverts_count ["npi"; "ndc"] Left in
     let* result_df := merge result_df metrics_df ["npi"; "ndc"] Left in
     let* reverted := getitem result_df "reverted" in
     let result_df := setitem result_df "reverted" (astype_int (fillna (Num 0) reverted)) in
     let* avg_price := getitem result_df "avg_price" in
     let* total_price := getitem result_df "total_price" in
     let result_df := setitem result_df "avg_price" (fillna (Num 0) avg_price) in
     let result_df := setitem result_df "total_price" (fillna (Num 0) total_price) in
     let* avg_price := getitem result_df "avg_price" in
     let result_df := setitem result_df "avg_price" (round_2 round_avg avg_price) in
     let* total_price := getitem result_df "total_price" in
     let result_df := setitem result_df "total_price" (round_2 round_total total_price) in
     retE result_df) = inr out /\
    columns out = ["npi"; "ndc"; "fills"; "reverted"; "avg_price"; "total_price"].
Proof.
  intros Hid Hcid Hnpi Hndc Hmet.
  unfold goal_2_fills_count.
  rewrite groupby_agg_ok;
    [|unfold missing_labels; cbn [filter]; now rewrite Hnpi, Hndc
     |unfold missing_labels; cbn [filter map fst snd]; now rewrite Hid].
  cbn [bindE]. unfold goal_2_reverts_count.
  unfold getitem at 1. rewrite Hid. cbn [bindE retE].
  unfold getitem at 1. rewrite Hcid. cbn [bindE retE].
  unfold getitem_columns, getitem_mask, missing_labels. cbn [filter].
  rewrite !has_column_mk.
  change (mem "id" (columns claims_df)) with (has_column claims_df "id").
  change (mem "npi" (columns claims_df)) with (has_column claims_df "npi").
  change (mem "ndc" (columns claims_df)) with (has_column claims_df "ndc").
  rewrite Hid, Hnpi, Hndc. cbn [negb bindE retE].
  rewrite groupby_agg_ok by reflexivity. cbn [bindE].
  match goal with
  | |- context [merge ?l ?r ["npi"; "ndc"] Left] =>
      destruct (merge_ok l r ["npi"; "ndc"] Left eq_refl eq_refl) as [rs1 ->]
  end.
  cbn [bindE].
  destruct metrics_df as [mcols mrows]. cbn [columns] in Hmet. subst mcols.
  match goal with
  | |- context [merge ?l ?r ["npi"; "ndc"] Left] =>
      destruct (merge_ok l r ["npi"; "ndc"] Left eq_refl eq_refl) as [rs2 ->]
  end.
  cbn [bindE]. eexists. split; reflexivity.
Qed.

End Goal2Shape.

Section Goal2Errors.

Context {arith : Arithmetic}.
Variable float_of_string : string -> option Q.

Lemma valid_columns_mem (claims_df : DataFrame) (c : string) :
  mem c (if has_column claims_df "unit_price" then columns claims_df
         else columns claims_df ++ ["unit_price"]) =
  has_column claims_df c || String.eqb c "unit_price".
Proof.
  destruct (has_column claims_df "unit_price") eqn:Hu.
  - fold (has_column claims_df c). destruct (String.eqb c "unit_price") eqn:He.
    + apply String.eqb_eq in He. subst c. now rewrite Hu.
    + now rewrite orb_false_r.
  - rewrite mem_app. unfold mem at 2. cbn [existsb]. now rewrite orb_false_r.
Qed.

(** X1: Goal 2 raises [KeyError] for the first label it reads and does not
    find, in the order [id], [claim_id], [price], [quantity], [npi],
    [ndc]; with all six labels it returns a frame with the six labels
    of a fill metric. *)
Theorem goal_2_key_errors (claims_df reverts_df : DataFrame) :
  match goal_2_first_missing claims_df reverts_df with
  | Some k => goal_2_metrics float_of_string claims_df reverts_df = inl (KeyError k)
  | None =>
      exists out,
        goal_2_metrics float_of_string claims_df reverts_df = inr out /\
        columns out = ["npi"; "ndc"; "fills"; "reverted"; "avg_price"; "total_price"]
  end.
Proof.
  unfold goal_2_first_missing, goal_2_metrics, goal_2_price_metrics.
  rewrite goal_2_valid_claims_spec. unfold valid_claim_set, valid_claim_labels.
  destruct (has_column claims_df "id") eqn:Hid; cbn [negb bindE]; [|reflexivity].
  destruct (has_column reverts_df "claim_id") eqn:Hcid; cbn [negb bindE];
    [|reflexivity].
  destruct (has_column claims_df "price") eqn:Hp; cbn [negb bindE]; [|reflexivity].
  destruct (has_column claims_df "quantity") eqn:Hq; cbn [negb bindE retE];
    [|reflexivity].
  assert (Hmiss : forall c,
             has_column
               (mkDataFrame
                  (if has_column claims_df "unit_price" then columns claims_df
                   else columns claims_df ++ ["unit_price"])
                  (map with_unit_price
                     (positive_claim_rows float_of_string claims_df reverts_df))) c =
             has_column claims_df c || String.eqb c "unit_price").
  { intros c. rewrite has_column_mk. apply valid_columns_mem. }
  destruct (has_column claims_df "npi") eqn:Hnpi; cbn [negb].
  - destruct (has_column claims_df "ndc") eqn:Hndc; cbn [negb].
    + rewrite groupby_agg_ok.
      * cbn [bindE]. apply goal_2_tail_ok; auto.
      * unfold missing_labels. cbn [filter]. now rewrite !Hmiss, Hnpi, Hndc.
      * unfold missing_labels. cbn [filter map fst snd]. rewrite !Hmiss, Hp.
        change (String.eqb "unit_price" "unit_price") with true.
        now rewrite orb_true_r.
    + unfold groupby_agg, groupby, missing_labels. cbn [filter].
      rewrite !Hmiss, Hnpi, Hndc. reflexivity.
  - unfold groupby_agg, groupby, missing_labels. cbn [filter].
    rewrite !Hmiss, Hnpi. reflexivity.
Qed.

End Goal2Errors.

(** ** Goal 2: one row for each prescriber and drug *)

Lemma matches_le_1 (right : DataFrame) (on : list string) (l : row) :
  distinct_by (fun t1 t2 => key_eqb (key_of on t1) (key_of on t2)) (rows right) ->
  List.length (matches right on l) <= 1.
Proof.
  intros Hd. unfold matches.
  apply (distinct_filter_le_1 _ _ _ Hd).
  intros x y _ _ Hx Hy. rewrite key_eqb_sym in Hy. eauto using key_eqb_trans.
Qed.

(** A left join against a frame with distinct keys gives one row for
    each row of the left frame. *)
Lemma merge_left_unique (left right out : DataFrame) (on : list string) :
  merge left right on Left = inr out ->
  distinct_by (fun t1 t2 => key_eqb (key_of on t1) (key_of on t2)) (rows right) ->
  rows out =
  map (fun l => joined left right on l (hd [] (matches right on l))) (rows left).
Proof.
  unfold merge.
  destruct (missing_labels left on ++ missing_labels right on); [|discriminate].
  intros [= <-] Hd. cbn [rows].
  induction (rows left) as [|l ls IH]; [reflexivity|].
  cbn [flat_map map]. rewrite IH.
  pose proof (matches_le_1 right on l Hd) as Hle.
  destruct (matches right on l) as [|m [|m' ms]]; cbn [List.length] in Hle;
    [reflexivity|reflexivity|lia].
Qed.

Lemma goal_2_postprocess_rows {arith : Arithmetic} (m2 out : DataFrame) :
  (let* reverted := getitem m2 "reverted" in
   let result_df := setitem m2 "reverted" (astype_int (fillna (Num 0) reverted)) in
   let* avg_price := getitem result_df "avg_price" in
   let* total_price := getitem result_df "total_price" in
   let result_df := setitem result_df "avg_price" (fillna (Num 0) avg_price) in
   let result_df := setitem result_df "total_price" (fillna (Num 0) total_price) in
   let* avg_price := getitem result_df "avg_price" in
   let result_df := setitem result_df "avg_price" (round_2 round_avg avg_price) in
   let* total_price := getitem result_df "total_price" in
   let result_df := setitem result_df "total_price" (round_2 round_total total_price) in
   retE result_df) = inr out ->
  rows out = map goal_2_finish_row (rows m2).
Proof.
  destruct m2 as [cols rs]. cbv zeta. cbn [rows].
  unfold astype_int, fillna, round_2.
  rewrite getitem_mk. destruct (mem "reverted" cols) eqn:Hr; [|discriminate].
  cbn [bindE]. rewrite !map_map.
  rewrite (setitem_mk cols rs "reverted"), Hr.
  set (rs1 := map _ rs).
  rewrite !getitem_mk.
  destruct (mem "avg_price" cols) eqn:Ha; [|discriminate].
  destruct (mem "total_price" cols) eqn:Ht; [|discriminate].
  cbn [bindE]. rewrite !map_map.
  rewrite (setitem_mk cols rs1 "avg_price"), Ha.
  set (rs2 := map _ rs1).
  assert (Htot : map (fun x => fill (Num 0) (field x "total_price")) rs1 =
                 map (fun x => fill (Num 0) (field x "total_price")) rs2).
  { unfold rs2. rewrite map_map. apply map_ext. intros x.
    now rewrite field_with_field_other. }
  rewrite Htot. rewrite (setitem_mk cols rs2 "total_price"), Ht.
  set (rs3 := map _ rs2).
  rewrite getitem_mk, Ha. cbn [bindE]. rewrite !map_map.
  rewrite (setitem_mk cols rs3 "avg_price"), Ha.
  set (rs4 := map _ rs3).
  rewrite getitem_mk, Ht. cbn [bindE]. rewrite !map_map.
  rewrite (setitem_mk cols rs4 "total_price"), Ht.
  intros [= <-]. cbn [rows].
  unfold rs4, rs3, rs2, rs1. rewrite !map_map. reflexivity.
Qed.

Lemma reverts_count_distinct (claims_df reverts_df reverts_count : DataFrame) :
  goal_2_reverts_count claims_df reverts_df = inr reverts_count ->
  distinct_by
    (fun t1 t2 => key_eqb (key_of ["npi"; "ndc"] t1) (key_of ["npi"; "ndc"] t2))
    (rows reverts_count).
Proof.
  intros H. apply reverts_count_inv in H. subst reverts_count. cbn [rows].
  apply grouped_rows_distinct. intros [k g] Hg.
  apply groups_in in Hg as [_ [_ [r [_ ->]]]]. reflexivity.
Qed.

Section Goal2Rows.

Context {arith : Arithmetic}.
Variable float_of_string : string -> option Q.

Lemma price_metrics_inv (claims_df reverts_df metrics_df : DataFrame) :
  goal_2_price_metrics float_of_string claims_df reverts_df = inr metrics_df ->
  metrics_df =
  mkDataFrame ["npi"; "ndc"; "avg_price"; "total_price"]
    (map (fun g : key * list row =>
            combine ["npi"; "ndc"] (fst g) ++
            [("avg_price", aggregate (Mean mean) (map (fun r => field r "unit_price") (snd g)));
             ("total_price", aggregate (Sum sum_price) (map (fun r => field r "price") (snd g)))])
       (groups ["npi"; "ndc"]
          (map with_unit_price
             (positive_claim_rows float_of_string claims_df reverts_df)))).
Proof.
  unfold goal_2_price_metrics. rewrite goal_2_valid_claims_spec.
  unfold valid_claim_set.
  destruct (valid_claim_labels claims_df reverts_df) as [e|[]]; [discriminate|].
  cbn [bindE retE]. intros H.
  apply groupby_agg_inv in H as [_ [_ ->]]. reflexivity.
Qed.

Lemma price_metrics_distinct (claims_df reverts_df metrics_df : DataFrame) :
  goal_2_price_metrics float_of_string claims_df reverts_df = inr metrics_df ->
  distinct_by
    (fun t1 t2 => key_eqb (key_of ["npi"; "ndc"] t1) (key_of ["npi"; "ndc"] t2))
    (rows metrics_df).
Proof.
  intros H. apply price_metrics_inv in H. subst metrics_df. cbn [rows].
  apply grouped_rows_distinct. intros [k g] Hg.
  apply groups_in in Hg as [_ [_ [r [_ ->]]]]. reflexivity.
Qed.

(** The rows of the result of Goal 2: one for each row of
    [fills_count], joined with its row of [reverts_count] and of
    [metrics_df] when there is one. *)
Lemma goal_2_rows (claims_df reverts_df out : DataFrame) :
  goal_2_metrics float_of_string claims_df reverts_df = inr out ->
  exists metrics_df fills_count reverts_count,
    goal_2_price_metrics float_of_string claims_df reverts_df = inr metrics_df /\
    goal_2_fills_count claims_df = inr fills_count /\
    goal_2_reverts_count claims_df reverts_df = inr reverts_count /\
    rows out =
    map (fun l =>
           goal_2_finish_row
             [("npi", field l "npi"); ("ndc", field l "ndc");
              ("fills", field l "fills");
              ("reverted",
               field (hd [] (matches reverts_count ["npi"; "ndc"] l)) "reverted");
              ("avg_price",
               field (hd [] (matches metrics_df ["npi"; "ndc"] l)) "avg_price");
              ("total_price",
               field (hd [] (matches metrics_df ["npi"; "ndc"] l)) "total_price")])
      (rows fills_count).
Proof.
  unfold goal_2_metrics.
  destruct (goal_2_price_metrics _ _ _) as [e|metrics_df] eqn:Hmet; [discriminate|].
  cbn [bindE].
  destruct (goal_2_fills_count claims_df) as [e|fills_count] eqn:Hfills;
    [discriminate|].
  cbn [bindE].
  destruct (goal_2_reverts_count claims_df reverts_df) as [e|reverts_count] eqn:Hrev;
    [discriminate|].
  cbn [bindE].
  destruct (merge fills_count reverts_count _ _) as [e|m1] eqn:Hm1; [discriminate|].
  cbn [bindE].
  destruct (merge m1 metrics_df _ _) as [e|m2] eqn:Hm2; [discriminate|].
  cbn [bindE].
  intros Hpost. exists metrics_df, fills_count, reverts_count.
  repeat split; auto.
  rewrite (goal_2_postprocess_rows m2 out Hpost).
  rewrite (merge_left_unique _ _ _ _ Hm2 (price_metrics_distinct _ _ _ Hmet)).
  rewrite (merge_left_unique _ _ _ _ Hm1 (reverts_count_distinct _ _ _ Hrev)).
  rewrite !map_map. apply map_ext. intros l. f_equal.
  assert (Hc_fills : columns fills_count = ["npi"; "ndc"; "fills"]).
  { apply fills_count_inv in Hfills as [_ ->]. reflexivity. }
  assert (Hc_rev : columns reverts_count = ["npi"; "ndc"; "reverted"]).
  { apply reverts_count_inv in Hrev. subst. reflexivity. }
  assert (Hc_met : columns metrics_df = ["npi"; "ndc"; "avg_price"; "total_price"]).
  { apply price_metrics_inv in Hmet. subst. reflexivity. }
  destruct (goal_2_first_join _ _ _ Hc_fills Hc_rev Hm1) as [Hc_m1 _].
  set (mrev := hd [] (matches reverts_count ["npi"; "ndc"] l)).
  assert (Hj1 : joined fills_count reverts_count ["npi"; "ndc"] l mrev =
                [("npi", field l "npi"); ("ndc", field l "ndc");
                 ("fills", field l "fills"); ("reverted", field mrev "reverted")]).
  { unfold joined, left_label, right_label, right_columns, overlap.
    rewrite Hc_fills, Hc_rev. reflexivity. }
  rewrite Hj1.
  assert (Hm : matches metrics_df ["npi"; "ndc"]
                 [("npi", field l "npi"); ("ndc", field l "ndc");
                  ("fills", field l "fills"); ("reverted", field mrev "reverted")] =
               matches metrics_df ["npi"; "ndc"] l) by reflexivity.
  rewrite Hm.
  unfold joined, left_label, right_label, right_columns, overlap.
  rewrite Hc_m1, Hc_met. reflexivity.
Qed.

End Goal2Rows.

Lemma finish_row_fields {arith : Arithmetic} (a b f rv av tv : cell) :
  let r := goal_2_finish_row
             [("npi", a); ("ndc", b); ("fills", f);
              ("reverted", rv); ("avg_price", av); ("total_price", tv)] in
  field r "npi" = a /\ field r "ndc" = b /\ field r "fills" = f /\
  field r "reverted" = int_cell (fill (Num 0) rv) /\
  field r "avg_price" = round_cell round_avg (fill (Num 0) av) /\
  field r "total_price" = round_cell round_total (fill (Num 0) tv).
Proof. cbv zeta. repeat split; reflexivity. Qed.

Lemma fills_count_keys (claims_df fills_count : DataFrame) :
  goal_2_fills_count claims_df = inr fills_count ->
  map (key_of ["npi"; "ndc"]) (rows fills_count) =
  map fst (groups ["npi"; "ndc"] (rows claims_df)).
Proof.
  intros H. apply fills_count_inv in H as [_ ->]. cbn [rows].
  rewrite map_map. apply map_ext_in. intros [k g] Hg.
  apply groups_in in Hg as [_ [_ [r [_ ->]]]]. reflexivity.
Qed.

Lemma numbers_of_unit_prices {arith : Arithmetic}
    (float_of_string : string -> option Q)
    (claims_df reverts_df : DataFrame) (rs : list row) :
  (forall c, In c rs ->
     In c (positive_claim_rows float_of_string claims_df reverts_df)) ->
  rs <> [] -> unit_prices rs <> [].
Proof.
  intros Hpos Hne. destruct rs as [|c rs]; [congruence|].
  destruct (positive_claim_rows_positive float_of_string _ _ c (Hpos c (or_introl eq_refl)))
    as (p & q & Hp & Hq & _).
  unfold unit_prices. cbn [map numbers flat_map]. rewrite Hp, Hq. discriminate.
Qed.

Section Goal2Keys.

Context {arith : Arithmetic}.
Variable float_of_string : string -> option Q.

(** X2: the result of Goal 2 has exactly one row for each pair of a
    prescriber and a drug that occurs, with neither value missing, in
    the claims: no two rows have the same pair, every such claim has
    its row, and every row has a claim with its pair. *)
Theorem goal_2_one_row_per_key (claims_df reverts_df out : DataFrame) :
  goal_2_metrics float_of_string claims_df reverts_df = inr out ->
  distinct_by
    (fun t1 t2 => key_eqb (key_of ["npi"; "ndc"] t1) (key_of ["npi"; "ndc"] t2))
    (rows out) /\
  (forall c, In c (rows claims_df) ->
     isna (field c "npi") = false -> isna (field c "ndc") = false ->
     exists r, In r (rows out) /\
       cell_eqb (field r "npi") (field c "npi") = true /\
       cell_eqb (field r "ndc") (field c "ndc") = true) /\
  (forall r, In r (rows out) ->
     exists c, In c (rows claims_df) /\
       field c "npi" = field r "npi" /\ field c "ndc" = field r "ndc").
Proof.
  intros H.
  destruct (goal_2_rows _ _ _ _ H)
    as (metrics_df & fills_count & reverts_count & _ & Hfills & _ & Hrows).
  rewrite Hrows.
  apply fills_count_inv in Hfills as [_ Hf].
  rewrite Hf. cbn [rows]. rewrite map_map.
  repeat split.
  - apply grouped_rows_distinct. intros [k g] Hg.
    apply groups_in in Hg as [_ [_ [r [_ ->]]]]. reflexivity.
  - apply grouped_rows_distinct. intros [k g] Hg.
    apply groups_in in Hg as [_ [_ [r [_ ->]]]]. reflexivity.
  - intros c Hc Hn1 Hn2.
    destruct (groups_covers ["npi"; "ndc"] (rows claims_df) c Hc) as [k [Hk Hkc]].
    { unfold key_isna. cbn [key_of map existsb]. now rewrite Hn1, Hn2. }
    eexists. split.
    + apply in_map_iff. eexists. split; [reflexivity|exact Hk].
    + apply groups_in in Hk as [_ [_ [r [_ ->]]]].
      unfold key_eqb in Hkc. cbn [key_of map forallb2] in Hkc.
      apply andb_true_iff in Hkc as [H1 H2].
      rewrite andb_true_r in H2. split; assumption.
  - intros r Hr. apply in_map_iff in Hr as [[k g] [<- Hg]].
    apply groups_in in Hg as [_ [_ [c [Hc ->]]]].
    exists c. repeat split; auto.
Qed.

Lemma key_of_with_unit_price (r : row) :
  key_of ["npi"; "ndc"] (with_unit_price r) = key_of ["npi"; "ndc"] r.
Proof.
  unfold with_unit_price. cbn [key_of map].
  now rewrite !field_with_field_other.
Qed.

Lemma valid_group (claims_df reverts_df : DataFrame) (k : key) (a b : cell) :
  key_eqb k [a; b] = true ->
  filter (fun r => key_eqb (key_of ["npi"; "ndc"] r) k)
    (map with_unit_price
       (positive_claim_rows float_of_string claims_df reverts_df)) =
  map with_unit_price (valid_of float_of_string claims_df reverts_df a b).
Proof.
  intros Hk. rewrite filter_map_swap. f_equal. unfold valid_of.
  apply filter_ext. intros r. rewrite key_of_with_unit_price.
  rewrite (key_eqb_congr _ _ _ Hk).
  unfold key_eqb. cbn [key_of map forallb2]. now rewrite andb_true_r.
Qed.

Lemma unit_prices_of_group (rs : list row) :
  numbers (map (fun r => field r "unit_price") (map with_unit_price rs)) =
  unit_prices rs.
Proof.
  unfold unit_prices. rewrite map_map. f_equal. apply map_ext. intros r.
  unfold with_unit_price. now rewrite field_with_field_same.
Qed.

Lemma prices_of_group (rs : list row) :
  numbers (map (fun r => field r "price") (map with_unit_price rs)) = prices rs.
Proof.
  unfold prices. rewrite map_map. f_equal. apply map_ext. intros r.
  unfold with_unit_price. now rewrite field_with_field_other.
Qed.

Lemma mean_of_numbers (s : Series) :
  round_cell round_avg (fill (Num 0) (aggregate (Mean mean) s)) =
  Num (round_avg (match numbers s with [] => 0%Q | l => mean l end)).
Proof.
  unfold aggregate. now destruct (numbers s).
Qed.

(** X3: in every row of the result of Goal 2, [total_price] is the sum
    of the prices, and [avg_price] the mean of the unit prices, of the
    claims of the row's prescriber and drug that are not reverted and
    have a numeric price and a positive quantity, both rounded to two
    places; for a prescriber and drug without such a claim both are the
    rounded 0.  Sum, mean, division and rounding are those of the
    arithmetic of the run. *)
Theorem goal_2_prices_of_valid_claims (claims_df reverts_df out : DataFrame) :
  goal_2_metrics float_of_string claims_df reverts_df = inr out ->
  forall r, In r (rows out) ->
    let valid :=
      valid_of float_of_string claims_df reverts_df (field r "npi") (field r "ndc") in
    field r "avg_price" =
      Num (round_avg (match valid with
                      | [] => 0%Q
                      | _ => mean (unit_prices valid)
                      end)) /\
    field r "total_price" =
      Num (round_total (match valid with
                        | [] => 0%Q
                        | _ => sum_price (prices valid)
                        end)).
Proof.
  intros H r Hr.
  destruct (goal_2_rows _ _ _ _ H)
    as (metrics_df & fills_count & reverts_count & Hmet & Hfills & _ & Hrows).
  rewrite Hrows in Hr. apply in_map_iff in Hr as [l [<- Hl]].
  destruct (fills_count_row _ _ _ Hfills Hl) as (a & b & Hna & Hnb & Hl_eq).
  match goal with
  | |- context [goal_2_finish_row
                  [("npi", ?a'); ("ndc", ?b'); ("fills", ?f);
                   ("reverted", ?rv); ("avg_price", ?av); ("total_price", ?tv)]] =>
      destruct (finish_row_fields a' b' f rv av tv)
        as (Hf1 & Hf2 & _ & _ & Hf5 & Hf6)
  end.
  cbv zeta in *. rewrite Hf1, Hf2, Hf5, Hf6. clear Hf1 Hf2 Hf5 Hf6.
  assert (Hla : field l "npi" = a) by now subst l.
  assert (Hlb : field l "ndc" = b) by now subst l.
  rewrite Hla, Hlb.
  pose proof (price_metrics_inv _ _ _ _ Hmet) as Hm.
  set (vrows := map with_unit_price
                  (positive_claim_rows float_of_string claims_df reverts_df)) in Hm.
  destruct (matches metrics_df ["npi"; "ndc"] l) as [|m ms] eqn:Hmatch.
  - (* no valid claim for this key *)
    assert (Hv : valid_of float_of_string claims_df reverts_df a b = []).
    { destruct (valid_of float_of_string claims_df reverts_df a b) as [|v vs] eqn:Hv;
        [reflexivity|exfalso].
      assert (Hin : In v (valid_of float_of_string claims_df reverts_df a b))
        by (rewrite Hv; now left).
      unfold valid_of in Hin. apply filter_In in Hin as [Hpos Hkey].
      apply andb_true_iff in Hkey as [Hk1 Hk2].
      destruct (groups_covers ["npi"; "ndc"] vrows (with_unit_price v))
        as [k [Hk Hkv]].
      { unfold vrows. now apply in_map. }
      { rewrite key_of_with_unit_price. unfold key_isna. cbn [key_of map existsb].
        rewrite (cell_eqb_isna _ _ Hk1), (cell_eqb_isna _ _ Hk2), Hna, Hnb.
        reflexivity. }
      rewrite key_of_with_unit_price in Hkv.
      assert (Hkab : key_eqb k [a; b] = true).
      { apply (key_eqb_trans _ _ _ Hkv).
        unfold key_eqb. cbn [key_of map forallb2]. now rewrite Hk1, Hk2. }
      set (g := filter _ vrows) in Hk.
      assert (Hmem : In (combine ["npi"; "ndc"] k ++
                         [("avg_price",
                           aggregate (Mean mean) (map (fun r => field r "unit_price") g));
                          ("total_price",
                           aggregate (Sum sum_price) (map (fun r => field r "price") g))])
                       (matches metrics_df ["npi"; "ndc"] l)).
      { unfold matches. apply filter_In. split.
        - rewrite Hm. cbn [rows]. apply in_map_iff. exists (k, g). split; auto.
        - pose proof Hk as Hk'. apply groups_in in Hk' as [_ [_ [r0 [_ Hk0]]]].
          rewrite Hk0 in Hkab |- *.
          change (key_of ["npi"; "ndc"] l) with [field l "npi"; field l "ndc"].
          rewrite Hla, Hlb. exact Hkab. }
      rewrite Hmatch in Hmem. destruct Hmem. }
    rewrite Hv. split; reflexivity.
  - (* the row of [metrics_df] for this key *)
    assert (Hin : In m (matches metrics_df ["npi"; "ndc"] l))
      by (rewrite Hmatch; now left).
    cbn [hd]. unfold matches in Hin. apply filter_In in Hin as [Hmin Hmkey].
    rewrite Hm in Hmin. cbn [rows] in Hmin.
    apply in_map_iff in Hmin as [[k g] [<- Hg]].
    pose proof (groups_nonempty _ _ _ _ Hg) as Hne.
    apply groups_in in Hg as [Hg [_ [r0 [_ Hk0]]]].
    cbn [fst snd] in *. subst k.
    change (key_of ["npi"; "ndc"] l) with [field l "npi"; field l "ndc"] in Hmkey.
    rewrite Hla, Hlb in Hmkey.
    change (key_of ["npi"; "ndc"] (combine ["npi"; "ndc"] (key_of ["npi"; "ndc"] r0) ++ _))
      with (key_of ["npi"; "ndc"] r0) in Hmkey.
    unfold vrows in Hg. rewrite (valid_group _ _ _ a b Hmkey) in Hg. subst g.
    assert (Hpos : forall c,
               In c (valid_of float_of_string claims_df reverts_df a b) ->
               In c (positive_claim_rows float_of_string claims_df reverts_df)).
    { intros c Hc. unfold valid_of in Hc. now apply filter_In in Hc as [Hc _]. }
    assert (Hvne : valid_of float_of_string claims_df reverts_df a b <> []).
    { intros Hnil. rewrite Hnil in Hne. now apply Hne. }
    pose proof (numbers_of_unit_prices float_of_string claims_df reverts_df _
                  Hpos Hvne) as Hune.
    split.
    + change (field (combine ["npi"; "ndc"] (key_of ["npi"; "ndc"] r0) ++ _) "avg_price")
        with (aggregate (Mean mean)
                (map (fun r => field r "unit_price")
                   (map with_unit_price
                      (valid_of float_of_string claims_df reverts_df a b)))).
      rewrite mean_of_numbers, unit_prices_of_group.
      destruct (valid_of float_of_string claims_df reverts_df a b) as [|v vs];
        [congruence|].
      destruct (unit_prices (v :: vs)); [congruence|reflexivity].
    + change (field (combine ["npi"; "ndc"] (key_of ["npi"; "ndc"] r0) ++ _) "total_price")
        with (aggregate (Sum sum_price)
                (map (fun r => field r "price")
                   (map with_unit_price
                      (valid_of float_of_string claims_df reverts_df a b)))).
      unfold aggregate. rewrite prices_of_group.
      destruct (valid_of float_of_string claims_df reverts_df a b) as [|v vs];
        [congruence|reflexivity].
Qed.

End Goal2Keys.

(** ** Goal 3: the average price of a drug at a chain *)

Lemma field_app_other (r1 r2 : row) (c : string) :
  (forall x, In x r1 -> fst x <> c) -> field (r1 ++ r2) c = field r2 c.
Proof.
  induction r1 as [|[k v] r1 IH]; intros H; [reflexivity|].
  cbn [app field]. destruct (String.eqb k c) eqn:He.
  - apply String.eqb_eq in He. exfalso. apply (H (k, v)); [now left|exact He].
  - apply IH. intros x Hx. apply H. now right.
Qed.

(** A plain label of the joined frame that is no label of the left
    frame has the value of the right row. *)
Lemma field_joined_right (left right : DataFrame) (on : list string)
    (l m : row) (c : string) :
  plain_label c = true ->
  ~ In c (columns left) ->
  In c (map (left_label left right on) (columns left) ++
        map (right_label left right on) (right_columns right on)) ->
  field (joined left right on l m) c = field m c.
Proof.
  intros Hplain Hleft Hmerged.
  assert (Hl : forall c', In c' (columns left) -> left_label left right on c' <> c).
  { intros c' Hc'. unfold left_label.
    destruct (mem c' (overlap left right on)).
    - now apply plain_label_x.
    - intros ->. contradiction. }
  assert (Hr : forall c', right_label left right on c' = c -> c' = c).
  { intros c'. unfold right_label.
    destruct (mem c' (overlap left right on)); auto.
    intros H. now apply plain_label_y in H. }
  apply in_app_or in Hmerged as [H|H].
  { apply in_map_iff in H as [c' [Hc' Hin]]. now apply Hl in Hin. }
  apply in_map_iff in H as [c' [Hc' Hin]].
  pose proof (Hr _ Hc') as ->.
  unfold joined. rewrite field_app_other.
  - rewrite <- (app_nil_r (map _ (right_columns right on))).
    apply (field_build (right_label left right on) (field m)); auto.
  - intros x Hx. apply in_map_iff in Hx as [c' [<- Hc'in]]. cbn [fst]. now apply Hl.
Qed.

Lemma merge_inner_rows (left right out : DataFrame) (on : list string) :
  merge left right on Inner = inr out ->
  rows out =
  flat_map (fun l => map (joined left right on l) (matches right on l)) (rows left).
Proof.
  unfold merge.
  destruct (missing_labels left on ++ missing_labels right on); [|discriminate].
  intros [= <-]. cbn [rows].
  induction (rows left) as [|l ls IH]; [reflexivity|].
  cbn [flat_map]. rewrite IH. now destruct (matches right on l).
Qed.

Lemma filter_none {A} (p : A -> bool) (l : list A) :
  (forall x, In x l -> p x = false) -> filter p l = [].
Proof.
  induction l as [|x l IH]; intros H; [reflexivity|].
  cbn [filter]. rewrite (H x (or_introl eq_refl)). apply IH.
  intros y Hy. apply H. now right.
Qed.

(** The unit prices of a group of the joined frame are those of the
    claims of the drug, once for each pharmacy row of the chain. *)
Lemma chain_group_prices {arith : Arithmetic}
    (J : row -> row -> row) (P pos : list row) (k0 k1 : cell) :
  (forall l m, field (J l m) "ndc" = field l "ndc") ->
  (forall l m, field (J l m) "chain" = field m "chain") ->
  (forall l m, field (J l m) "unit_price" = field l "unit_price") ->
  map (fun r => field r "unit_price")
    (filter (fun r => key_eqb (key_of ["ndc"; "chain"] r) [k0; k1])
       (flat_map (fun l =>
                    map (J l)
                      (filter (fun m => key_eqb (key_of ["npi"] m) (key_of ["npi"] l)) P))
          (map with_unit_price pos))) =
  map (fun c => cell_div truediv (field c "price") (field c "quantity"))
    (flat_map (fun c =>
                 map (fun _ => c)
                   (filter (fun p => cell_eqb (field p "npi") (field c "npi") &&
                                     cell_eqb (field p "chain") k1) P))
       (filter (fun c => cell_eqb (field c "ndc") k0) pos)).
Proof.
  intros Hn Hc Hu. induction pos as [|c pos IH]; [reflexivity|].
  cbn [map flat_map]. rewrite filter_app, map_app, IH. clear IH.
  rewrite filter_map_swap, map_map.
  assert (Hhead :
    map (fun m => field (J (with_unit_price c) m) "unit_price")
      (filter (fun m => key_eqb (key_of ["ndc"; "chain"] (J (with_unit_price c) m)) [k0; k1])
         (filter (fun m => key_eqb (key_of ["npi"] m) (key_of ["npi"] (with_unit_price c))) P)) =
    map (fun c' => cell_div truediv (field c' "price") (field c' "quantity"))
      (if cell_eqb (field c "ndc") k0
       then map (fun _ => c)
              (filter (fun p => cell_eqb (field p "npi") (field c "npi") &&
                                cell_eqb (field p "chain") k1) P)
       else [])).
  { assert (Hkey : forall m,
              key_eqb (key_of ["ndc"; "chain"] (J (with_unit_price c) m)) [k0; k1] =
              cell_eqb (field c "ndc") k0 && cell_eqb (field m "chain") k1).
    { intros m. unfold key_eqb. cbn [key_of map forallb2]. rewrite Hn, Hc.
      unfold with_unit_price. rewrite field_with_field_other by reflexivity.
      now rewrite andb_true_r. }
    assert (Hnpi : forall m,
              key_eqb (key_of ["npi"] m) (key_of ["npi"] (with_unit_price c)) =
              cell_eqb (field m "npi") (field c "npi")).
    { intros m. unfold key_eqb. cbn [key_of map forallb2].
      unfold with_unit_price. rewrite field_with_field_other by reflexivity.
      now rewrite andb_true_r. }
    rewrite (filter_ext _ _ Hkey).
    rewrite (filter_ext _ _ Hnpi).
    destruct (cell_eqb (field c "ndc") k0) eqn:E2; cbn [andb].
    - induction P as [|m P IHP]; [reflexivity|].
      cbn [filter].
      destruct (cell_eqb (field m "npi") (field c "npi")) eqn:E1; cbn [filter andb];
        [|apply IHP].
      destruct (cell_eqb (field m "chain") k1) eqn:E3; cbn [map]; [|apply IHP].
      rewrite IHP. f_equal. rewrite Hu. unfold with_unit_price.
      now rewrite field_with_field_same.
    - rewrite (filter_none (fun _ : row => false)); [reflexivity|auto]. }
  rewrite Hhead.
  cbn [filter].
  destruct (cell_eqb (field c "ndc") k0); [|reflexivity].
  cbn [flat_map]. now rewrite map_app.
Qed.

Lemma chain_claims_congr (float_of_string : string -> option Q)
    (claims_df pharmacy_df reverts_df : DataFrame) (ndc ndc' chain : cell) :
  cell_eqb ndc ndc' = true ->
  chain_claims float_of_string claims_df pharmacy_df reverts_df ndc chain =
  chain_claims float_of_string claims_df pharmacy_df reverts_df ndc' chain.
Proof.
  intros H. unfold chain_claims. f_equal. apply filter_ext. intros c.
  now apply cell_eqb_congr_r.
Qed.

Lemma mean_of_prices {arith : Arithmetic} (s : Series) :
  numbers s <> [] ->
  round_cell round_avg (aggregate (Mean mean) s) = Num (round_avg (mean (numbers s))).
Proof.
  unfold aggregate. now destruct (numbers s).
Qed.

Lemma chain_claims_valid (float_of_string : string -> option Q)
    (claims_df pharmacy_df reverts_df : DataFrame) (ndc chain : cell) (c : row) :
  In c (chain_claims float_of_string claims_df pharmacy_df reverts_df ndc chain) ->
  In c (positive_claim_rows float_of_string claims_df reverts_df).
Proof.
  unfold chain_claims. intros H. apply in_flat_map in H as [c' [Hc' Hin]].
  apply in_map_iff in Hin as [_ [<- _]]. now apply filter_In in Hc' as [Hc' _].
Qed.

Section Goal3Prices.

Context {arith : Arithmetic}.
Variable float_of_string : string -> option Q.

Lemma avg_chain_price_values (claims_df pharmacy_df reverts_df avg : DataFrame) :
  has_column claims_df "ndc" = true ->
  has_column claims_df "chain" = false ->
  goal_3_avg_chain_price float_of_string claims_df pharmacy_df reverts_df = inr avg ->
  forall a, In a (rows avg) ->
    let cs := chain_claims float_of_string claims_df pharmacy_df reverts_df
                (field a "ndc") (field a "chain") in
    cs <> [] /\
    field a "avg_price" = Num (round_avg (mean (unit_prices cs))).
Proof.
  intros Hndc Hchain. unfold goal_3_avg_chain_price.
  destruct (goal_3_valid_claims _ _ _) as [e|valid] eqn:Hvalid; [discriminate|].
  cbn [bindE].
  destruct (merge valid pharmacy_df ["npi"] Inner) as [e|merged] eqn:Hmerge;
    [discriminate|].
  cbn [bindE].
  destruct (groupby_agg merged _ _) as [e|avg0] eqn:Hagg; [discriminate|].
  cbn [bindE].
  apply groupby_agg_inv in Hagg as [Hby [Hcol Havg0]].
  destruct avg0 as [cols0 rows0].
  assert (Hcols0 : cols0 = ["ndc"; "chain"; "avg_price"])
    by (injection Havg0 as Hc0 _; exact Hc0).
  assert (Hrows0 : rows0 =
            map (fun g : key * list row =>
                   combine ["ndc"; "chain"] (fst g) ++
                   [("avg_price",
                     aggregate (Mean mean) (map (fun r => field r "unit_price") (snd g)))])
              (groups ["ndc"; "chain"] (rows merged)))
    by (injection Havg0 as _ Hr0; exact Hr0).
  clear Havg0. subst cols0.
  rewrite getitem_mk.
  change (mem "avg_price" ["ndc"; "chain"; "avg_price"]) with true. cbn [bindE].
  unfold round_2. rewrite map_map.
  rewrite (setitem_mk ["ndc"; "chain"; "avg_price"] rows0 "avg_price"
             (fun r => round_cell round_avg (field r "avg_price"))).
  change (mem "avg_price" ["ndc"; "chain"; "avg_price"]) with true.
  intros Havg.
  assert (Hravg : rows avg =
               map (fun r => with_field r "avg_price" (round_cell round_avg (field r "avg_price")))
                 rows0) by (now inversion Havg).
  clear Havg.
  intros a Ha. rewrite Hravg in Ha.
  apply in_map_iff in Ha as [a0 [<- Ha0]].
  rewrite Hrows0 in Ha0.
  apply in_map_iff in Ha0 as [[k g] [<- Hg]].
  pose proof (groups_nonempty _ _ _ _ Hg) as Hne.
  apply groups_in in Hg as [Hgeq [_ [r [_ ->]]]].
  cbn [fst snd] in *.
  change (key_of ["ndc"; "chain"] r) with [field r "ndc"; field r "chain"] in *.
  cbn [combine app map fst snd].
  rewrite field_with_field_same.
  rewrite !field_with_field_other by reflexivity.
  change (field [("ndc", field r "ndc"); ("chain", field r "chain");
                 ("avg_price", aggregate (Mean mean) (map (fun r0 => field r0 "unit_price") g))]
            "ndc") with (field r "ndc").
  change (field [("ndc", field r "ndc"); ("chain", field r "chain");
                 ("avg_price", aggregate (Mean mean) (map (fun r0 => field r0 "unit_price") g))]
            "chain") with (field r "chain").
  change (field [("ndc", field r "ndc"); ("chain", field r "chain");
                 ("avg_price", aggregate (Mean mean) (map (fun r0 => field r0 "unit_price") g))]
            "avg_price")
    with (aggregate (Mean mean) (map (fun r0 => field r0 "unit_price") g)).
  (* the labels of the joined frame *)
  rewrite goal_3_valid_claims_spec in Hvalid. unfold valid_claim_set in Hvalid.
  destruct (valid_claim_labels claims_df reverts_df) as [e|[]]; [discriminate|].
  cbn [bindE retE] in Hvalid.
  assert (Hvcols : columns valid =
            if has_column claims_df "unit_price" then columns claims_df
            else columns claims_df ++ ["unit_price"]) by (now inversion Hvalid).
  assert (Hvrows : rows valid =
            map with_unit_price
              (positive_claim_rows float_of_string claims_df reverts_df))
    by (now inversion Hvalid).
  clear Hvalid.
  assert (Hv_ndc : In "ndc" (columns valid)).
  { apply mem_in. unfold mem. fold (has_column valid "ndc"). unfold has_column.
    rewrite Hvcols. fold (mem "ndc" (if has_column claims_df "unit_price"
                                     then columns claims_df
                                     else columns claims_df ++ ["unit_price"])).
    rewrite valid_columns_mem, Hndc. reflexivity. }
  assert (Hv_up : In "unit_price" (columns valid)).
  { apply mem_in. rewrite Hvcols, valid_columns_mem. apply orb_true_r. }
  assert (Hv_chain : ~ In "chain" (columns valid)).
  { intros H. apply mem_in in H. rewrite Hvcols, valid_columns_mem, Hchain in H.
    discriminate. }
  destruct (merge_inv _ _ _ _ _ Hmerge) as [_ [_ [Hcols _]]].
  assert (Hm_ndc : In "ndc" (columns merged)).
  { unfold missing_labels in Hby. cbn [filter] in Hby.
    destruct (has_column merged "ndc") eqn:Hhas; [now apply mem_in|discriminate]. }
  assert (Hm_chain : In "chain" (columns merged)).
  { unfold missing_labels in Hby. cbn [filter] in Hby.
    destruct (has_column merged "ndc"); [|discriminate].
    cbn [negb] in Hby.
    destruct (has_column merged "chain") eqn:Hhas; [now apply mem_in|discriminate]. }
  assert (Hm_up : In "unit_price" (columns merged)).
  { unfold missing_labels in Hcol. cbn [filter map fst snd] in Hcol.
    destruct (has_column merged "unit_price") eqn:Hhas; [now apply mem_in|discriminate]. }
  rewrite Hcols in Hm_ndc, Hm_chain, Hm_up.
  pose proof (merge_inner_rows _ _ _ _ Hmerge) as Hmrows.
  rewrite Hvrows in Hmrows.
  assert (Hprices :
    map (fun r0 => field r0 "unit_price") g =
    map (fun c => cell_div truediv (field c "price") (field c "quantity"))
      (chain_claims float_of_string claims_df pharmacy_df reverts_df
         (field r "ndc") (field r "chain"))).
  { rewrite Hgeq, Hmrows. unfold matches, chain_claims.
    apply (chain_group_prices (joined valid pharmacy_df ["npi"])).
    - intros l m. now apply field_joined_left.
    - intros l m. now apply field_joined_right.
    - intros l m. now apply field_joined_left. }
  set (cs := chain_claims float_of_string claims_df pharmacy_df reverts_df
               (field r "ndc") (field r "chain")) in *.
  assert (Hcs : cs <> []).
  { intros Hnil. rewrite Hnil in Hprices. cbn [map] in Hprices.
    destruct g; [congruence|discriminate]. }
  split; [exact Hcs|].
  rewrite Hprices. fold (unit_prices cs).
  apply mean_of_prices.
  apply (numbers_of_unit_prices float_of_string claims_df reverts_df); auto.
  intros c Hc. now apply chain_claims_valid in Hc.
Qed.

(** X4: every chain that Goal 3 lists for a drug carries as [avg_price]
    the mean, rounded to two places, of the unit prices of the valid
    claims of the drug, each taken once for every row of the pharmacy
    frame that has the claim's [npi] and the chain; there is at least
    one such claim.  Mean, division and rounding are those of the
    arithmetic of the run. *)
Theorem goal_3_avg_price_of_chain (claims_df pharmacy_df reverts_df : DataFrame)
    (out : list (cell * list row)) :
  has_column claims_df "ndc" = true ->
  has_column claims_df "chain" = false ->
  goal_3_recommendations float_of_string claims_df pharmacy_df reverts_df = inr out ->
  forall ndc chains, In (ndc, chains) out ->
  forall c, In c chains ->
    let cs := chain_claims float_of_string claims_df pharmacy_df reverts_df
                ndc (field c "name") in
    cs <> [] /\
    field c "avg_price" = Num (round_avg (mean (unit_prices cs))).
Proof.
  intros Hndc Hchain H ndc chains Hin c Hc.
  destruct (goal_3_recommendations_inv _ _ _ _ _ H)
    as [avg [sorted [Havg [Hperm [_ ->]]]]].
  apply per_drug_record in Hin as [_ [_ ->]].
  unfold format_chains in Hc. apply in_map_iff in Hc as [a [<- Ha]].
  assert (Ha' : In a (filter (fun r => cell_eqb (field r "ndc") ndc) sorted)).
  { rewrite <- (firstn_skipn 2 (filter _ sorted)). apply in_or_app. now left. }
  clear Ha. apply filter_In in Ha' as [Ha Han].
  apply (Permutation_in _ (Permutation_sym Hperm)) in Ha.
  destruct (avg_chain_price_values _ _ _ _ Hndc Hchain Havg a Ha) as [Hcs Hval].
  cbv zeta.
  change (field [("name", field a "chain"); ("avg_price", field a "avg_price")] "name")
    with (field a "chain").
  change (field [("name", field a "chain"); ("avg_price", field a "avg_price")] "avg_price")
    with (field a "avg_price").
  rewrite <- (chain_claims_congr float_of_string _ _ _ _ _ (field a "chain") Han).
  split; assumption.
Qed.

End Goal3Prices.

(** ** The properties above on the example inputs *)

Lemma six_quantities_run :
  calculate_goal_4_common_quantities decimal_of_string 0
    (mkWorld [claims_six_quantities] false []) =
  (inr [(Str "D1", [Num 1; Num 2; Num 3; Num 4; Num 5]); (Str "D2", [Num 7])],
   snd (calculate_goal_4_common_quantities decimal_of_string 0
          (mkWorld [claims_six_quantities] false []))).
Proof. vm_compute. reflexivity. Defined.

Lemma goal_4_keeps_most_frequent_witness :
  In (claim_of "c" "D1" 6) (rows claims_six_quantities) /\
  ~ In (Num 6) [Num 1; Num 2; Num 3; Num 4; Num 5] /\
  ((exists q, In q [Num 1; Num 2; Num 3; Num 4; Num 5] /\ cell_eqb q (Num 6) = true) \/
   (List.length [Num 1; Num 2; Num 3; Num 4; Num 5] = 5 /\
    forall q, In q [Num 1; Num 2; Num 3; Num 4; Num 5] ->
      frequency decimal_of_string claims_six_quantities (Str "D1") (Num 6) <=
      frequency decimal_of_string claims_six_quantities (Str "D1") q)).
Proof.
  assert (Hc : In (claim_of "c" "D1" 6) (rows claims_six_quantities)).
  { vm_compute. do 20 right. left. reflexivity. }
  split; [exact Hc|]. split.
  { intros H. repeat (destruct H as [H|H]; [discriminate H|]). exact H. }
  exact (goal_4_keeps_most_frequent decimal_of_string 0 _ _ _ six_quantities_run
           (Str "D1") [Num 1; Num 2; Num 3; Num 4; Num 5] (or_introl eq_refl)
           (claim_of "c" "D1" 6) 6%Q Hc eq_refl eq_refl).
Defined.

Lemma goal_4_quantities_distinct_witness :
  distinct_by cell_eqb [Num 1; Num 2; Num 3; Num 4; Num 5].
Proof.
  exact (goal_4_quantities_distinct decimal_of_string 0 _ _ _ six_quantities_run
           (Str "D1") [Num 1; Num 2; Num 3; Num 4; Num 5] (or_introl eq_refl)).
Defined.

Lemma goal_4_one_record_per_drug_witness :
  distinct_by cell_eqb [Str "D1"; Str "D2"] /\
  forall c q,
    In c (rows claims_six_quantities) ->
    isna (field c "ndc") = false ->
    coerce decimal_of_string (field c "quantity") = Num q ->
    exists ndc qs,
      In (ndc, qs)
         [(Str "D1", [Num 1; Num 2; Num 3; Num 4; Num 5]); (Str "D2", [Num 7])] /\
      cell_eqb ndc (field c "ndc") = true.
Proof.
  destruct (goal_4_one_record_per_drug decimal_of_string 0 _ _ _ six_quantities_run)
    as [Hd [Hcov _]].
  split; [exact Hd|exact Hcov].
Defined.

Lemma goal_4_second_call_witness :
  let w := mkWorld [claims_odd_quantities] false [] in
  let w' := snd (calculate_goal_4_common_quantities decimal_of_string 0 w) in
  calculate_goal_4_common_quantities decimal_of_string 0 w =
    (inr [(Str "D1", [Num 0; Num 10])], w') /\
  calculate_goal_4_common_quantities decimal_of_string 0 w' =
    (inr [(Str "D1", [Num 0; Num 10])], w').
Proof.
  cbv zeta.
  assert (Hrun : calculate_goal_4_common_quantities decimal_of_string 0
                   (mkWorld [claims_odd_quantities] false []) =
                 (inr [(Str "D1", [Num 0; Num 10])],
                  snd (calculate_goal_4_common_quantities decimal_of_string 0
                         (mkWorld [claims_odd_quantities] false []))))
    by (vm_compute; reflexivity).
  split; [exact Hrun|].
  exact (goal_4_second_call decimal_of_string 0 _ _ _ Hrun).
Defined.

Lemma three_chains_run :
  goal_3_recommendations (arith := decimal) decimal_of_string
    claims_three_chains pharmacy_three_chains no_reverts =
  inr [(Str "D1", [[("name", Str "B"); ("avg_price", Num (1000 # 100))];
                   [("name", Str "C"); ("avg_price", Num (2000 # 100))]])].
Proof. vm_compute. reflexivity. Defined.

Lemma goal_3_keeps_cheapest_witness :
  exists avg,
    goal_3_avg_chain_price (arith := decimal) decimal_of_string
      claims_three_chains pharmacy_three_chains no_reverts = inr avg /\
    In [("ndc", Str "D1"); ("chain", Str "A"); ("avg_price", Num (3000 # 100))]
       (rows avg) /\
    forall a, In a (rows avg) -> cell_eqb (field a "ndc") (Str "D1") = true ->
      In (chain_record a)
         [[("name", Str "B"); ("avg_price", Num (1000 # 100))];
          [("name", Str "C"); ("avg_price", Num (2000 # 100))]] \/
      (List.length
         [[("name", Str "B"); ("avg_price", Num (1000 # 100))];
          [("name", Str "C"); ("avg_price", Num (2000 # 100))]] = 2 /\
       forall c,
         In c [[("name", Str "B"); ("avg_price", Num (1000 # 100))];
               [("name", Str "C"); ("avg_price", Num (2000 # 100))]] ->
         price_le c (chain_record a)).
Proof.
  destruct (goal_3_keeps_cheapest decimal_of_string _ _ _ _ three_chains_run)
    as [avg [Havg H]].
  exists avg. split; [exact Havg|]. split.
  - vm_compute in Havg. injection Havg as <-. left. reflexivity.
  - exact (H (Str "D1") _ (or_introl eq_refl)).
Defined.

Lemma goal_3_one_record_per_drug_witness :
  distinct_by cell_eqb [Str "D1"] /\
  distinct_by (fun c1 c2 => cell_eqb (field c1 "name") (field c2 "name"))
    [[("name", Str "B"); ("avg_price", Num (1000 # 100))];
     [("name", Str "C"); ("avg_price", Num (2000 # 100))]].
Proof.
  destruct (goal_3_one_record_per_drug decimal_of_string _ _ _ _ three_chains_run)
    as [avg [_ [Hd [_ Hc]]]].
  split; [exact Hd|].
  exact (Hc (Str "D1") _ (or_introl eq_refl)).
Defined.

Lemma goal_3_avg_price_of_chain_witness :
  goal_3_recommendations (arith := decimal) decimal_of_string scen_claims scen_pharmacy scen_reverts =
    inr [(Str "D1", [[("name", Str "B"); ("avg_price", Num (500 # 100))]])] /\
  chain_claims decimal_of_string scen_claims scen_pharmacy scen_reverts
    (Str "D1") (Str "B") <> [] /\
  Num (500 # 100) =
  Num (round2
         (Qmean
            (unit_prices (arith := decimal)
               (chain_claims decimal_of_string scen_claims scen_pharmacy scen_reverts
                  (Str "D1") (Str "B"))))).
Proof.
  assert (Hrun : goal_3_recommendations (arith := decimal) decimal_of_string
                   scen_claims scen_pharmacy scen_reverts =
                 inr [(Str "D1", [[("name", Str "B"); ("avg_price", Num (500 # 100))]])])
    by (vm_compute; reflexivity).
  split; [exact Hrun|].
  exact (goal_3_avg_price_of_chain decimal_of_string
           scen_claims scen_pharmacy scen_reverts _ eq_refl eq_refl Hrun
           (Str "D1") _ (or_introl eq_refl)
           [("name", Str "B"); ("avg_price", Num (500 # 100))] (or_introl eq_refl)).
Defined.


Lemma main_makes_directory_after_checks_witness :
  main (arith := decimal) decimal_of_string [scen_pharmacy] [scen_claims] [scen_reverts] initial_world =
    (fst scen_run, snd scen_run) /\
  (made_dir (snd scen_run) = true <->
   fatal (load_data_from_dirs [scen_pharmacy]) (load_data_from_dirs [scen_claims]) =
     false /\
   exists claims,
     known_claims (load_data_from_dirs [scen_pharmacy])
       (load_data_from_dirs [scen_claims]) = inr claims /\
     empty claims = false) /\
  (made_dir (snd scen_run) = false -> written (snd scen_run) = []).
Proof.
  split; [exact scen_run_eq|].
  exact (main_makes_directory_after_checks decimal_of_string
           [scen_pharmacy] [scen_claims] [scen_reverts]
           (fst scen_run) (snd scen_run) scen_run_eq).
Defined.

Lemma goal_2_one_row_per_key_witness :
  exists out,
    goal_2_metrics (arith := decimal) decimal_of_string scen_claims scen_reverts = inr out /\
    distinct_by
      (fun t1 t2 => key_eqb (key_of ["npi"; "ndc"] t1) (key_of ["npi"; "ndc"] t2))
      (rows out) /\
    forall c, In c (rows scen_claims) ->
      isna (field c "npi") = false -> isna (field c "ndc") = false ->
      exists r, In r (rows out) /\
        cell_eqb (field r "npi") (field c "npi") = true /\
        cell_eqb (field r "ndc") (field c "ndc") = true.
Proof.
  destruct (goal_2_metrics (arith := decimal) decimal_of_string scen_claims scen_reverts)
    as [e|out] eqn:H; [vm_compute in H; discriminate|].
  exists out. split; [reflexivity|].
  destruct (goal_2_one_row_per_key decimal_of_string scen_claims scen_reverts out H)
    as [Hd [Hc _]].
  split; [exact Hd|exact Hc].
Defined.

Lemma goal_2_prices_of_valid_claims_witness :
  exists out,
    goal_2_metrics (arith := decimal) decimal_of_string scen_claims scen_reverts = inr out /\
    forall r, In r (rows out) ->
      let valid :=
        valid_of decimal_of_string scen_claims scen_reverts
          (field r "npi") (field r "ndc") in
      field r "avg_price" =
        Num (round2 (match valid with
                     | [] => 0%Q
                     | _ => Qmean (unit_prices (arith := decimal) valid)
                     end)) /\
      field r "total_price" =
        Num (round2 (match valid with
                     | [] => 0%Q
                     | _ => Qsum (prices valid)
                     end)).
Proof.
  destruct (goal_2_metrics (arith := decimal) decimal_of_string scen_claims scen_reverts)
    as [e|out] eqn:H; [vm_compute in H; discriminate|].
  exists out. split; [reflexivity|].
  exact (goal_2_prices_of_valid_claims decimal_of_string scen_claims scen_reverts out H).
Defined.

